(** * Bookmark organizer: the chunker and the categorization pipeline

    A shallow embedding of [src/utils/chunker.py] (class [BookmarkChunker])
    and of [src/agents/categorizer.py] (class [CategorizerAgent]), with the
    properties of both.

    Conventions.
    - A Python [str] is a [string]; its characters are code points below 256.
    - A Python [int] is a [Z].
    - A Python [dict] is an association list in insertion order.
    - A raised exception is the [Raise] case of [Result].
    - Library calls whose code is not part of the repository (the HTML
      parser, the JSON codec, the HTTP client) are variables of the section
      that uses them. *)

From Stdlib Require Import List String Ascii ZArith Lia Bool Arith.
From Stdlib Require Import DecimalString Permutation.
Import ListNotations.

Set Warnings "-register-all".

Local Open Scope string_scope.
Local Open Scope Z_scope.

(** ** Exceptions *)

(** Values decoded from JSON text, as [json.loads] builds them:
    [None], [bool], [int], [float] (kept as its literal), [str], [list]
    and [dict]. *)
Inductive JSON : Type :=
| JNone
| JBool (b : bool)
| JInt (z : Z)
| JFloat (literal : string)
| JStr (s : string)
| JList (items : list JSON)
| JDict (entries : list (string * JSON)).

(** The texts of the exceptions the two classes raise.  A constructor is
    one f-string of the source; its arguments are the interpolated values. *)
Inductive Message : Type :=
| MustBeDictionary                                 (* "Response must be a dictionary" *)
| MustContainList (category : string)              (* "Category '..' must contain a list of bookmarks" *)
| InvalidBookmark (category : string) (bookmark : JSON)
| MissingRequiredFields (category : string) (bookmark : JSON)
| InvalidJSONResponse                              (* "Invalid JSON response: .." *)
| FailedToParseResponse (cause : Message)          (* "Failed to parse response: .." *)
| EmptyResponse                                    (* "Empty response from LLM" *)
| FailedToCommunicate (detail : string)            (* "Failed to communicate with Ollama: .." *)
| FailedToProcess (detail : string)                (* "Failed to process with Ollama: .." *)
| FailedToCategorize (failed_chunks : list Z).     (* "Failed to categorize any bookmarks. Failed chunks: .." *)

Inductive PyError : Type :=
| ValueError (msg : Message)
| RetryError (last_attempt : PyError).             (* tenacity.RetryError *)

Inductive Result (A : Type) : Type :=
| Ok (value : A)
| Raise (exn : PyError).
Arguments Ok {A} value.
Arguments Raise {A} exn.

Definition bind {A B} (r : Result A) (k : A -> Result B) : Result B :=
  match r with
  | Ok a => k a
  | Raise e => Raise e
  end.

Declare Scope result_scope.
Delimit Scope result_scope with result.
Notation "x <- c ;; k" := (bind c (fun x => k))
  (at level 100, c at next level, right associativity) : result_scope.

Definition raises {A} (r : Result A) : Prop := exists e, r = Raise e.

(** ** The document tree of BeautifulSoup *)

Module Soup.

(** A node of a parsed document.  [html.parser] lower-cases tag and
    attribute names, so [name] is lower case. *)
Inductive Node : Type :=
| Doctype (text : string)
| NavigableString (text : string)
| Tag (name : string) (attrs : list (string * string)) (contents : list Node).

(** [Tag.descendants]: every node below [n], in document order. *)
Fixpoint descendants (n : Node) : list Node :=
  match n with
  | Tag _ _ contents => flat_map (fun c => c :: descendants c) contents
  | _ => []
  end.

Definition is_tag (name : string) (n : Node) : bool :=
  match n with
  | Tag name' _ _ => String.eqb name' name
  | _ => false
  end.

(** [n.find_all(name, recursive=True)] *)
Definition find_all (name : string) (n : Node) : list Node :=
  filter (is_tag name) (descendants n).

(** [n.find(name)]: the first match of [find_all], or [None]. *)
Definition find (name : string) (n : Node) : option Node :=
  hd_error (find_all name n).

(** [tag.append(child)]: [child] becomes the last of [tag.contents]. *)
Definition append (child : Node) (tag : Node) : Node :=
  match tag with
  | Tag name attrs contents => Tag name attrs (contents ++ [child])%list
  | other => other
  end.

Definition contents (n : Node) : list Node :=
  match n with
  | Tag _ _ contents => contents
  | _ => []
  end.

End Soup.

(** ** [BookmarkChunker] *)

Module Chunker.
Import Soup.

Record BookmarkChunker : Type := { max_bookmarks_per_chunk : Z }.

(** [BookmarkChunker.__init__]: the argument is stored as it comes. *)
Definition __init__ (max_bookmarks_per_chunk : Z) : Result BookmarkChunker :=
  Ok {| max_bookmarks_per_chunk := max_bookmarks_per_chunk |}.

Definition LF : string := String (ascii_of_nat 10) EmptyString.

(** The [DL] of the template as [html.parser] builds it: the [p] is never
    closed, so it holds the white space up to [</DL>].  Of a text that is
    only white space BeautifulSoup keeps one line feed if it has one: the
    line feed and the indentation between two lines of the template
    literal are the string [LF] in the tree. *)
Definition template_dl : Node :=
  Tag "dl" [] [Tag "p" [] [NavigableString LF]].

(** The template document around its [DL]. *)
Definition boilerplate (dl : Node) : Node :=
  Tag "[document]" []
    [ Doctype "NETSCAPE-Bookmark-file-1"; NavigableString LF;
      Tag "meta" [("http-equiv", "Content-Type");
                  ("content", "text/html; charset=UTF-8")] [];
      NavigableString LF;
      Tag "title" [] [NavigableString "Bookmarks"]; NavigableString LF;
      Tag "h1" [] [NavigableString "Bookmarks"]; NavigableString LF;
      dl ].

Section WithParser.

(** [reparse_dt dt] is [BeautifulSoup(str(dt), "html.parser").dt], the copy
    of [dt] that goes into a chunk. *)
Variable reparse_dt : Node -> Node.

(** [_create_chunk_html].  The chunk is kept as the document [chunk_soup];
    the method returns [str(chunk_soup)], the text of that document. *)
Definition _create_chunk_html (dt_elements : list Node) : Node :=
  let chunk_dl :=
    fold_left (fun chunk_dl dt => append (reparse_dt dt) chunk_dl)
              dt_elements template_dl in
  boilerplate chunk_dl.

(** [dt.find("a") is not None] *)
Definition is_bookmark (dt : Node) : bool :=
  match find "a" dt with
  | Some _ => true
  | None => false
  end.

(** The [for] loop of [chunk_content] and the [yield] after it; the result
    lists the chunks in the order they are yielded. *)
Fixpoint chunk_loop (self : BookmarkChunker) (all_dt : list Node)
    (current_chunk_dts : list Node) (current_bookmark_count : Z) : list Node :=
  match all_dt with
  | [] =>
      match current_chunk_dts with
      | [] => []
      | _ => [_create_chunk_html current_chunk_dts]
      end
  | dt :: rest =>
      let current_bookmark_count :=
        if is_bookmark dt then current_bookmark_count + 1
        else current_bookmark_count in
      let current_chunk_dts := (current_chunk_dts ++ [dt])%list in
      if current_bookmark_count >=? max_bookmarks_per_chunk self then
        _create_chunk_html current_chunk_dts :: chunk_loop self rest [] 0
      else
        chunk_loop self rest current_chunk_dts current_bookmark_count
  end.

(** The DT elements the chunker walks: [root_dl.find_all("dt",
    recursive=True)], none when the document has no [DL]. *)
Definition all_dt (soup : Node) : list Node :=
  match find "dl" soup with
  | None => []
  | Some root_dl => find_all "dt" root_dl
  end.

(** [chunk_content], from the parsed document [soup =
    BeautifulSoup(content, "html.parser")]. *)
Definition chunk_content (self : BookmarkChunker) (soup : Node) : list Node :=
  match find "dl" soup with
  | None => []
  | Some root_dl => chunk_loop self (find_all "dt" root_dl) [] 0
  end.

(** A caller's [BookmarkChunker(max).chunk_content(content)]. *)
Definition chunk_document (max : Z) (soup : Node) : Result (list Node) :=
  (self <- __init__ max ;; Ok (chunk_content self soup))%result.

(** What a chunk holds once the boilerplate of the template is taken off:
    the elements of its [DL] after those the template put there. *)
Definition chunk_elements (chunk : Node) : list Node :=
  match find "dl" chunk with
  | Some chunk_dl => skipn (List.length (contents template_dl)) (contents chunk_dl)
  | None => []
  end.

(** The number of elements of a chunk that count as bookmarks for the
    loop: those [is_bookmark] accepts, a DT with an A tag anywhere below
    it. *)
Definition bookmark_count (chunk : Node) : Z :=
  Z.of_nat (List.length (filter is_bookmark (chunk_elements chunk))).

End WithParser.

End Chunker.

(** ** Python strings and dictionaries *)

Module Py.

(** [c.isspace()] for a code point below 256. *)
Definition isspace (c : ascii) : bool :=
  let n := nat_of_ascii c in
  ((9 <=? n) && (n <=? 13) || (28 <=? n) && (n <=? 32)
   || (n =? 133) || (n =? 160))%nat.

Fixpoint lstrip (s : string) : string :=
  match s with
  | String c rest => if isspace c then lstrip rest else s
  | EmptyString => EmptyString
  end.

Fixpoint rstrip (s : string) : string :=
  match s with
  | String c rest =>
      match rstrip rest with
      | EmptyString => if isspace c then EmptyString else String c EmptyString
      | kept => String c kept
      end
  | EmptyString => EmptyString
  end.

(** [s.strip()] *)
Definition strip (s : string) : string := rstrip (lstrip s).

(** [s.startswith(prefix)] *)
Definition startswith (s prefix : string) : bool := String.prefix prefix s.

(** [s.endswith(suffix)]: some tail of [s] is [suffix]. *)
Fixpoint endswith (s suffix : string) : bool :=
  String.eqb s suffix ||
  match s with
  | String _ rest => endswith rest suffix
  | EmptyString => false
  end.

(** [s[n:]] for [n >= 0] *)
Fixpoint slice_from (n : nat) (s : string) : string :=
  match n, s with
  | S n', String _ rest => slice_from n' rest
  | _, _ => s
  end.

(** [s[:n]] for [n >= 0] *)
Fixpoint slice_to (n : nat) (s : string) : string :=
  match n, s with
  | S n', String c rest => String c (slice_to n' rest)
  | _, _ => EmptyString
  end.

(** [s[:-n]] for [n > 0]: all but the last [n] characters. *)
Definition slice_to_minus (n : nat) (s : string) : string :=
  slice_to (String.length s - n) s.

(** A [dict] with [str] keys, in insertion order. *)
Definition dict (V : Type) : Type := list (string * V).

Section Dict.
Context {V : Type}.

(** [key in d] *)
Fixpoint contains (key : string) (d : dict V) : bool :=
  match d with
  | [] => false
  | (k, _) :: rest => String.eqb k key || contains key rest
  end.

(** [d.get(key)] *)
Fixpoint get (key : string) (d : dict V) : option V :=
  match d with
  | [] => None
  | (k, v) :: rest => if String.eqb k key then Some v else get key rest
  end.

(** [d.get(key, default)] *)
Definition get_default (key : string) (default : V) (d : dict V) : V :=
  match get key d with
  | Some v => v
  | None => default
  end.

(** [d[key] = value]: a key already there keeps its place, a new one goes
    last. *)
Fixpoint setitem (key : string) (value : V) (d : dict V) : dict V :=
  match d with
  | [] => [(key, value)]
  | (k, v) :: rest =>
      if String.eqb k key then (k, value) :: rest
      else (k, v) :: setitem key value rest
  end.

Definition keys (d : dict V) : list string := map fst d.

End Dict.

(** [l[lo:hi]] for [0 <= lo <= hi] *)
Definition slice {A} (l : list A) (lo hi : Z) : list A :=
  firstn (Z.to_nat hi - Z.to_nat lo) (skipn (Z.to_nat lo) l).

(** [range(start, stop, step)] for [step > 0] *)
Definition range (start stop step : Z) : list Z :=
  map (fun k => start + Z.of_nat k * step)
      (seq 0 (Z.to_nat ((stop - start + step - 1) / step))).

(** [len(l)] *)
Definition len {A} (l : list A) : Z := Z.of_nat (List.length l).

End Py.

(** ** [tenacity]: the retry decorator of [_process] *)

Module Tenacity.

(** [stop_after_attempt(3)] *)
Definition stop_after_attempt : Z := 3.

(** [wait_exponential(multiplier, min, max)] after attempt
    [attempt_number]: [multiplier * 2 ** (attempt_number - 1)], kept
    between [max(0, min)] and [max]. *)
Definition wait_exponential (multiplier min max attempt_number : Z) : Z :=
  let exp := 2 ^ (attempt_number - 1) in
  let result := multiplier * exp in
  Z.max (Z.max 0 min) (Z.min result max).

End Tenacity.

(** ** [CategorizerAgent] *)

Module Categorizer.
Import Py.

(** What one run of the body of [_process] gets from the service: the text
    gathered from the streamed lines, an [httpx.HTTPError] (a transport
    fault, a time-out, an error status), or any other exception (a line that
    is not JSON, an error field in a line). *)
Inductive Reply : Type :=
| FullResponse (text : string)
| HTTPError (detail : string)
| OtherError (detail : string).

(** What the agent does to the outside, in the order it does it. *)
Inductive Event : Type :=
| Request (prompt : string)       (* one POST to /api/generate *)
| Sleep (seconds : Z).            (* one wait between two attempts *)

Definition is_request (e : Event) : bool :=
  match e with
  | Request _ => true
  | Sleep _ => false
  end.

Definition requests (events : list Event) : nat :=
  List.length (filter is_request events).

(** A map from category name to its bookmarks. *)
Definition CategoryMap : Type := dict (list JSON).

(** [str(e)] for the exceptions of the validation. *)
Fixpoint message_of (e : PyError) : Message :=
  match e with
  | ValueError msg => msg
  | RetryError last => message_of last
  end.

Section Agent.

(** [json.loads]: [None] stands for [json.JSONDecodeError]. *)
Variable json_loads : string -> option JSON.
(** [json.dumps(value, indent=2)] *)
Variable json_dumps : JSON -> string.

(** The service: its state, and its answer to one request. *)
Variable World : Type.
Variable ollama_generate : string -> World -> Reply * World.

Record Sys : Type := { world : World; trace : list Event }.

Definition emit (e : Event) (sys : Sys) : Sys :=
  {| world := world sys; trace := (trace sys ++ [e])%list |}.

(** The body of [_process]: one request, every exception turned into a
    [ValueError]. *)
Definition _process_body (prompt : string) (sys : Sys) : Result string * Sys :=
  let '(reply, w) := ollama_generate prompt (world sys) in
  let sys := emit (Request prompt) {| world := w; trace := trace sys |} in
  match reply with
  | FullResponse full_response => (Ok full_response, sys)
  | HTTPError detail => (Raise (ValueError (FailedToCommunicate detail)), sys)
  | OtherError detail => (Raise (ValueError (FailedToProcess detail)), sys)
  end.

(** [@retry(stop=stop_after_attempt(3), wait=wait_exponential(multiplier=1,
    min=4, max=10))] around the body: after a failed attempt either stop
    with [RetryError] or sleep and try again.  [remaining] is the number
    of attempts the stop rule still allows after this one. *)
Fixpoint retrying (remaining : nat) (attempt_number : Z) (prompt : string)
    (sys : Sys) : Result string * Sys :=
  match _process_body prompt sys with
  | (Ok full_response, sys) => (Ok full_response, sys)
  | (Raise e, sys) =>
      match remaining with
      | O => (Raise (RetryError e), sys)
      | S remaining =>
          let seconds := Tenacity.wait_exponential 1 4 10 attempt_number in
          retrying remaining (attempt_number + 1) prompt (emit (Sleep seconds) sys)
      end
  end.

(** [_process] *)
Definition _process (prompt : string) (sys : Sys) : Result string * Sys :=
  retrying (Z.to_nat (Tenacity.stop_after_attempt - 1)) 1 prompt sys.

(** The inner [for] of [_parse_response]: the bookmarks of one category. *)
Fixpoint validate_bookmarks (category : string) (bookmarks : list JSON)
  : Result unit :=
  match bookmarks with
  | [] => Ok tt
  | bookmark :: rest =>
      match bookmark with
      | JDict fields =>
          if negb (contains "title" fields) || negb (contains "url" fields)
          then Raise (ValueError (MissingRequiredFields category bookmark))
          else validate_bookmarks category rest
      | _ => Raise (ValueError (InvalidBookmark category bookmark))
      end
  end.

(** The outer [for] of [_parse_response], over [data.items()]; the result
    is [data] with the list of every category at hand. *)
Fixpoint validate_categories (items : dict JSON) : Result CategoryMap :=
  match items with
  | [] => Ok []
  | (category, bookmarks) :: rest =>
      match bookmarks with
      | JList bookmarks =>
          (_ <- validate_bookmarks category bookmarks ;;
           rest <- validate_categories rest ;;
           Ok ((category, bookmarks) :: rest))%result
      | _ => Raise (ValueError (MustContainList category))
      end
  end.

Definition validate (data : JSON) : Result CategoryMap :=
  match data with
  | JDict entries => validate_categories entries
  | _ => Raise (ValueError MustBeDictionary)
  end.

(** The clean-up of [_parse_response], up to the call of [json.loads]. *)
Definition clean_response (response : string) : string :=
  let response := strip response in
  let response :=
    if startswith response "```json" then slice_from 7 response
    else response in
  let response :=
    if startswith response "```" then slice_from 3 response else response in
  let response :=
    if endswith response "```" then slice_to_minus 3 response
    else response in
  strip response.

(** [_parse_response].  A failed [json.loads] is caught by the first
    handler, any exception of the validation by the second. *)
Definition _parse_response (response : string) : Result CategoryMap :=
  let response := clean_response response in
  match json_loads response with
  | None => Raise (ValueError InvalidJSONResponse)
  | Some data =>
      match validate data with
      | Ok data => Ok data
      | Raise e => Raise (ValueError (FailedToParseResponse (message_of e)))
      end
  end.

(** The merge of [categorize_bookmarks]:
    [for category, items in chunk_categories.items(): ...] *)
Fixpoint merge_categories (all_categories chunk_categories : CategoryMap)
  : CategoryMap :=
  match chunk_categories with
  | [] => all_categories
  | (category, items) :: rest =>
      let all_categories :=
        if negb (contains category all_categories)
        then setitem category [] all_categories
        else all_categories in
      let all_categories :=
        setitem category
          (get_default category [] all_categories ++ items)%list
          all_categories in
      merge_categories all_categories rest
  end.

Definition CHUNK_SIZE : Z := 10.
Definition max_retries : Z := 3.

(** The variables of the outer [for]. *)
Record Run : Type := {
  all_categories : CategoryMap;
  failed_chunks : list Z;
  sys : Sys
}.

(** The [try] block of one attempt: [None] when it reaches [break], the
    exception otherwise. *)
Definition try_chunk (prompt : string) (run : Run) : option PyError * Run :=
  let '(response, sys') := _process prompt (sys run) in
  let run := {| all_categories := all_categories run;
                failed_chunks := failed_chunks run; sys := sys' |} in
  match (response <- response ;;
         chunk_categories <- _parse_response response ;;
         match chunk_categories with
         | [] => Raise (ValueError EmptyResponse)
         | _ => Ok chunk_categories
         end)%result with
  | Raise e => (Some e, run)
  | Ok chunk_categories =>
      (None,
       {| all_categories :=
            merge_categories (all_categories run) chunk_categories;
          failed_chunks := failed_chunks run; sys := sys' |})
  end.

(** [while retry_count < max_retries: ...].  [fuel] bounds the number of
    iterations; [max_retries] of it is enough, see [retry_loop_fuel]. *)
Fixpoint retry_loop (fuel : nat) (chunk_num : Z) (prompt : string)
    (retry_count : Z) (run : Run) : Run :=
  match fuel with
  | O => run
  | S fuel =>
      if retry_count <? max_retries then
        match try_chunk prompt run with
        | (None, run) => run
        | (Some _, run) =>
            let retry_count := retry_count + 1 in
            let run :=
              if retry_count >=? max_retries then
                {| all_categories := all_categories run;
                   failed_chunks := (failed_chunks run ++ [chunk_num])%list;
                   sys := sys run |}
              else run in
            retry_loop fuel chunk_num prompt retry_count run
        end
      else run
  end.

(** The entry of [bookmark_data] for one bookmark. *)
Definition bookmark_entry (b : dict JSON) : JSON :=
  JDict [ ("title", get_default "title" (JStr "Untitled") b);
          ("url", get_default "url" (JStr EmptyString) b);
          ("folder", get_default "folder" (JStr EmptyString) b) ].

Definition LF : string := String (ascii_of_nat 10) EmptyString.
Definition indent : string := LF ++ "            ".

Definition make_prompt (chunk : list (dict JSON)) : string :=
  let bookmark_data := map bookmark_entry chunk in
  "Please categorize these bookmarks into meaningful groups:" ++ indent
  ++ json_dumps (JList bookmark_data) ++ indent ++ indent
  ++ "IMPORTANT: Respond with ONLY valid JSON in the exact format shown in the system prompt."
  ++ indent ++ "Do not include any other text or explanations.".

(** The chunk the outer [for] works on at index [i], and its number. *)
Definition chunk_at (bookmarks : list (dict JSON)) (i : Z) : list (dict JSON) :=
  slice bookmarks i (i + CHUNK_SIZE).

Definition chunk_num_at (i : Z) : Z := i / CHUNK_SIZE + 1.

(** The body of the outer [for]. *)
Definition process_chunk (bookmarks : list (dict JSON)) (run : Run) (i : Z)
  : Run :=
  let chunk := chunk_at bookmarks i in
  let chunk_num := chunk_num_at i in
  let prompt := make_prompt chunk in
  let retry_count := 0 in
  retry_loop (Z.to_nat max_retries) chunk_num prompt retry_count run.

(** [categorize_bookmarks] *)
Definition categorize_bookmarks (bookmarks : list (dict JSON)) (sys0 : Sys)
  : Result CategoryMap * Sys :=
  match bookmarks with
  | [] => (Ok [], sys0)
  | _ =>
      let run :=
        fold_left (process_chunk bookmarks)
          (range 0 (len bookmarks) CHUNK_SIZE)
          {| all_categories := []; failed_chunks := []; sys := sys0 |} in
      match failed_chunks run, all_categories run with
      | _ :: _, [] =>
          (Raise (ValueError (FailedToCategorize (failed_chunks run))), sys run)
      | _, _ => (Ok (all_categories run), sys run)
      end
  end.

End Agent.

Arguments world {World} _.
Arguments trace {World} _.
Arguments Build_Sys {World} _ _.
Arguments emit {World} e sys.
Arguments _process_body {World} ollama_generate prompt sys.
Arguments retrying {World} ollama_generate remaining attempt_number prompt sys.
Arguments _process {World} ollama_generate prompt sys.
Arguments all_categories {World} _.
Arguments failed_chunks {World} _.
Arguments sys {World} _.
Arguments Build_Run {World} _ _ _.
Arguments try_chunk json_loads {World} ollama_generate prompt run.
Arguments retry_loop json_loads {World} ollama_generate fuel chunk_num prompt
  retry_count run.
Arguments process_chunk json_loads json_dumps {World} ollama_generate
  bookmarks run i.
Arguments categorize_bookmarks json_loads json_dumps {World} ollama_generate
  bookmarks sys0.

End Categorizer.

(** ** A decoder for the examples

    [MiniJson.loads] decodes the JSON texts of the examples: objects,
    arrays, strings without escapes, integers, [true], [false] and [null].
    On any other text it answers [None].  The properties below hold for
    every decoder; this one instantiates them. *)

Module MiniJson.

Definition quote : ascii := ascii_of_nat 34.
Definition backslash : ascii := ascii_of_nat 92.

Definition is_ws (c : ascii) : bool :=
  let n := nat_of_ascii c in
  ((n =? 32) || (n =? 9) || (n =? 10) || (n =? 13))%nat.

Fixpoint skip_ws (s : string) : string :=
  match s with
  | String c rest => if is_ws c then skip_ws rest else s
  | EmptyString => EmptyString
  end.

Definition digit (c : ascii) : option Z :=
  let n := nat_of_ascii c in
  if ((48 <=? n) && (n <=? 57))%nat then Some (Z.of_nat n - 48) else None.

Fixpoint digits (acc : Z) (s : string) : Z * string :=
  match s with
  | String c rest =>
      match digit c with
      | Some d => digits (10 * acc + d) rest
      | None => (acc, s)
      end
  | EmptyString => (acc, s)
  end.

(** An integer without sign: [0], or a digit from 1 to 9 and more digits. *)
Definition natural (s : string) : option (Z * string) :=
  match s with
  | String c rest =>
      match digit c with
      | Some 0 => Some (0, rest)
      | Some d => Some (digits d rest)
      | None => None
      end
  | EmptyString => None
  end.

(** The characters of a string up to its closing quote. *)
Fixpoint chars (s : string) : option (string * string) :=
  match s with
  | EmptyString => None
  | String c rest =>
      if Ascii.eqb c quote then Some (EmptyString, rest)
      else if Ascii.eqb c backslash || (nat_of_ascii c <? 32)%nat then None
      else
        match chars rest with
        | Some (text, rest) => Some (String c text, rest)
        | None => None
        end
  end.

Section Composite.
Variable value : string -> option (JSON * string).

(** The values of an array after its first bracket, at least one. *)
Fixpoint elements (fuel : nat) (s : string) : option (list JSON * string) :=
  match fuel with
  | O => None
  | S fuel =>
      match value s with
      | None => None
      | Some (v, rest) =>
          match skip_ws rest with
          | String "," rest =>
              match elements fuel rest with
              | Some (vs, rest) => Some (v :: vs, rest)
              | None => None
              end
          | String "]" rest => Some ([v], rest)
          | _ => None
          end
      end
  end.

(** The members of an object after its first brace, at least one. *)
Fixpoint members (fuel : nat) (s : string)
  : option (list (string * JSON) * string) :=
  match fuel with
  | O => None
  | S fuel =>
      match skip_ws s with
      | String c rest =>
          if Ascii.eqb c quote then
            match chars rest with
            | None => None
            | Some (key, rest) =>
                match skip_ws rest with
                | String ":" rest =>
                    match value rest with
                    | None => None
                    | Some (v, rest) =>
                        match skip_ws rest with
                        | String "," rest =>
                            match members fuel rest with
                            | Some (ms, rest) => Some ((key, v) :: ms, rest)
                            | None => None
                            end
                        | String "}" rest => Some ([(key, v)], rest)
                        | _ => None
                        end
                    end
                | _ => None
                end
            end
          else None
      | EmptyString => None
      end
  end.

End Composite.

(** A [dict] from the members in the order read: a key read twice keeps
    its first place and its last value. *)
Definition dict_of (ms : list (string * JSON)) : Py.dict JSON :=
  fold_left (fun d m => Py.setitem (fst m) (snd m) d) ms [].

Fixpoint value (fuel : nat) (s : string) : option (JSON * string) :=
  match fuel with
  | O => None
  | S fuel =>
      match skip_ws s with
      | String "n" (String "u" (String "l" (String "l" rest))) =>
          Some (JNone, rest)
      | String "t" (String "r" (String "u" (String "e" rest))) =>
          Some (JBool true, rest)
      | String "f" (String "a" (String "l" (String "s" (String "e" rest)))) =>
          Some (JBool false, rest)
      | String "[" rest =>
          match skip_ws rest with
          | String "]" rest => Some (JList [], rest)
          | _ =>
              match elements (value fuel) fuel rest with
              | Some (vs, rest) => Some (JList vs, rest)
              | None => None
              end
          end
      | String "{" rest =>
          match skip_ws rest with
          | String "}" rest => Some (JDict [], rest)
          | _ =>
              match members (value fuel) fuel rest with
              | Some (ms, rest) => Some (JDict (dict_of ms), rest)
              | None => None
              end
          end
      | String "-" rest =>
          match natural rest with
          | Some (n, rest) => Some (JInt (- n), rest)
          | None => None
          end
      | String c rest =>
          if Ascii.eqb c quote then
            match chars rest with
            | Some (text, rest) => Some (JStr text, rest)
            | None => None
            end
          else
            match natural (String c rest) with
            | Some (n, rest) => Some (JInt n, rest)
            | None => None
            end
      | EmptyString => None
      end
  end.

Definition loads (s : string) : option JSON :=
  match value (S (String.length s)) s with
  | Some (v, rest) =>
      match skip_ws rest with
      | EmptyString => Some v
      | _ => None
      end
  | None => None
  end.

(** [text "{'A': []}"] is the text with a double quote for every
    apostrophe. *)
Fixpoint text (s : string) : string :=
  match s with
  | String c rest =>
      String (if Ascii.eqb c "'" then quote else c) (text rest)
  | EmptyString => EmptyString
  end.

End MiniJson.

(** ** Documents and services of the examples *)

Module Fixtures.
Import Soup.

(** [<DT><A HREF="url">title</A></DT>] *)
Definition bookmark (title url : string) : Node :=
  Tag "dt" [] [Tag "a" [("href", url)] [NavigableString title]].

(** [<DT><H3>name</H3><DL>items</DL></DT>] *)
Definition folder (name : string) (items : list Node) : Node :=
  Tag "dt" [] [Tag "h3" [] [NavigableString name]; Tag "dl" [] items].

Definition document (items : list Node) : Node :=
  Tag "[document]" [] [Tag "h1" [] [NavigableString "Bookmarks"];
                       Tag "dl" [] items].

Definition b1 : Node := bookmark "Rocq" "https://rocq-prover.org".
Definition b2 : Node := bookmark "Python" "https://python.org".
Definition b3 : Node := bookmark "News" "https://news.example".

Definition three_bookmarks : Node := document [b1; b2; b3].

(** The copy of a DT that the examples use: the same element. *)
Definition same (dt : Node) : Node := dt.

(** [{"title": title, "url": url}] *)
Definition item (title url : string) : JSON :=
  JDict [("title", JStr title); ("url", JStr url)].

(** The maps of the two chunks of the merge example. *)
Definition dev_a : Py.dict (list JSON) := [("Dev", [item "a" "u1"])].
Definition dev_b_news : Py.dict (list JSON) :=
  [("Dev", [item "b" "u2"]); ("News", [item "n" "u3"])].

(** [n] bookmarks, the [k]-th with the title [k] as an integer. *)
Definition bookmarks (n : nat) : list (Py.dict JSON) :=
  map (fun k => [("title", JInt (Z.of_nat k))]) (seq 0 n).

(** A folder with two bookmarks, and a bookmark after it. *)
Definition with_folder : Node := document [folder "Work" [b1; b2]; b3].

End Fixtures.

(** ** What the properties speak of *)

Module Observations.
Import Py Categorizer.

(** Every node a chunk holds once the boilerplate is taken off: its
    elements and all that is below them, in document order. *)
Definition chunk_nodes (chunk : Soup.Node) : list Soup.Node :=
  flat_map (fun element => element :: Soup.descendants element)
           (Chunker.chunk_elements chunk).

(** The places, counted from [first], of the chunks that got no map. *)
Fixpoint lost (first : Z) (fates : list (option CategoryMap)) : list Z :=
  match fates with
  | [] => []
  | None :: fates => first :: lost (first + 1) fates
  | Some _ :: fates => lost (first + 1) fates
  end.

(** The sizes of the pieces of [total] items cut every [size]: [size] as
    often as it fits, then the rest if there is one. *)
Definition counts (size total : Z) : list Z :=
  (repeat size (Z.to_nat (total / size))
   ++ (if total mod size =? 0 then [] else [total mod size]))%list.

Definition sum (l : list Z) : Z := fold_right Z.add 0 l.

(** An item the validator lets through: a [dict] with the keys [title]
    and [url]. *)
Definition accepted_item (item : JSON) : bool :=
  match item with
  | JDict fields => contains "title" fields && contains "url" fields
  | _ => false
  end.

(** A category the validator lets through: a list of accepted items. *)
Definition accepted_entry (entry : string * JSON) : bool :=
  match snd entry with
  | JList items => forallb accepted_item items
  | _ => false
  end.

(** The message of the validator about an item it refuses. *)
Definition item_error (category : string) (item : JSON) : Message :=
  match item with
  | JDict _ => MissingRequiredFields category item
  | _ => InvalidBookmark category item
  end.

(** How the specification reads an item: a mapping with a [title] key and
    a [url] key whose value is not the empty string. *)
Definition item_of_the_specification (item : JSON) : bool :=
  match item with
  | JDict fields =>
      contains "title" fields
      && match get "url" fields with
         | Some (JStr url) => negb (String.eqb url EmptyString)
         | Some _ => true
         | None => false
         end
  | _ => false
  end.


(** [value] is a [list]. *)
Definition is_list (value : JSON) : bool :=
  match value with
  | JList _ => true
  | _ => false
  end.

(** A validated map seen as the entries it was read from. *)
Definition as_entries (data : CategoryMap) : dict JSON :=
  map (fun entry => (fst entry, JList (snd entry))) data.

(** One round of the merge loop. *)
Definition merge_one (all_categories : CategoryMap) (category : string)
    (items : list JSON) : CategoryMap :=
  let all_categories :=
    if negb (contains category all_categories)
    then setitem category [] all_categories
    else all_categories in
  setitem category (get_default category [] all_categories ++ items)%list
          all_categories.

(** The items under [k] once [chunk] has been merged into [old]. *)
Definition joined (old chunk : option (list JSON)) : option (list JSON) :=
  match old, chunk with
  | Some here, Some more => Some (here ++ more)%list
  | Some here, None => Some here
  | None, Some more => Some more
  | None, None => None
  end.

(** The [j]-th slice of ten of a list. *)
Definition tenth {A} (l : list A) (j : nat) : list A :=
  firstn 10 (skipn (10 * j) l).

(** The events of one call of [_process]: one, two or three requests with
    a wait between two of them. *)
Definition wait (attempt_number : Z) : Event :=
  Sleep (Tenacity.wait_exponential 1 4 10 attempt_number).

Definition dispatch_shape (prompt : string) (events : list Event) : Prop :=
  events = [Request prompt]
  \/ events = [Request prompt; wait 1; Request prompt]
  \/ events = [Request prompt; wait 1; Request prompt; wait 2; Request prompt].

Section Agent.
Variable json_loads : string -> option JSON.
Variable json_dumps : JSON -> string.
Variable World : Type.
Variable ollama_generate : string -> World -> Reply * World.

Abbreviation Sys := (Sys World).
Abbreviation Run := (Run World).

(** One attempt at a chunk, without the merge: the category map of the
    chunk, or the exception that ends the attempt. *)
Definition attempt (prompt : string) (sys : Sys) : Result CategoryMap * Sys :=
  let '(response, sys) := _process ollama_generate prompt sys in
  ((response <- response ;;
    chunk_categories <- _parse_response json_loads response ;;
    match chunk_categories with
    | [] => Raise (ValueError EmptyResponse)
    | _ => Ok chunk_categories
    end)%result, sys).

(** The fate of a chunk: the map of its first attempt that goes through
    among [attempts], or [None] when they all fail. *)
Fixpoint outcome (attempts : nat) (prompt : string) (sys : Sys)
  : option CategoryMap * Sys :=
  match attempts with
  | O => (None, sys)
  | S attempts =>
      match attempt prompt sys with
      | (Ok chunk_categories, sys) => (Some chunk_categories, sys)
      | (Raise _, sys) => outcome attempts prompt sys
      end
  end.

(** A chunk's attempts end with its map merged or its number noted. *)
Definition settle (chunk_num : Z) (run : Run)
    (fate : option CategoryMap * Sys) : Run :=
  match fate with
  | (Some chunk_categories, s) =>
      {| all_categories := merge_categories (all_categories run) chunk_categories;
         failed_chunks := failed_chunks run; sys := s |}
  | (None, s) =>
      {| all_categories := all_categories run;
         failed_chunks := (failed_chunks run ++ [chunk_num])%list; sys := s |}
  end.

(** The chunks [categorize_bookmarks] walks, each with its number. *)
Definition chunks (bookmarks : list (dict JSON)) : list (list (dict JSON)) :=
  map (chunk_at bookmarks) (range 0 (len bookmarks) CHUNK_SIZE).

Definition chunk_numbers (bookmarks : list (dict JSON)) : list Z :=
  map chunk_num_at (range 0 (len bookmarks) CHUNK_SIZE).

(** The fate of every chunk in turn, the service going from one to the
    next. *)
Fixpoint outcomes (todo : list (list (dict JSON))) (sys : Sys)
  : list (option CategoryMap) * Sys :=
  match todo with
  | [] => ([], sys)
  | chunk :: todo =>
      let '(o, sys) :=
        outcome (Z.to_nat max_retries) (make_prompt json_dumps chunk) sys in
      let '(os, sys) := outcomes todo sys in
      (o :: os, sys)
  end.

(** The numbers of the chunks that failed for good. *)
Fixpoint failed (numbers : list Z) (fates : list (option CategoryMap))
  : list Z :=
  match numbers, fates with
  | n :: numbers, None :: fates => n :: failed numbers fates
  | _ :: numbers, Some _ :: fates => failed numbers fates
  | _, _ => []
  end.

(** The maps of the chunks that went through, merged in turn. *)
Fixpoint merged (all_categories : CategoryMap)
    (fates : list (option CategoryMap)) : CategoryMap :=
  match fates with
  | [] => all_categories
  | Some chunk_categories :: fates =>
      merged (merge_categories all_categories chunk_categories) fates
  | None :: fates => merged all_categories fates
  end.

End Agent.

Arguments settle {World} chunk_num run fate.
Arguments attempt json_loads {World} ollama_generate prompt sys.
Arguments outcome json_loads {World} ollama_generate attempts prompt sys.
Arguments outcomes json_loads json_dumps {World} ollama_generate todo sys.

End Observations.

(** ** Services of the examples *)

Module Services.
Import Categorizer.

(** A service that answers every request with the same text; its state
    counts the requests. *)
Definition always (text : string) (prompt : string) (served : nat)
  : Reply * nat :=
  (FullResponse text, S served).

(** A service that is down. *)
Definition down (prompt : string) (served : nat) : Reply * nat :=
  (HTTPError "connection refused", S served).

(** A service that plays a script, one reply a request, and is down once
    the script is over. *)
Definition scripted (script : list Reply) (prompt : string) (served : nat)
  : Reply * nat :=
  (nth served script (HTTPError "connection refused"), S served).

(** The first chunk goes through at once, the second loses its nine
    requests, the third goes through at once. *)
Definition second_chunk_lost : list Reply :=
  (FullResponse (MiniJson.text "{'Dev':[{'title':'a','url':'u1'}]}")
   :: repeat (HTTPError "timed out") 9
   ++ [FullResponse
         (MiniJson.text
            "{'Dev':[{'title':'b','url':'u2'}],'News':[{'title':'n','url':'u3'}]}")])%list.

(** [json.dumps] of the examples: the prompt does not show the bookmarks. *)
Definition no_dump (value : JSON) : string := "[...]".

Definition start : Sys nat := {| world := O; trace := [] |}.

End Services.

(** ** More of Python: exceptions by class, truth values, [str] methods *)

Module Builtins.
Import Py.

(** An exception by the name of its class and its message, [str(e)]. *)
Inductive Exception : Type :=
| Exc (class_name : string) (message : string).

Definition str_of_exception (e : Exception) : string :=
  match e with
  | Exc _ message => message
  end.

(** What a call gives: the value it returns or the exception it raises. *)
Inductive Outcome (A : Type) : Type :=
| Return (value : A)
| Throw (e : Exception).
Arguments Return {A} value.
Arguments Throw {A} e.

Definition and_then {A B} (o : Outcome A) (k : A -> Outcome B) : Outcome B :=
  match o with
  | Return a => k a
  | Throw e => Throw e
  end.

Definition throws {A} (o : Outcome A) : Prop := exists e, o = Throw e.

(** [[f(x) for x in l]]: the values in order, or the first exception. *)
Fixpoint for_each {A B} (f : A -> Outcome B) (l : list A) : Outcome (list B) :=
  match l with
  | [] => Return []
  | x :: rest =>
      and_then (f x) (fun y =>
      and_then (for_each f rest) (fun ys => Return (y :: ys)))
  end.

(** [d[key]]: [KeyError] when the key is missing; [str] of a [KeyError] is
    the [repr] of the key. *)
Definition getitem {V} (key : string) (d : dict V) : Outcome V :=
  match get key d with
  | Some v => Return v
  | None => Throw (Exc "KeyError" ("'" ++ key ++ "'"))
  end.

Section Truth.
(** [bool(x)] for the [float] read from a literal: whether it is not zero. *)
Variable float_is_true : string -> bool.

(** [bool(v)] *)
Definition truth (v : JSON) : bool :=
  match v with
  | JNone => false
  | JBool b => b
  | JInt z => negb (z =? 0)
  | JFloat literal => float_is_true literal
  | JStr s => negb (String.eqb s EmptyString)
  | JList items => match items with [] => false | _ => true end
  | JDict entries => match entries with [] => false | _ => true end
  end.

(** [bool(d.get(key))]: a missing key gives [None], which is false. *)
Definition truth_at (key : string) (d : dict JSON) : bool :=
  match get key d with
  | Some v => truth v
  | None => false
  end.

End Truth.

(** [c.lower()] for a code point below 256: the capital letters of ASCII
    and of Latin-1 (the multiplication sign, 215, is no letter). *)
Definition lower_char (c : ascii) : ascii :=
  let n := nat_of_ascii c in
  if ((65 <=? n) && (n <=? 90)
      || (192 <=? n) && (n <=? 222) && negb (n =? 215))%nat
  then ascii_of_nat (n + 32)
  else c.

(** [s.lower()] *)
Fixpoint lower (s : string) : string :=
  match s with
  | String c rest => String (lower_char c) (lower rest)
  | EmptyString => EmptyString
  end.

(** [str(n)] for an [int]. *)
Definition str_of_int (n : Z) : string :=
  DecimalString.NilZero.string_of_int (Z.to_int n).

(** The double quote. *)
Definition dq : string := String (ascii_of_nat 34) EmptyString.

Definition LF : string := String (ascii_of_nat 10) EmptyString.

End Builtins.

(** ** More of BeautifulSoup: children, attributes, text *)

Module SoupChildren.
Import Soup Py.

(** [tag.find_all(name, recursive=False)]: among the children only. *)
Definition find_all_children (name : string) (n : Node) : list Node :=
  filter (is_tag name) (contents n).

(** [tag.find(name, recursive=False)] *)
Definition find_child (name : string) (n : Node) : option Node :=
  hd_error (find_all_children name n).

(** [tag.attrs], a [dict] from attribute name to value. *)
Definition attrs (n : Node) : dict string :=
  match n with
  | Tag _ attrs _ => attrs
  | _ => []
  end.

(** The strings below [n] that [get_text] joins, in document order: the
    text nodes, not the doctype. *)
Fixpoint strings (n : Node) : list string :=
  match n with
  | NavigableString text => [text]
  | Doctype _ => []
  | Tag _ _ contents => flat_map strings contents
  end.

(** [tag.get_text(strip=True)]: every string stripped, the empty ones
    left out, the rest joined without separator. *)
Definition get_text_strip (n : Node) : string :=
  String.concat EmptyString
    (filter (fun s => negb (String.eqb s EmptyString))
            (map strip (flat_map strings (contents n)))).

End SoupChildren.

(** ** The parsers: [parsers/base.py], [chrome.py], [opera.py] *)

Module Parsers.
Import Soup SoupChildren Py Builtins.

(** [class Bookmark] *)
Record Bookmark : Type := {
  url : string;
  title : string;
  add_date : string;
  last_modified : string;
  source_browser : string
}.

(** [Bookmark.to_dict] *)
Definition to_dict (self : Bookmark) : dict JSON :=
  [ ("url", JStr (url self));
    ("title", JStr (title self));
    ("add_date", JStr (add_date self));
    ("last_modified", JStr (last_modified self));
    ("source_browser", JStr (source_browser self)) ].

(** [class BookmarkFolder]: the attributes of an instance.  [bookmarks]
    holds dictionaries, see [new_folder]. *)
Inductive BookmarkFolder : Type :=
| Folder (title : string) (bookmarks : list (dict JSON))
         (subfolders : list BookmarkFolder).

Definition folder_title (f : BookmarkFolder) : string :=
  match f with Folder title _ _ => title end.
Definition folder_bookmarks (f : BookmarkFolder) : list (dict JSON) :=
  match f with Folder _ bookmarks _ => bookmarks end.
Definition folder_subfolders (f : BookmarkFolder) : list BookmarkFolder :=
  match f with Folder _ _ subfolders => subfolders end.

(** [BookmarkFolder.__init__] with [Bookmark] objects: each becomes its
    dictionary. *)
Definition new_folder (title : string) (bookmarks : list Bookmark)
    (subfolders : list BookmarkFolder) : BookmarkFolder :=
  Folder title (map to_dict bookmarks) subfolders.

(** What both parsers do with a DT: a bookmark when the DT has a child A
    whose [href] is there and not empty, nothing otherwise. *)
Definition link (browser_name : string) (dt : Node) : list Bookmark :=
  match find_child "a" dt with
  | Some a_tag =>
      match get "href" (attrs a_tag) with
      | Some href =>
          if negb (String.eqb href EmptyString) then
            [ {| url := href;
                 title := get_text_strip a_tag;
                 add_date := get_default "add_date" EmptyString (attrs a_tag);
                 last_modified :=
                   get_default "last_modified" EmptyString (attrs a_tag);
                 source_browser := browser_name |} ]
          else []
      | None => []
      end
  | None => []
  end.

Definition missing_root : Exception :=
  Exc "ValueError" "Not a valid bookmark file: missing root DL element".

Module Chrome.

Definition browser_name : string := "chrome".

(** [ChromeBookmarkParser.parse_content], from the parsed document
    [soup = BeautifulSoup(content, 'html.parser')].  The exception of the
    [try] block comes out as a [ValueError] with a longer message. *)
Definition parse_content (soup : Node) : Outcome BookmarkFolder :=
  match
    match find "dl" soup with
    | None => Throw missing_root
    | Some root_dl =>
        let bookmarks := flat_map (link browser_name) (find_all "dt" root_dl) in
        Return (new_folder "Root" bookmarks [])
    end
  with
  | Return folder => Return folder
  | Throw e =>
      Throw (Exc "ValueError"
               ("Failed to parse Chrome bookmarks: " ++ str_of_exception e))
  end.

End Chrome.

Module Opera.

Definition browser_name : string := "opera".

Record OperaBookmarkParser : Type := { chunker : Chunker.BookmarkChunker }.

(** [OperaBookmarkParser.__init__] *)
Definition __init__ (max_bookmarks_per_chunk : Z) : Result OperaBookmarkParser :=
  (chunker <- Chunker.__init__ max_bookmarks_per_chunk ;;
   Ok {| chunker := chunker |})%result.

(** The local function [parse_folder] of [parse_content].  [walk] is its
    [for] over the DT children of [element]; [first_dl] finds [dl_tag], the
    first DL child of the DT, and parses it. *)
Fixpoint parse_folder (element : Node)
  : list Bookmark * list BookmarkFolder :=
  match element with
  | Tag _ _ contents =>
      (fix walk (children : list Node)
         : list Bookmark * list BookmarkFolder :=
         match children with
         | [] => ([], [])
         | dt :: rest =>
             let '(bookmarks, subfolders) := walk rest in
             match dt with
             | Tag name _ dt_contents =>
                 if String.eqb name "dt" then
                   let dl_tag :=
                     (fix first_dl (l : list Node)
                        : option (list Bookmark * list BookmarkFolder) :=
                        match l with
                        | [] => None
                        | c :: l =>
                            if is_tag "dl" c then Some (parse_folder c)
                            else first_dl l
                        end) dt_contents in
                   let subfolder :=
                     match find_child "h3" dt, dl_tag with
                     | Some h3_tag, Some (subfolder_bookmarks, nested_subfolders) =>
                         [new_folder (get_text_strip h3_tag)
                            subfolder_bookmarks nested_subfolders]
                     | _, _ => []
                     end in
                   (link browser_name dt ++ bookmarks,
                    subfolder ++ subfolders)%list
                 else (bookmarks, subfolders)
             | _ => (bookmarks, subfolders)
             end
         end) contents
  | _ => ([], [])
  end.

(** [OperaBookmarkParser.parse_content], from the parsed document. *)
Definition parse_content (soup : Node) : Outcome BookmarkFolder :=
  match
    match find "dl" soup with
    | None => Throw missing_root
    | Some root_dl =>
        let '(root_bookmarks, root_subfolders) := parse_folder root_dl in
        Return (new_folder "Root" root_bookmarks root_subfolders)
    end
  with
  | Return folder => Return folder
  | Throw e =>
      Throw (Exc "ValueError"
               ("Failed to parse Opera bookmarks: " ++ str_of_exception e))
  end.

(** What a generator gives: the values it yields and, if it ends on one,
    the exception. *)
Fixpoint yield_each {A} (l : list (Outcome A)) : list A * option Exception :=
  match l with
  | [] => ([], None)
  | Return a :: rest =>
      let '(yielded, e) := yield_each rest in (a :: yielded, e)
  | Throw e :: _ => ([], Some e)
  end.

Section WithParser.
(** [reparse_dt] as in the chunker; [reparse_chunk chunk] is the document
    [BeautifulSoup(str(chunk), 'html.parser')] that [parse_content] makes
    of the text of a chunk. *)
Variable reparse_dt : Node -> Node.
Variable reparse_chunk : Node -> Node.

(** [OperaBookmarkParser.parse_file], from the parsed content of the file:
    one folder a chunk. *)
Definition parse_file (self : OperaBookmarkParser) (soup : Node)
  : list BookmarkFolder * option Exception :=
  yield_each
    (map (fun chunk => parse_content (reparse_chunk chunk))
         (Chunker.chunk_content reparse_dt (chunker self) soup)).

End WithParser.

End Opera.

End Parsers.

(** ** [CategorizerAgent.process] and [_process], line by line *)

Module Agent.
Import Py Builtins Categorizer.

(** The text of an error of [process]. *)
Inductive ErrorText : Type :=
| NoCategoriesReturned            (* "Categorization failed - no categories returned" *)
| FailedToProcessBookmarks (cause : PyError).   (* "Failed to process bookmarks: .." *)

(** The dictionary [process] returns: [{'categories': ..}] or
    [{'error': .., 'categories': None}]. *)
Record Processed : Type := {
  error : option ErrorText;          (* [None]: no such key *)
  categories : option CategoryMap    (* [None]: the value [None] *)
}.

Section Agent.
Variable json_loads : string -> option JSON.
Variable json_dumps : JSON -> string.
Variable World : Type.
Variable ollama_generate : string -> World -> Reply * World.

(** [CategorizerAgent.process]: [data] is the dictionary it is given. *)
Definition process (data : dict (list (dict JSON))) (sys0 : Sys World)
  : Processed * Sys World :=
  let bookmarks := get_default "bookmarks" [] data in
  match categorize_bookmarks json_loads json_dumps ollama_generate
          bookmarks sys0 with
  | (Ok [], sys) =>
      ({| error := Some NoCategoriesReturned; categories := None |}, sys)
  | (Ok categories, sys) =>
      ({| error := None; categories := Some categories |}, sys)
  | (Raise e, sys) =>
      ({| error := Some (FailedToProcessBookmarks e); categories := None |},
       sys)
  end.

End Agent.

Arguments process json_loads json_dumps {World} ollama_generate data sys0.

(** What [client.post] and the stream of lines give to the body of
    [_process]. *)
Inductive Http : Type :=
| PostFailed (detail : string)     (* [client.post] raises an [httpx.HTTPError] *)
| Answered (is_success : bool) (lines : list string).

(** Why a line ends the body with an exception. *)
Inductive Fault : Type :=
| ErrorField (value : JSON)        (* the line has an [error] key *)
| NotJson (line : string)          (* [json.JSONDecodeError] *)
| Unusable (data : JSON).          (* [TypeError] or [AttributeError] on [data] *)

Section Stream.
Variable json_loads : string -> option JSON.
Variable float_is_true : string -> bool.

(** The [async for] of [_process] from the line it is at, with the text
    gathered so far. *)
Fixpoint gather (lines : list string) (full_response : string)
  : Fault + string :=
  match lines with
  | [] => inr full_response
  | line :: rest =>
      if String.eqb line EmptyString then gather rest full_response
      else
        match json_loads line with
        | None => inl (NotJson line)
        | Some (JDict data) =>
            match get "error" data with
            | Some value => inl (ErrorField value)
            | None =>
                match
                  match get "response" data with
                  | Some (JStr text) => Some (full_response ++ text)
                  | Some _ => None
                  | None => Some full_response
                  end
                with
                | None => inl (Unusable (JDict data))
                | Some full_response =>
                    if truth float_is_true
                         (get_default "done" (JBool false) data)
                    then inr full_response
                    else gather rest full_response
                end
            end
        | Some data => inl (Unusable data)
        end
  end.

(** The messages of the exceptions of the body. *)
Variable describe_status : string.
Variable describe_fault : Fault -> string.

(** The body of [_process] after [client.post]. *)
Definition reply_of (http : Http) : Reply :=
  match http with
  | PostFailed detail => HTTPError detail
  | Answered false _ => HTTPError describe_status
  | Answered true lines =>
      match gather lines EmptyString with
      | inr full_response => FullResponse full_response
      | inl fault => OtherError (describe_fault fault)
      end
  end.

End Stream.

End Agent.

(** ** [StructureAgent] *)

Module Structure.
Import Py Builtins.

Definition indent : string := LF ++ "            ".

Section Agent.
(** [str(v)] for a value that is not a [str]. *)
Variable str_of_value : JSON -> string.
(** [json.loads] *)
Variable json_loads : string -> option JSON.
(** [BaseAgent._process(prompt, context)]: the text of the model, or
    [None] for the exception it ends with. *)
Variable _process : string -> dict JSON -> option string.

(** [f"{v}"] *)
Definition format (v : JSON) : string :=
  match v with
  | JStr s => s
  | other => str_of_value other
  end.

Definition bookmark_lines (b : dict JSON) : string :=
  "- Title: " ++ format (get_default "title" (JStr "Untitled") b) ++ LF
  ++ "  URL: " ++ format (get_default "url" (JStr "No URL") b) ++ LF
  ++ "  Category: "
  ++ format (get_default "category" (JStr "Uncategorized") b).

Definition make_prompt (bookmarks : list (dict JSON)) : string :=
  let bookmarks_str := String.concat LF (map bookmark_lines bookmarks) in
  "Please organize these bookmarks into a logical folder structure:"
  ++ LF ++ indent ++ "Bookmarks:" ++ indent ++ bookmarks_str ++ LF
  ++ indent ++ "Create a folder hierarchy that:"
  ++ indent ++ "1. Groups related bookmarks together"
  ++ indent ++ "2. Uses meaningful folder names"
  ++ indent ++ "3. Creates subfolders when appropriate"
  ++ indent ++ "4. Maintains a balanced structure" ++ LF
  ++ indent ++ "Respond with a JSON object containing the folder structure."
  ++ indent ++ "Each folder should have:"
  ++ indent ++ "- name: folder name"
  ++ indent ++ "- bookmarks: list of bookmark objects"
  ++ indent ++ "- subfolders: list of subfolder objects"
  ++ indent.

(** The structure returned when something goes wrong. *)
Definition flat_structure (bookmarks : list (dict JSON)) : JSON :=
  JDict [("folders",
          JList [JDict [("name", JStr "All Bookmarks");
                        ("bookmarks", JList (map JDict bookmarks));
                        ("subfolders", JList [])]])].

(** [StructureAgent.optimize_structure] *)
Definition optimize_structure (bookmarks : list (dict JSON))
    (existing_structure : option JSON) : JSON :=
  match bookmarks with
  | [] => JDict [("folders", JList [])]
  | _ =>
      let context :=
        [("num_bookmarks", JInt (len bookmarks));
         ("has_existing_structure",
          JBool (match existing_structure with
                 | Some _ => true
                 | None => false
                 end))] in
      match _process (make_prompt bookmarks) context with
      | None => flat_structure bookmarks
      | Some response =>
          match json_loads response with
          | Some (JDict structure) =>
              if contains "folders" structure then JDict structure
              else flat_structure bookmarks
          | _ => flat_structure bookmarks
          end
      end
  end.

(** [StructureAgent.process]: the bookmarks and the existing structure
    are what [input_data.get] finds. *)
Definition process (bookmarks : list (dict JSON))
    (existing_structure : option JSON) : dict JSON :=
  [("structure", optimize_structure bookmarks existing_structure)].

End Agent.

End Structure.

(** ** The routes of [backend/app.py] *)

Module Backend.
Import Py Builtins Categorizer Parsers.

(** [class BookmarkResponse] *)
Record BookmarkResponse (D : Type) : Type := {
  success : bool;
  message : string;
  data : option D
}.
Arguments success {D} _.
Arguments message {D} _.
Arguments data {D} _.
Arguments Build_BookmarkResponse {D} _ _ _.

Section Validate.
Variable float_is_true : string -> bool.

(** [validate_bookmarks], the route [/validate]: the list it returns.
    No statement of its [try] block raises on dictionaries. *)
Fixpoint validate_bookmarks (bookmarks : list (dict JSON))
  : list (dict JSON) :=
  match bookmarks with
  | [] => []
  | bookmark :: rest =>
      if truth_at float_is_true "url" bookmark then
        let bookmark :=
          if negb (truth_at float_is_true "title" bookmark)
          then setitem "title" (get_default "url" JNone bookmark) bookmark
          else bookmark in
        bookmark :: validate_bookmarks rest
      else validate_bookmarks rest
  end.

(** The dictionary [extract_bookmarks] builds of a bookmark [b] of a
    folder: [b] is a dictionary, and [b.url] raises. *)
Definition bookmark_record (b : dict JSON) : Outcome (dict JSON) :=
  Throw (Exc "AttributeError" "'dict' object has no attribute 'url'").

(** The local function [extract_bookmarks] of the route [/import]: what
    it adds to [bookmarks]. *)
Fixpoint extract_bookmarks (folder : BookmarkFolder)
  : Outcome (list (dict JSON)) :=
  match folder with
  | Folder _ bookmarks subfolders =>
      and_then (for_each bookmark_record bookmarks) (fun records =>
      and_then
        ((fix subfolders_of (l : list BookmarkFolder)
            : Outcome (list (dict JSON)) :=
            match l with
            | [] => Return []
            | subfolder :: l =>
                and_then (extract_bookmarks subfolder) (fun first =>
                and_then (subfolders_of l) (fun others =>
                Return (first ++ others)%list))
            end) subfolders)
        (fun below => Return (records ++ below)%list))
  end.

(** The route [/import], from the parsed content of the request. *)
Definition import_bookmarks (soup : Soup.Node) (browser : string)
  : BookmarkResponse (list (dict JSON)) :=
  let parser :=
    if String.eqb (lower browser) "chrome" then Some Chrome.parse_content
    else if String.eqb (lower browser) "opera" then Some Opera.parse_content
    else None in
  match parser with
  | None =>
      {| success := false; message := "Unsupported browser: " ++ browser;
         data := None |}
  | Some parse_content =>
      match
        and_then (parse_content soup) (fun root_folder =>
        and_then (extract_bookmarks root_folder) (fun bookmarks =>
        Return (validate_bookmarks bookmarks)))
      with
      | Return valid_bookmarks =>
          {| success := true;
             message := "Successfully imported "
                        ++ str_of_int (len valid_bookmarks) ++ " bookmarks";
             data := Some valid_bookmarks |}
      | Throw e =>
          {| success := false; message := "Error: " ++ str_of_exception e;
             data := None |}
      end
  end.

End Validate.

Section Categorize.
Variable json_loads : string -> option JSON.
Variable json_dumps : JSON -> string.
Variable World : Type.
Variable ollama_generate : string -> World -> Reply * World.

(** The route [/api/categorize]. *)
Definition categorize_bookmarks (bookmarks : list (dict JSON))
    (sys0 : Sys World) : BookmarkResponse Agent.Processed * Sys World :=
  match bookmarks with
  | [] =>
      ({| success := false; message := "No bookmarks provided";
          data := None |}, sys0)
  | _ =>
      let '(result, sys) :=
        Agent.process json_loads json_dumps ollama_generate
          [("bookmarks", bookmarks)] sys0 in
      match Agent.categories result with
      | None | Some [] =>
          ({| success := false;
              message := "Categorization failed: No categories returned";
              data := None |}, sys)
      | Some _ =>
          ({| success := true;
              message := "Bookmarks categorized successfully";
              data := Some result |}, sys)
      end
  end.

End Categorize.

Arguments categorize_bookmarks json_loads json_dumps {World} ollama_generate
  bookmarks sys0.

Section Structure.
Variable str_of_value : JSON -> string.
Variable json_loads : string -> option JSON.
Variable _process : string -> dict JSON -> option string.

(** The first loops of the route [/optimize-structure]: every bookmark
    of every category, with its category written into it. *)
Definition categorized_bookmarks (categories : dict (list (dict JSON)))
  : list (dict JSON) :=
  flat_map
    (fun entry =>
       map (fun bookmark => setitem "category" (JStr (fst entry)) bookmark)
           (snd entry))
    categories.

(** The route [/optimize-structure]; the bookmarks of the request are
    only counted for the log. *)
Definition optimize_structure (bookmarks : list (dict JSON))
    (categories : dict (list (dict JSON))) : BookmarkResponse (dict JSON) :=
  let result :=
    Structure.process str_of_value json_loads _process
      (categorized_bookmarks categories) None in
  {| success := true; message := "Folder structure optimized successfully";
     data := Some result |}.

End Structure.

(** [HTTPException(status_code, detail)] or the response of a route. *)
Inductive Served (A : Type) : Type :=
| Response (content : A)
| HTTPException (status_code : Z) (detail : string).
Arguments Response {A} content.
Arguments HTTPException {A} status_code detail.

Section ExportRoute.
Variable float_is_true : string -> bool.
Variable str_of_value : JSON -> string.

(** [f"{v}"] *)
Definition format (v : JSON) : string :=
  match v with
  | JStr s => s
  | other => str_of_value other
  end.

(** The lines of one bookmark: its [DT], and its [DD] if it has a
    description. *)
Definition bookmark_lines (bookmark : dict JSON) : Outcome (list string) :=
  let description := get_default "description" (JStr EmptyString) bookmark in
  let add_date := get_default "add_date" (JStr EmptyString) bookmark in
  let last_modified :=
    get_default "last_modified" (JStr EmptyString) bookmark in
  and_then (getitem "url" bookmark) (fun url =>
  let attributes :=
    [ "HREF=" ++ dq ++ format url ++ dq;
      if truth float_is_true add_date
      then "ADD_DATE=" ++ dq ++ format add_date ++ dq else EmptyString;
      if truth float_is_true last_modified
      then "LAST_MODIFIED=" ++ dq ++ format last_modified ++ dq
      else EmptyString ] in
  let attributes :=
    String.concat " "
      (filter (fun s => negb (String.eqb s EmptyString)) attributes) in
  and_then (getitem "title" bookmark) (fun title =>
  Return
    (("        <DT><A " ++ attributes ++ ">" ++ format title ++ "</A>")
     :: (if truth float_is_true description
         then ["        <DD>" ++ format description] else [])))).

(** The lines of one category: its folder, its bookmarks, the end of the
    folder. *)
Definition category_lines (entry : string * list (dict JSON))
  : Outcome (list string) :=
  and_then (for_each bookmark_lines (snd entry)) (fun lines =>
  Return
    (List.app [ "    <DT><H3>" ++ fst entry ++ "</H3>"; "    <DL><p>" ]
       (List.app (List.concat lines) [ "    </DL><p>" ]))).

Definition header : list string :=
  [ "<!DOCTYPE NETSCAPE-Bookmark-file-1>";
    "<META HTTP-EQUIV=" ++ dq ++ "Content-Type" ++ dq ++ " CONTENT=" ++ dq
    ++ "text/html; charset=UTF-8" ++ dq ++ ">";
    "<TITLE>Bookmarks</TITLE>";
    "<H1>Bookmarks Menu</H1>";
    "<DL><p>" ].

(** The list [html] of [export_bookmarks] at the end of its [try] block. *)
Definition export_html (categories : dict (list (dict JSON)))
  : Outcome (list string) :=
  match categories with
  | [] => Throw (Exc "ValueError" "No categories provided")
  | _ =>
      and_then (for_each category_lines categories) (fun blocks =>
      Return (List.app header (List.app (List.concat blocks) [ "</DL><p>" ])))
  end.

(** The route [/api/export-bookmarks]: the content of its response. *)
Definition export_bookmarks (categories : dict (list (dict JSON)))
  : Served string :=
  match export_html categories with
  | Return html => Response (String.concat LF html)
  | Throw e =>
      HTTPException 500 ("Failed to export bookmarks: " ++ str_of_exception e)
  end.

End ExportRoute.

End Backend.

(** ** What the further properties speak of *)

Module Measures.
Import Py Categorizer.

(** All the bookmarks of a category map, category after category. *)
Definition items (categories : CategoryMap) : list JSON :=
  flat_map snd categories.

(** A wait of the dispatcher lasts from 4 to 10. *)
Definition short_wait (e : Event) : Prop :=
  match e with
  | Sleep seconds => 4 <= seconds <= 10
  | Request _ => True
  end.

(** The line that opens the folder of a category in an exported file. *)
Definition is_folder_line (line : string) : bool :=
  startswith line "    <DT><H3>".

(** The line of a bookmark in an exported file. *)
Definition is_bookmark_line (line : string) : bool :=
  startswith line "        <DT><A ".

Section Validity.
Variable float_is_true : string -> bool.

(** A bookmark that [validate_bookmarks] leaves as it is. *)
Definition valid (bookmark : dict JSON) : bool :=
  Builtins.truth_at float_is_true "url" bookmark
  && Builtins.truth_at float_is_true "title" bookmark.

(** What [validate_bookmarks] makes of a bookmark it keeps. *)
Definition titled (bookmark : dict JSON) : dict JSON :=
  if negb (Builtins.truth_at float_is_true "title" bookmark)
  then setitem "title" (get_default "url" JNone bookmark) bookmark
  else bookmark.

End Validity.

End Measures.

(** ** The lines of a streamed answer *)

Module Lines.
Import Py Builtins.

Section Lines.
Variable json_loads : string -> option JSON.
Variable float_is_true : string -> bool.

(** What a line adds to the text: its [response] field. *)
Definition text_of (line : string) : string :=
  if String.eqb line EmptyString then EmptyString
  else
    match json_loads line with
    | Some (JDict data) =>
        match get "response" data with
        | Some (JStr text) => text
        | _ => EmptyString
        end
    | _ => EmptyString
    end.

(** A line the loop takes without exception: an empty one, or an object
    without [error] key whose [response], if it has one, is a string. *)
Definition sound (line : string) : bool :=
  String.eqb line EmptyString
  || match json_loads line with
     | Some (JDict data) =>
         negb (contains "error" data)
         && match get "response" data with
            | Some (JStr _) | None => true
            | Some _ => false
            end
     | _ => false
     end.

(** A line whose [done] field is true. *)
Definition is_done (line : string) : bool :=
  negb (String.eqb line EmptyString)
  && match json_loads line with
     | Some (JDict data) =>
         truth float_is_true (get_default "done" (JBool false) data)
     | _ => false
     end.

(** A sound line that does not end the stream. *)
Definition quiet (line : string) : bool := sound line && negb (is_done line).

(** The text of some lines. *)
Definition text_of_lines (lines : list string) : string :=
  String.concat EmptyString (map text_of lines).

End Lines.

End Lines.

(** * Properties of the chunker *)

Module ChunkerFacts.
Import Soup Chunker Observations.
Local Open Scope list_scope.

Section WithParser.
Variable reparse_dt : Node -> Node.

Lemma fold_append name attrs dts : forall contents,
  fold_left (fun chunk_dl dt => append (reparse_dt dt) chunk_dl) dts
            (Tag name attrs contents)
  = Tag name attrs (contents ++ map reparse_dt dts).
Proof.
  induction dts as [|dt dts IH]; intros contents; simpl.
  - now rewrite app_nil_r.
  - rewrite IH, <- app_assoc. reflexivity.
Qed.

(** [chunk_soup.find("dl")] is the [DL] of the template. *)
Lemma find_dl_boilerplate attrs contents :
  find "dl" (boilerplate (Tag "dl" attrs contents))
  = Some (Tag "dl" attrs contents).
Proof. reflexivity. Qed.

Lemma create_chunk_html_shape dts :
  _create_chunk_html reparse_dt dts
  = boilerplate (Tag "dl" [] (contents template_dl ++ map reparse_dt dts)).
Proof.
  unfold _create_chunk_html, template_dl. now rewrite fold_append.
Qed.

Lemma chunk_elements_create dts :
  chunk_elements (_create_chunk_html reparse_dt dts) = map reparse_dt dts.
Proof.
  rewrite create_chunk_html_shape. unfold chunk_elements.
  rewrite find_dl_boilerplate. reflexivity.
Qed.

Lemma chunk_loop_elements self : forall dts current count,
  List.concat (map chunk_elements (chunk_loop reparse_dt self dts current count))
  = map reparse_dt (current ++ dts).
Proof.
  induction dts as [|dt rest IH]; intros current count; simpl.
  - rewrite app_nil_r. destruct current as [|d ds]; [reflexivity|].
    simpl List.concat. rewrite app_nil_r. apply chunk_elements_create.
  - destruct (_ >=? _).
    + simpl. rewrite chunk_elements_create, IH, <- map_app, <- app_assoc.
      reflexivity.
    + rewrite IH, <- app_assoc. reflexivity.
Qed.

Lemma chunk_loop_shape self : forall dts current count,
  Forall (fun chunk =>
            chunk = boilerplate
                      (Tag "dl" [] (contents template_dl ++ chunk_elements chunk)))
         (chunk_loop reparse_dt self dts current count).
Proof.
  assert (shape : forall dts,
    _create_chunk_html reparse_dt dts
    = boilerplate (Tag "dl" [] (contents template_dl
                     ++ chunk_elements (_create_chunk_html reparse_dt dts)))).
  { intros dts. rewrite chunk_elements_create. apply create_chunk_html_shape. }
  induction dts as [|dt rest IH]; intros current count; simpl.
  - destruct current; constructor; [apply shape | constructor].
  - destruct (_ >=? _); [constructor; [apply shape | apply IH] | apply IH].
Qed.

End WithParser.

(** C1, as the code has it. For every parsed document and every chunk
    size, the elements appended to the [DL] of the chunks, taken in the
    order the chunks are yielded, are the copies of the DT elements that
    [find_all] returned, one element for each DT of that list and in its
    order; and every chunk is exactly the template with its elements
    appended to the [DL]. *)
Theorem chunks_reproduce_node_sequence :
  forall (reparse_dt : Node -> Node) (self : BookmarkChunker) (soup : Node),
    let chunks := chunk_content reparse_dt self soup in
    List.concat (map chunk_elements chunks) = map reparse_dt (all_dt soup)
    /\ Forall (fun chunk =>
                 chunk = boilerplate
                   (Tag "dl" [] (contents template_dl ++ chunk_elements chunk)))
              chunks.
Proof.
  intros reparse_dt self soup. unfold chunk_content, all_dt.
  destruct (find "dl" soup) as [root_dl|]; simpl.
  - split; [apply chunk_loop_elements | apply chunk_loop_shape].
  - split; [reflexivity | constructor].
Qed.

(** C1, as the specification has it, fails. [find_all] lists a DT that
    lies inside another DT as well as the one around it, so the copy of
    the folder brings its bookmarks along and each of them comes again as
    an element of its own.  With fifty bookmarks a chunk the one chunk of
    the example holds the first bookmark twice, though nothing spans a
    boundary; with one a chunk the first and the second chunk both hold
    it.  Every node of the document is there once. *)
Lemma nested_element_is_in_two_chunks :
  NoDup (descendants Fixtures.with_folder)
  /\ (exists chunk,
        chunk_content Fixtures.same {| max_bookmarks_per_chunk := 50 |}
          Fixtures.with_folder = [chunk]
        /\ chunk_elements chunk
           = [ Fixtures.folder "Work" [Fixtures.b1; Fixtures.b2];
               Fixtures.b1; Fixtures.b2; Fixtures.b3 ]
        /\ nth_error (chunk_nodes chunk) 4 = Some Fixtures.b1
        /\ nth_error (chunk_nodes chunk) 10 = Some Fixtures.b1)
  /\ (exists first second third fourth,
        chunk_content Fixtures.same {| max_bookmarks_per_chunk := 1 |}
          Fixtures.with_folder = [first; second; third; fourth]
        /\ chunk_elements first
           = [ Fixtures.folder "Work" [Fixtures.b1; Fixtures.b2] ]
        /\ chunk_elements second = [ Fixtures.b1 ]
        /\ In Fixtures.b1 (chunk_nodes first)
        /\ In Fixtures.b1 (chunk_nodes second))
  /\ ~ (forall reparse_dt self soup,
          NoDup (descendants soup) ->
          NoDup (flat_map chunk_nodes (chunk_content reparse_dt self soup))).
Proof.
  assert (D : NoDup (descendants Fixtures.with_folder)).
  { cbn. repeat (constructor;
                 [cbn; intros H;
                  repeat (destruct H as [H|H]; [discriminate H|]); exact H|]).
    constructor. }
  split; [exact D|]. split; [|split].
  - eexists. split; [reflexivity|]. repeat split.
  - do 4 eexists. split; [reflexivity|]. split; [reflexivity|].
    split; [reflexivity|]. split; cbn; tauto.
  - intros H.
    specialize (H Fixtures.same {| max_bookmarks_per_chunk := 50 |}
                  Fixtures.with_folder D).
    apply (proj1 (NoDup_nth_error _)) with (i := 4%nat) (j := 10%nat) in H;
      [discriminate H | cbn; lia | reflexivity].
Qed.

Lemma counts_small size total :
  0 <= total < size ->
  counts size total = if total =? 0 then [] else [total].
Proof.
  intros H. unfold counts.
  rewrite Z.div_small, Z.mod_small by lia. reflexivity.
Qed.

Lemma counts_step size total :
  0 < size -> 0 <= total ->
  counts size (size + total) = size :: counts size total.
Proof.
  intros Hs Ht. unfold counts.
  replace (size + total) with (total + 1 * size) by lia.
  rewrite Z.div_add, Z_mod_plus_full by lia.
  assert (0 <= total / size) by (apply Z.div_pos; lia).
  replace (Z.to_nat (total / size + 1)) with (S (Z.to_nat (total / size)))
    by lia.
  reflexivity.
Qed.

Lemma sum_app l1 l2 : sum (l1 ++ l2) = sum l1 + sum l2.
Proof. induction l1 as [|x l1 IH]; simpl; [reflexivity | rewrite IH; lia]. Qed.

Lemma sum_repeat x n : sum (repeat x n) = x * Z.of_nat n.
Proof. induction n as [|n IH]; simpl repeat; simpl sum; [lia | rewrite IH; lia]. Qed.

Lemma sum_counts size total :
  0 < size -> 0 <= total -> sum (counts size total) = total.
Proof.
  intros Hs Ht. unfold counts. rewrite sum_app, sum_repeat.
  assert (0 <= total / size) by (apply Z.div_pos; lia).
  assert (E : total = size * (total / size) + total mod size)
    by (apply Z.div_mod; lia).
  destruct (total mod size =? 0) eqn:M; simpl.
  - apply Z.eqb_eq in M. lia.
  - lia.
Qed.

Lemma length_counts size total :
  0 < size -> 0 <= total ->
  Py.len (counts size total) = (total + size - 1) / size.
Proof.
  intros Hs Ht. unfold counts, Py.len.
  rewrite length_app, repeat_length.
  assert (0 <= total / size) by (apply Z.div_pos; lia).
  assert (E : total = size * (total / size) + total mod size)
    by (apply Z.div_mod; lia).
  pose proof (Z.mod_pos_bound total size Hs) as B.
  destruct (total mod size =? 0) eqn:M; simpl List.length.
  - apply Z.eqb_eq in M.
    apply Z.div_unique with (r := size - 1); lia.
  - apply Z.eqb_neq in M.
    apply Z.div_unique with (r := total mod size - 1); lia.
Qed.

Section Flat.
Variable reparse_dt : Node -> Node.
Hypothesis copy_keeps_link :
  forall dt, is_bookmark (reparse_dt dt) = is_bookmark dt.

Lemma bookmark_count_create dts :
  Forall (fun dt => is_bookmark dt = true) dts ->
  bookmark_count (_create_chunk_html reparse_dt dts) = Py.len dts.
Proof.
  intros H. unfold bookmark_count, Py.len.
  rewrite chunk_elements_create. f_equal.
  induction H as [|dt dts Hdt _ IH]; simpl; [reflexivity|].
  rewrite copy_keeps_link, Hdt. simpl. now rewrite IH.
Qed.

Lemma chunk_loop_counts self :
  0 < max_bookmarks_per_chunk self ->
  forall dts current count,
    Forall (fun dt => is_bookmark dt = true) dts ->
    Forall (fun dt => is_bookmark dt = true) current ->
    count = Py.len current ->
    count < max_bookmarks_per_chunk self ->
    map bookmark_count (chunk_loop reparse_dt self dts current count)
    = counts (max_bookmarks_per_chunk self) (count + Py.len dts).
Proof.
  intros Hmax.
  induction dts as [|dt rest IH]; intros current count Hd Hc Hn Hlt.
  - unfold Py.len at 1. simpl List.length. rewrite Z.add_0_r.
    rewrite counts_small by (unfold Py.len in Hn; lia).
    destruct current as [|d ds]; simpl.
    + subst count. reflexivity.
    + rewrite bookmark_count_create by assumption.
      subst count. unfold Py.len. simpl List.length.
      destruct (Z.eqb_spec (Z.of_nat (S (List.length ds))) 0); [lia | reflexivity].
  - inversion Hd as [|? ? Hdt Hrest]; subst.
    assert (Hc' : Forall (fun dt => is_bookmark dt = true) (current ++ [dt])).
    { apply Forall_app; split; [assumption | now constructor]. }
    assert (Hlen : Py.len (current ++ [dt]) = Py.len current + 1).
    { unfold Py.len. rewrite length_app. simpl. lia. }
    assert (Hcons : Py.len (dt :: rest) = 1 + Py.len rest).
    { unfold Py.len. simpl List.length. lia. }
    simpl. rewrite Hdt.
    destruct (Z.geb_spec (Py.len current + 1) (max_bookmarks_per_chunk self)).
    + simpl. rewrite bookmark_count_create, Hlen by assumption.
      rewrite (IH [] 0); try assumption; try constructor; try reflexivity.
      rewrite Hcons.
      replace (Py.len current + (1 + Py.len rest))
        with (max_bookmarks_per_chunk self + (0 + Py.len rest)) by lia.
      rewrite counts_step; [f_equal; lia | lia | unfold Py.len; lia].
    + rewrite (IH (current ++ [dt]) (Py.len current + 1))
        by (assumption || lia).
      f_equal. lia.
Qed.

End Flat.

(** C2. For a document whose DT elements are all bookmarks ([N] of them, no
    folder) and a positive chunk size [K], the chunker yields ceil(N/K)
    chunks, [(N + K - 1) / K]; their bookmark counts are [K] for every full
    chunk and then the rest [N mod K] if it is not zero, so they add up to
    [N]; and no bookmark gives no chunk. *)
Theorem flat_sequence_chunk_count :
  forall (reparse_dt : Node -> Node) (self : BookmarkChunker) (soup : Node),
    0 < max_bookmarks_per_chunk self ->
    (forall dt, is_bookmark (reparse_dt dt) = is_bookmark dt) ->
    Forall (fun dt => is_bookmark dt = true) (all_dt soup) ->
    let K := max_bookmarks_per_chunk self in
    let N := Py.len (all_dt soup) in
    let chunks := chunk_content reparse_dt self soup in
    Py.len chunks = (N + K - 1) / K
    /\ sum (map bookmark_count chunks) = N
    /\ map bookmark_count chunks = counts K N
    /\ (N = 0 -> chunks = []).
Proof.
  intros reparse_dt self soup HK Hcopy Hflat K N chunks.
  assert (HN : 0 <= N) by (unfold N, Py.len; lia).
  assert (E : map bookmark_count chunks = counts K N).
  { unfold chunks, chunk_content, N, K. unfold all_dt in Hflat |- *.
    destruct (find "dl" soup) as [root_dl|].
    - rewrite (chunk_loop_counts reparse_dt Hcopy self HK);
        try assumption; try constructor; try reflexivity.
    - simpl. unfold counts. rewrite Z.div_0_l, Z.mod_0_l by lia. reflexivity. }
  repeat split.
  - unfold Py.len. rewrite <- (length_map bookmark_count), E.
    apply (length_counts K N HK HN).
  - rewrite E. apply sum_counts; assumption.
  - exact E.
  - intros H0. rewrite H0 in E. unfold counts in E.
    rewrite Z.div_0_l, Z.mod_0_l in E by lia. simpl in E.
    destruct chunks; [reflexivity | discriminate].
Qed.

(** Witness of [flat_sequence_chunk_count]: three bookmarks, two a chunk. *)
Lemma flat_sequence_chunk_count_witness :
  let self := {| max_bookmarks_per_chunk := 2 |} in
  let chunks := chunk_content Fixtures.same self Fixtures.three_bookmarks in
  0 < max_bookmarks_per_chunk self
  /\ (forall dt, is_bookmark (Fixtures.same dt) = is_bookmark dt)
  /\ Forall (fun dt => is_bookmark dt = true)
            (all_dt Fixtures.three_bookmarks)
  /\ Py.len chunks = 2
  /\ sum (map bookmark_count chunks) = 3
  /\ map bookmark_count chunks = [2; 1]
  /\ (3 = 0 -> chunks = []).
Proof.
  assert (H1 : 0 < 2) by lia.
  assert (H2 : forall dt,
             is_bookmark (Fixtures.same dt) = is_bookmark dt)
    by reflexivity.
  assert (H3 : Forall (fun dt => is_bookmark dt = true)
                      (all_dt Fixtures.three_bookmarks))
    by (repeat constructor).
  repeat (split; [assumption|]).
  exact (flat_sequence_chunk_count Fixtures.same
           {| max_bookmarks_per_chunk := 2 |} Fixtures.three_bookmarks
           H1 H2 H3).
Defined.

Lemma chunk_loop_nonpositive reparse_dt self :
  max_bookmarks_per_chunk self <= 0 ->
  forall dts,
    chunk_loop reparse_dt self dts [] 0
    = map (fun dt => _create_chunk_html reparse_dt [dt]) dts.
Proof.
  intros Hmax. induction dts as [|dt rest IH]; simpl; [reflexivity|].
  destruct (Z.geb_spec (if is_bookmark dt then 1 else 0)
                       (max_bookmarks_per_chunk self)) as [_|Hlt].
  - now rewrite IH.
  - destruct (is_bookmark dt); lia.
Qed.

(** C9, as the code has it. A chunk size of zero or less is not refused:
    [__init__] stores it, and [chunk_content] then closes a chunk after
    every DT element, so it yields one chunk per element and raises
    nothing. *)
Theorem nonpositive_size_one_chunk_per_element :
  forall (reparse_dt : Node -> Node) (max : Z) (soup : Node),
    max <= 0 ->
    chunk_document reparse_dt max soup
    = Ok (map (fun dt => _create_chunk_html reparse_dt [dt]) (all_dt soup)).
Proof.
  intros reparse_dt max soup Hmax.
  unfold chunk_document, __init__, chunk_content, all_dt. simpl.
  destruct (find "dl" soup) as [root_dl|]; [|reflexivity].
  now rewrite chunk_loop_nonpositive.
Qed.

(** Witness of [nonpositive_size_one_chunk_per_element]: size -1. *)
Lemma nonpositive_size_one_chunk_per_element_witness :
  -1 <= 0
  /\ chunk_document Fixtures.same (-1) Fixtures.three_bookmarks
     = Ok (map (fun dt => _create_chunk_html Fixtures.same [dt])
               (all_dt Fixtures.three_bookmarks)).
Proof.
  assert (H : -1 <= 0) by lia.
  split; [exact H|].
  exact (nonpositive_size_one_chunk_per_element
           Fixtures.same (-1) Fixtures.three_bookmarks H).
Defined.

(** C9, as the specification has it, fails: with a chunk size of 0 the
    chunker raises no input error, it yields three chunks for three
    bookmarks. *)
Lemma nonpositive_size_is_not_refused :
  ~ raises (chunk_document Fixtures.same 0 Fixtures.three_bookmarks)
  /\ chunk_document Fixtures.same 0 Fixtures.three_bookmarks
     = Ok [ _create_chunk_html Fixtures.same [Fixtures.b1];
            _create_chunk_html Fixtures.same [Fixtures.b2];
            _create_chunk_html Fixtures.same [Fixtures.b3] ]
  /\ ~ (forall reparse_dt max soup,
          max <= 0 -> raises (chunk_document reparse_dt max soup)).
Proof.
  assert (N : ~ raises (chunk_document Fixtures.same 0
                          Fixtures.three_bookmarks)).
  { intros [e H]. discriminate H. }
  split; [exact N|]. split; [reflexivity|].
  intros H. apply N, H. lia.
Qed.

End ChunkerFacts.

(** * Properties of Python dictionaries, slices and strings *)

Module PyFacts.
Import Py.
Local Open Scope list_scope.

Section Dict.
Context {V : Type}.
Implicit Types (d : dict V) (k key : string) (v : V).

Lemma contains_get key d :
  contains key d = match get key d with Some _ => true | None => false end.
Proof.
  induction d as [|[k v] d IH]; simpl; [reflexivity|].
  destruct (String.eqb k key); [reflexivity | exact IH].
Qed.

Lemma contains_keys key d : contains key d = true <-> In key (keys d).
Proof.
  induction d as [|[k v] d IH]; simpl.
  - split; [discriminate | tauto].
  - rewrite orb_true_iff, IH, String.eqb_eq. reflexivity.
Qed.

Lemma get_setitem_same key v d : get key (setitem key v d) = Some v.
Proof.
  induction d as [|[k w] d IH]; simpl.
  - now rewrite String.eqb_refl.
  - destruct (String.eqb k key) eqn:E; simpl; rewrite E; [reflexivity | exact IH].
Qed.

Lemma get_setitem_other key k v d :
  k <> key -> get k (setitem key v d) = get k d.
Proof.
  intros Hne. induction d as [|[k' w] d IH]; simpl.
  - destruct (String.eqb_spec key k); [congruence | reflexivity].
  - destruct (String.eqb_spec k' key) as [->|Hk]; simpl.
    + destruct (String.eqb_spec key k); [congruence | reflexivity].
    + destruct (String.eqb k' k); [reflexivity | exact IH].
Qed.

Lemma keys_setitem key v d :
  keys (setitem key v d)
  = if contains key d then keys d else keys d ++ [key].
Proof.
  induction d as [|[k w] d IH]; simpl; [reflexivity|].
  destruct (String.eqb k key); simpl; [reflexivity|].
  rewrite IH. destruct (contains key d); reflexivity.
Qed.

Lemma contains_setitem key k v d :
  contains k (setitem key v d) = String.eqb key k || contains k d.
Proof.
  rewrite !contains_get.
  destruct (String.eqb_spec key k) as [->|Hne].
  - now rewrite get_setitem_same.
  - rewrite get_setitem_other by congruence. reflexivity.
Qed.

Lemma get_not_in key d : ~ In key (keys d) -> get key d = None.
Proof.
  intros H. pose proof (contains_keys key d) as C.
  rewrite contains_get in C. destruct (get key d); [|reflexivity].
  exfalso. apply H, C. reflexivity.
Qed.

End Dict.

Section Strings.
Local Open Scope string_scope.
Implicit Types (s t : string) (c : ascii).

Lemma append_assoc s t u : (s ++ t) ++ u = s ++ (t ++ u).
Proof. induction s as [|c s IH]; simpl; [reflexivity | now rewrite IH]. Qed.

Lemma append_nil_r s : s ++ EmptyString = s.
Proof. induction s as [|c s IH]; simpl; [reflexivity | now rewrite IH]. Qed.











End Strings.

End PyFacts.

(** * Properties of the categorizer *)

Module MergeFacts.
Import Py Categorizer Observations PyFacts.
Local Open Scope list_scope.

Lemma merge_categories_cons acc category items rest :
  merge_categories acc ((category, items) :: rest)
  = merge_categories (merge_one acc category items) rest.
Proof. reflexivity. Qed.

Lemma keys_merge_one acc category items :
  keys (merge_one acc category items)
  = if contains category acc then keys acc else keys acc ++ [category].
Proof.
  unfold merge_one. rewrite keys_setitem.
  destruct (contains category acc) eqn:C; simpl.
  - now rewrite C.
  - rewrite contains_setitem, String.eqb_refl. simpl.
    rewrite keys_setitem, C. reflexivity.
Qed.

Lemma get_merge_one_same acc category items :
  get category (merge_one acc category items)
  = Some (get_default category [] acc ++ items).
Proof.
  unfold merge_one. rewrite get_setitem_same.
  destruct (contains category acc) eqn:C; simpl; [reflexivity|].
  unfold get_default. rewrite get_setitem_same.
  rewrite contains_get in C. destruct (get category acc); [discriminate|].
  reflexivity.
Qed.

Lemma get_merge_one_other acc category items k :
  k <> category -> get k (merge_one acc category items) = get k acc.
Proof.
  intros Hne. unfold merge_one. rewrite get_setitem_other by assumption.
  destruct (contains category acc); simpl; [reflexivity|].
  now rewrite get_setitem_other.
Qed.

Lemma contains_merge_one acc category items k :
  contains k (merge_one acc category items)
  = String.eqb category k || contains k acc.
Proof.
  rewrite !contains_get.
  destruct (String.eqb_spec category k) as [<-|Hne]; simpl.
  - now rewrite get_merge_one_same.
  - rewrite get_merge_one_other by congruence. reflexivity.
Qed.

Lemma merge_categories_spec : forall chunk acc,
  NoDup (keys chunk) ->
  keys (merge_categories acc chunk)
  = keys acc ++ filter (fun k => negb (contains k acc)) (keys chunk)
  /\ forall k, get k (merge_categories acc chunk)
               = joined (get k acc) (get k chunk).
Proof.
  induction chunk as [|[category items] rest IH]; intros acc Hnd.
  - simpl. rewrite app_nil_r. split; [reflexivity|].
    intros k. destruct (get k acc); reflexivity.
  - rewrite merge_categories_cons.
    simpl in Hnd. inversion Hnd as [|? ? Hnotin Hnd']; subst.
    destruct (IH (merge_one acc category items) Hnd') as [Hkeys Hget].
    split.
    + rewrite Hkeys, keys_merge_one. simpl.
      assert (F : filter (fun k => negb (contains k (merge_one acc category items)))
                         (keys rest)
                  = filter (fun k => negb (contains k acc)) (keys rest)).
      { apply filter_ext_in. intros k Hk. rewrite contains_merge_one.
        destruct (String.eqb_spec category k) as [->|]; [contradiction|].
        reflexivity. }
      rewrite F. destruct (contains category acc); simpl;
        [reflexivity | now rewrite <- app_assoc].
    + intros k. rewrite Hget. simpl.
      destruct (String.eqb_spec category k) as [->|Hne].
      * rewrite get_merge_one_same, (get_not_in k rest Hnotin).
        unfold get_default. destruct (get k acc); reflexivity.
      * rewrite get_merge_one_other by congruence. reflexivity.
Qed.

(** C4. A chunk's category map is merged into the aggregate by category
    name.  The keys of the result are those of the aggregate, in their
    order, followed by the new ones of the chunk in the chunk's order; under
    a key both have, the chunk's items come after the items already there;
    under a new key stand the chunk's items; the other keys keep theirs. *)
Theorem merge_is_by_category_name :
  forall (all_categories chunk_categories : CategoryMap),
    NoDup (keys chunk_categories) ->
    keys (merge_categories all_categories chunk_categories)
    = keys all_categories
      ++ filter (fun k => negb (contains k all_categories))
                (keys chunk_categories)
    /\ forall k, get k (merge_categories all_categories chunk_categories)
                 = match get k all_categories, get k chunk_categories with
                   | Some here, Some more => Some (here ++ more)
                   | Some here, None => Some here
                   | None, Some more => Some more
                   | None, None => None
                   end.
Proof.
  intros acc chunk Hnd. exact (merge_categories_spec chunk acc Hnd).
Qed.

(** Witness of [merge_is_by_category_name]: [Dev] of the first chunk,
    then [Dev] and [News] of the second. *)
Lemma merge_is_by_category_name_witness :
  NoDup (keys Fixtures.dev_b_news)
  /\ keys (merge_categories Fixtures.dev_a Fixtures.dev_b_news)
     = ["Dev"; "News"]
  /\ forall k, get k (merge_categories Fixtures.dev_a Fixtures.dev_b_news)
               = match get k Fixtures.dev_a, get k Fixtures.dev_b_news with
                 | Some here, Some more => Some (here ++ more)
                 | Some here, None => Some here
                 | None, Some more => Some more
                 | None, None => None
                 end.
Proof.
  assert (H : NoDup (keys Fixtures.dev_b_news)).
  { repeat constructor; simpl; intuition discriminate. }
  split; [exact H|].
  exact (merge_is_by_category_name Fixtures.dev_a Fixtures.dev_b_news H).
Defined.

End MergeFacts.

Module SliceFacts.
Import Py Categorizer Observations PyFacts ChunkerFacts.
Local Open Scope list_scope.

Section Slices.
Context {A : Type}.
Implicit Types l : list A.

Lemma slice_tenth l j :
  slice l (0 + Z.of_nat j * CHUNK_SIZE) (0 + Z.of_nat j * CHUNK_SIZE + CHUNK_SIZE)
  = tenth l j.
Proof.
  unfold slice, tenth, CHUNK_SIZE.
  replace (Z.to_nat (0 + Z.of_nat j * 10 + 10) - Z.to_nat (0 + Z.of_nat j * 10))%nat
    with 10%nat by lia.
  replace (Z.to_nat (0 + Z.of_nat j * 10)) with (10 * j)%nat by lia.
  reflexivity.
Qed.

Lemma tenth_succ l j : tenth l (S j) = tenth (skipn 10 l) j.
Proof.
  unfold tenth. rewrite skipn_skipn. f_equal. f_equal. lia.
Qed.

Lemma tenths_succ l m :
  map (tenth l) (seq 0 (S m))
  = firstn 10 l :: map (tenth (skipn 10 l)) (seq 0 m).
Proof.
  simpl seq. rewrite <- seq_shift, map_cons, map_map. f_equal.
  apply map_ext. intros j. apply tenth_succ.
Qed.

Lemma concat_tenths : forall m l,
  (List.length l <= 10 * m)%nat ->
  List.concat (map (tenth l) (seq 0 m)) = l.
Proof.
  induction m as [|m IH]; intros l Hlen.
  - destruct l; [reflexivity | simpl in Hlen; lia].
  - rewrite tenths_succ, concat_cons.
    rewrite IH; [apply firstn_skipn|].
    rewrite length_skipn. lia.
Qed.

Lemma len_tenths : forall m l,
  Z.of_nat m = (len l + 9) / 10 ->
  map len (map (tenth l) (seq 0 m)) = counts 10 (len l).
Proof.
  induction m as [|m IH]; intros l Hm.
  - assert (len l = 0) by (unfold len in *; Z.div_mod_to_equations; lia).
    rewrite H. reflexivity.
  - rewrite tenths_succ, map_cons.
    assert (Hskip : len (skipn 10 l) = Z.max 0 (len l - 10)).
    { unfold len. rewrite length_skipn. lia. }
    assert (Hfirst : len (firstn 10 l) = Z.min 10 (len l)).
    { unfold len. rewrite length_firstn. lia. }
    destruct (Z_lt_ge_dec (len l) 10) as [Hlt|Hge].
    + assert (m = 0%nat) by (unfold len in *; Z.div_mod_to_equations; lia).
      assert (0 < len l) by (unfold len in *; Z.div_mod_to_equations; lia).
      subst m. change (map len (map _ (seq 0 0))) with (@nil Z). rewrite Hfirst.
      rewrite counts_small by (unfold len in *; lia).
      destruct (Z.eqb_spec (len l) 0); [lia|]. f_equal. lia.
    + rewrite (IH (skipn 10 l)), Hskip, Hfirst.
      * replace (len l) with (10 + (len l - 10)) at 3 by lia.
        rewrite counts_step by lia.
        f_equal; [lia | f_equal; lia].
      * rewrite Hskip. unfold len in *. Z.div_mod_to_equations. lia.
Qed.

End Slices.

Lemma range_tens n :
  range 0 n CHUNK_SIZE
  = map (fun j => 0 + Z.of_nat j * CHUNK_SIZE)
        (seq 0 (Z.to_nat ((n + 9) / 10))).
Proof.
  unfold range, CHUNK_SIZE.
  replace (n - 0 + 10 - 1) with (n + 9) by lia. reflexivity.
Qed.

Lemma chunks_tenths (bookmarks : list (dict JSON)) :
  chunks bookmarks
  = map (tenth bookmarks) (seq 0 (Z.to_nat ((len bookmarks + 9) / 10))).
Proof.
  unfold chunks, chunk_at. rewrite range_tens, map_map.
  apply map_ext. intros j. apply slice_tenth.
Qed.

Lemma chunk_numbers_seq (bookmarks : list (dict JSON)) :
  chunk_numbers bookmarks
  = map (fun j => Z.of_nat j + 1)
        (seq 0 (Z.to_nat ((len bookmarks + 9) / 10))).
Proof.
  unfold chunk_numbers, chunk_num_at. rewrite range_tens, map_map.
  apply map_ext. intros j. unfold CHUNK_SIZE.
  rewrite Z.add_0_l, Z.div_mul by lia. reflexivity.
Qed.

End SliceFacts.

Module PipelineFacts.
Import Py Categorizer Observations PyFacts.
Local Open Scope list_scope.

Lemma requests_app (a b : list Event) :
  requests (a ++ b) = (requests a + requests b)%nat.
Proof. unfold requests. now rewrite filter_app, length_app. Qed.

(** The waits of the decorator lie between its [min] and its [max]. *)
Lemma wait_exponential_bounds attempt_number :
  4 <= Tenacity.wait_exponential 1 4 10 attempt_number <= 10.
Proof. unfold Tenacity.wait_exponential. lia. Qed.

Section Agent.
Variable json_loads : string -> option JSON.
Variable json_dumps : JSON -> string.
Variable World : Type.
Variable ollama_generate : string -> World -> Reply * World.

Abbreviation Sys := (Sys World).
Abbreviation Run := (Run World).
Abbreviation attempt := (attempt json_loads ollama_generate).
Abbreviation outcome := (outcome json_loads ollama_generate).
Abbreviation outcomes := (outcomes json_loads json_dumps ollama_generate).
Abbreviation _process := (_process ollama_generate).
Abbreviation try_chunk := (try_chunk json_loads ollama_generate).
Abbreviation retry_loop := (retry_loop json_loads ollama_generate).
Abbreviation process_chunk :=
  (process_chunk json_loads json_dumps ollama_generate).

Lemma dispatch_shape_requests prompt events :
  dispatch_shape prompt events ->
  (1 <= requests events <= 3)%nat /\ In (Request prompt) events.
Proof.
  intros [H | [H | H]]; subst events; (split; [cbn; lia | now left]).
Qed.

Lemma process_body_trace prompt (s : Sys) :
  trace (snd (_process_body ollama_generate prompt s))
  = trace s ++ [Request prompt].
Proof.
  unfold _process_body.
  destruct (ollama_generate prompt (world s)) as [[text|d|d] w]; reflexivity.
Qed.

Lemma process_trace prompt (s : Sys) :
  exists events,
    trace (snd (_process prompt s)) = trace s ++ events
    /\ dispatch_shape prompt events.
Proof.
  unfold Categorizer._process, dispatch_shape, wait. cbn [Z.to_nat Z.sub].
  change (Z.to_nat (Tenacity.stop_after_attempt - 1)) with 2%nat.
  cbn [retrying].
  destruct (_process_body ollama_generate prompt s) as [[t1|e1] s1] eqn:E1;
    pose proof (process_body_trace prompt s) as T1; rewrite E1 in T1;
    simpl in T1.
  { exists [Request prompt]. split; [exact T1 | now left]. }
  set (s1' := emit _ s1).
  destruct (_process_body ollama_generate prompt s1') as [[t2|e2] s2] eqn:E2;
    pose proof (process_body_trace prompt s1') as T2; rewrite E2 in T2;
    simpl in T2; rewrite T1, <- !app_assoc in T2.
  { eexists. split; [exact T2 | right; left; reflexivity]. }
  set (s2' := emit _ s2).
  destruct (_process_body ollama_generate prompt s2') as [[t3|e3] s3] eqn:E3;
    pose proof (process_body_trace prompt s2') as T3; rewrite E3 in T3;
    simpl in T3; rewrite T2, <- !app_assoc in T3.
  { eexists. split; [exact T3 | right; right; reflexivity]. }
  eexists. split; [exact T3 | right; right; reflexivity].
Qed.

(** A reply with a text ends [_process] after one request, whatever the
    text. *)
Lemma process_full_response prompt (s : Sys) text w :
  ollama_generate prompt (world s) = (FullResponse text, w) ->
  _process prompt s
  = (Ok text, {| world := w; trace := trace s ++ [Request prompt] |}).
Proof.
  intros H. unfold Categorizer._process.
  change (Z.to_nat (Tenacity.stop_after_attempt - 1)) with 2%nat.
  cbn [retrying]. unfold _process_body. rewrite H. reflexivity.
Qed.

Lemma attempt_trace prompt (s : Sys) :
  trace (snd (attempt prompt s)) = trace (snd (_process prompt s)).
Proof.
  unfold Observations.attempt. destruct (_process prompt s). reflexivity.
Qed.

Lemma try_chunk_attempt prompt (run : Run) :
  try_chunk prompt run
  = match attempt prompt (sys run) with
    | (Ok chunk_categories, s) =>
        (None, {| all_categories :=
                    merge_categories (all_categories run) chunk_categories;
                  failed_chunks := failed_chunks run; sys := s |})
    | (Raise e, s) =>
        (Some e, {| all_categories := all_categories run;
                    failed_chunks := failed_chunks run; sys := s |})
    end.
Proof.
  unfold Categorizer.try_chunk, Observations.attempt.
  destruct (_process prompt (sys run)) as [[response|e] s]; simpl;
    [|reflexivity].
  destruct (_parse_response json_loads response) as [[|c cs]|e]; reflexivity.
Qed.

Lemma retry_loop_outcome chunk_num prompt (run : Run) :
  retry_loop (Z.to_nat max_retries) chunk_num prompt 0 run
  = settle chunk_num run (outcome (Z.to_nat max_retries) prompt (sys run)).
Proof.
  change (Z.to_nat max_retries) with 3%nat.
  destruct run as [all failed s0]. unfold settle.
  cbn [Categorizer.retry_loop Observations.outcome].
  change (0 <? max_retries) with true. cbv iota.
  rewrite try_chunk_attempt. cbn [sys all_categories failed_chunks].
  destruct (attempt prompt s0) as [[c1|e1] s1]; [reflexivity|].
  change (0 + 1 >=? max_retries) with false.
  change (0 + 1 <? max_retries) with true. cbv iota.
  rewrite try_chunk_attempt. cbn [sys all_categories failed_chunks].
  destruct (attempt prompt s1) as [[c2|e2] s2]; [reflexivity|].
  change (0 + 1 + 1 >=? max_retries) with false.
  change (0 + 1 + 1 <? max_retries) with true. cbv iota.
  rewrite try_chunk_attempt. cbn [sys all_categories failed_chunks].
  destruct (attempt prompt s2) as [[c3|e3] s3]; reflexivity.
Qed.

(** [max_retries] of fuel is enough: more changes nothing. *)
Lemma retry_loop_fuel extra chunk_num prompt (run : Run) :
  retry_loop (Z.to_nat max_retries + extra) chunk_num prompt 0 run
  = retry_loop (Z.to_nat max_retries) chunk_num prompt 0 run.
Proof.
  change (Z.to_nat max_retries) with 3%nat.
  cbn [Nat.add Categorizer.retry_loop].
  change (0 <? max_retries) with true. cbv iota.
  destruct (try_chunk prompt run) as [[e1|] r1]; [|reflexivity].
  change (0 + 1 >=? max_retries) with false.
  change (0 + 1 <? max_retries) with true. cbv iota.
  destruct (try_chunk prompt r1) as [[e2|] r2]; [|reflexivity].
  change (0 + 1 + 1 >=? max_retries) with false.
  change (0 + 1 + 1 <? max_retries) with true. cbv iota.
  destruct (try_chunk prompt r2) as [[e3|] r3]; [|reflexivity].
  change (0 + 1 + 1 + 1 >=? max_retries) with true. cbv iota.
  destruct extra; cbn [Categorizer.retry_loop]; [reflexivity|].
  change (0 + 1 + 1 + 1 <? max_retries) with false. reflexivity.
Qed.

Lemma loop_outcomes bookmarks : forall indices (run : Run),
  fold_left (process_chunk bookmarks) indices run
  = let '(fates, s) := outcomes (map (chunk_at bookmarks) indices) (sys run) in
    {| all_categories := merged (all_categories run) fates;
       failed_chunks :=
         failed_chunks run ++ failed (map chunk_num_at indices) fates;
       sys := s |}.
Proof.
  induction indices as [|i indices IH]; intros run.
  - destruct run. simpl. now rewrite app_nil_r.
  - cbn [fold_left map Observations.outcomes]. rewrite IH.
    unfold Categorizer.process_chunk. rewrite retry_loop_outcome.
    destruct (outcome (Z.to_nat max_retries)
                (make_prompt json_dumps (chunk_at bookmarks i)) (sys run))
      as [[c|] s1]; cbn [settle sys all_categories failed_chunks];
      destruct (outcomes (map (chunk_at bookmarks) indices) s1) as [fates s2];
      cbn [failed merged]; [reflexivity|].
    now rewrite <- app_assoc.
Qed.

Lemma attempt_nonempty prompt (s : Sys) c s' :
  attempt prompt s = (Ok c, s') -> c <> [].
Proof.
  unfold Observations.attempt.
  destruct (_process prompt s) as [[response|e] s1]; simpl; [|discriminate].
  destruct (_parse_response json_loads response) as [[|x xs]|e];
    simpl; intros H; inversion H; discriminate.
Qed.

Lemma outcome_nonempty : forall n prompt (s : Sys) c s',
  outcome n prompt s = (Some c, s') -> c <> [].
Proof.
  induction n as [|n IH]; intros prompt s c s'; simpl; [discriminate|].
  destruct (attempt prompt s) as [[c1|e1] s1] eqn:E.
  - intros H. inversion H; subst. eapply attempt_nonempty; eassumption.
  - apply IH.
Qed.

Lemma outcomes_nonempty : forall todo (s : Sys),
  Forall (fun fate => fate <> Some []) (fst (outcomes todo s)).
Proof.
  induction todo as [|chunk todo IH]; intros s; [constructor|].
  cbn [Observations.outcomes].
  destruct (outcome (Z.to_nat max_retries) (make_prompt json_dumps chunk) s)
    as [o s1] eqn:E.
  specialize (IH s1). destruct (outcomes todo s1) as [os s2].
  cbn [fst] in *. constructor; [|exact IH].
  destruct o as [c|]; [|discriminate].
  intros H. inversion H; subst. eapply outcome_nonempty; [exact E | reflexivity].
Qed.

Lemma length_outcomes : forall todo (s : Sys),
  List.length (fst (outcomes todo s)) = List.length todo.
Proof.
  induction todo as [|chunk todo IH]; intros s; [reflexivity|].
  cbn [Observations.outcomes].
  destruct (outcome (Z.to_nat max_retries) (make_prompt json_dumps chunk) s)
    as [o s1].
  specialize (IH s1). destruct (outcomes todo s1) as [os s2].
  cbn [fst] in *. simpl List.length. now rewrite IH.
Qed.

Lemma outcome_trace : forall n prompt (s : Sys),
  exists events,
    trace (snd (outcome n prompt s)) = trace s ++ events
    /\ (requests events <= 3 * n)%nat
    /\ ((0 < n)%nat ->
        (1 <= requests events)%nat /\ In (Request prompt) events).
Proof.
  induction n as [|n IH]; intros prompt s.
  - exists []. simpl. rewrite app_nil_r.
    repeat split; [cbn; lia | inversion H | inversion H].
  - cbn [Observations.outcome].
    destruct (process_trace prompt s) as (ev1 & T1 & S1).
    rewrite <- attempt_trace in T1.
    apply dispatch_shape_requests in S1. destruct S1 as [R1 I1].
    destruct (attempt prompt s) as [[c|e] s1]; simpl in T1.
    + exists ev1. simpl. repeat split; [exact T1 | lia | lia | auto].
    + destruct (IH prompt s1) as (ev2 & T2 & R2 & _).
      exists (ev1 ++ ev2). rewrite T2, T1, app_assoc, requests_app.
      repeat split; [lia | lia | apply in_or_app; now left].
Qed.

Section Answering.
(** A service that answers every request with a text. *)
Hypothesis answers :
  forall prompt w, exists text w',
    ollama_generate prompt w = (FullResponse text, w').


End Answering.

Section AnsweringEmpty.
(** A service whose every answer decodes to a map without category. *)
Hypothesis answers_empty :
  forall prompt w, exists text w',
    ollama_generate prompt w = (FullResponse text, w')
    /\ _parse_response json_loads text = Ok [].

Lemma outcome_answering_empty : forall n prompt (s : Sys),
  fst (outcome n prompt s) = None
  /\ exists events,
       trace (snd (outcome n prompt s)) = trace s ++ events
       /\ requests events = n.
Proof.
  induction n as [|n IH]; intros prompt s.
  - split; [reflexivity|]. exists []. simpl. rewrite app_nil_r.
    split; reflexivity.
  - cbn [Observations.outcome]. unfold Observations.attempt.
    destruct (answers_empty prompt (world s)) as (text & w' & A & P).
    rewrite (process_full_response prompt s text w' A).
    cbn [bind]. rewrite P. cbn [bind].
    set (s1 := {| world := w'; trace := trace s ++ [Request prompt] |}).
    destruct (IH prompt s1) as (N & ev2 & T2 & R2).
    split; [exact N|].
    exists ([Request prompt] ++ ev2).
    rewrite T2. unfold s1. cbn [trace]. rewrite <- app_assoc, requests_app.
    split; [reflexivity | cbn; cbn in R2; lia].
Qed.

End AnsweringEmpty.


Lemma outcomes_trace : forall todo (s : Sys),
  exists events,
    trace (snd (outcomes todo s)) = trace s ++ events
    /\ (requests events <= 9 * List.length todo)%nat
    /\ forall chunk, In chunk todo ->
                     In (Request (make_prompt json_dumps chunk)) events.
Proof.
  induction todo as [|chunk todo IH]; intros s.
  - exists []. simpl. rewrite app_nil_r. repeat split; [cbn; lia | tauto].
  - cbn [Observations.outcomes].
    destruct (outcome_trace (Z.to_nat max_retries)
                (make_prompt json_dumps chunk) s) as (ev1 & T1 & R1 & I1).
    change (Z.to_nat max_retries) with 3%nat in *.
    destruct (outcome 3 (make_prompt json_dumps chunk) s) as [o s1].
    destruct (IH s1) as (ev2 & T2 & R2 & I2).
    destruct (outcomes todo s1) as [os s2]. simpl in *.
    exists (ev1 ++ ev2). rewrite T2, T1, app_assoc, requests_app.
    repeat split; [lia|].
    intros c [<-|Hc]; apply in_or_app; [left; apply I1; lia | right; auto].
Qed.

Lemma merge_keeps_content : forall chunk acc,
  acc <> [] \/ chunk <> [] -> merge_categories acc chunk <> [].
Proof.
  induction chunk as [|[category items] rest IH]; intros acc H.
  - simpl. destruct H as [H|H]; [exact H | congruence].
  - cbn [merge_categories]. apply IH. left.
    match goal with |- setitem ?k ?v ?d <> [] =>
      destruct d as [|[k0 v0] d0]; simpl; [discriminate|];
      destruct (String.eqb k0 k); discriminate
    end.
Qed.

Lemma merged_empty : forall fates acc,
  Forall (fun fate => fate <> Some []) fates ->
  (merged acc fates = [] <-> acc = [] /\ Forall (fun fate => fate = None) fates).
Proof.
  induction fates as [|fate fates IH]; intros acc Hne; simpl.
  - split; [intros ->; split; [reflexivity|constructor] | tauto].
  - inversion Hne as [|? ? Hf Hfs]; subst. destruct fate as [c|].
    + rewrite (IH _ Hfs). split.
      * intros [H _]. exfalso. revert H. apply merge_keeps_content.
        right. congruence.
      * intros [_ H]. inversion H; discriminate.
    + rewrite (IH _ Hfs). split.
      * intros [H1 H2]. split; [exact H1 | now constructor].
      * intros [H1 H2]. inversion H2; subst. tauto.
Qed.

Lemma failed_all : forall numbers (fates : list (option CategoryMap)),
  List.length numbers = List.length fates ->
  Forall (fun fate => fate = None) fates ->
  failed numbers fates = numbers.
Proof.
  induction numbers as [|n numbers IH]; intros [|fate fates] L A;
    try discriminate L; [reflexivity|].
  inversion A; subst. simpl. f_equal. apply IH; [now inversion L | assumption].
Qed.

Lemma categorize_bookmarks_outcomes bookmarks (sys0 : Sys) :
  categorize_bookmarks json_loads json_dumps ollama_generate bookmarks sys0
  = let '(fates, s) := outcomes (chunks bookmarks) sys0 in
    match failed (chunk_numbers bookmarks) fates, merged [] fates with
    | _ :: _, [] =>
        (Raise (ValueError
                  (FailedToCategorize (failed (chunk_numbers bookmarks) fates))),
         s)
    | _, aggregate => (Ok aggregate, s)
    end.
Proof.
  unfold Categorizer.categorize_bookmarks.
  destruct bookmarks as [|b bs]; [reflexivity|].
  rewrite loop_outcomes. unfold chunks, chunk_numbers.
  cbn [sys all_categories failed_chunks].
  destruct (outcomes _ sys0) as [fates s]. cbn [app sys all_categories failed_chunks].
  destruct (failed _ fates), (merged [] fates); reflexivity.
Qed.

Lemma categorize_bookmarks_trace bookmarks (sys0 : Sys) :
  exists events,
    trace (snd (categorize_bookmarks json_loads json_dumps ollama_generate
                  bookmarks sys0))
    = trace sys0 ++ events
    /\ (requests events <= 9 * List.length (chunks bookmarks))%nat
    /\ forall chunk, In chunk (chunks bookmarks) ->
                     In (Request (make_prompt json_dumps chunk)) events.
Proof.
  destruct (outcomes_trace (chunks bookmarks) sys0) as (events & T & R & I).
  exists events. split; [|split; assumption].
  rewrite categorize_bookmarks_outcomes.
  destruct (outcomes (chunks bookmarks) sys0) as [fates s].
  destruct (failed _ fates), (merged [] fates); exact T.
Qed.

End Agent.

Lemma failed_seq : forall (fates : list (option CategoryMap)) (a : nat),
  failed (map (fun j => Z.of_nat j + 1) (seq a (List.length fates))) fates
  = lost (Z.of_nat a + 1) fates.
Proof.
  induction fates as [|fate fates IH]; intros a; [reflexivity|].
  cbn [List.length seq map failed lost].
  replace (Z.of_nat a + 1 + 1) with (Z.of_nat (S a) + 1) by lia.
  destruct fate; now rewrite IH.
Qed.

Lemma failed_numbers_lost (bookmarks : list (dict JSON))
    (fates : list (option CategoryMap)) :
  List.length fates = List.length (chunks bookmarks) ->
  failed (chunk_numbers bookmarks) fates = lost 1 fates.
Proof.
  intros L. rewrite SliceFacts.chunk_numbers_seq.
  rewrite SliceFacts.chunks_tenths, length_map, length_seq in L. rewrite <- L.
  apply (failed_seq fates 0).
Qed.

Lemma In_lost : forall (fates : list (option CategoryMap)) (first k : Z),
  In k (lost first fates)
  <-> exists j, nth_error fates j = Some None /\ k = first + Z.of_nat j.
Proof.
  induction fates as [|fate fates IH]; intros first k.
  - split; [intros [] | intros ([|j] & H & _); discriminate H].
  - assert (S : (exists j, nth_error fates j = Some None
                           /\ k = first + 1 + Z.of_nat j)
                <-> exists j, nth_error (fate :: fates) (S j) = Some None
                              /\ k = first + Z.of_nat (S j)).
    { split; intros (j & H & ->); exists j; split; try exact H; lia. }
    destruct fate as [chunk_categories|]; cbn [lost In]; rewrite IH, S.
    + split.
      * intros (j & H); now exists (Datatypes.S j).
      * intros ([|j] & H & E); [discriminate H | now exists j].
    + split.
      * intros [<-|(j & H)];
          [exists 0%nat; split; [reflexivity | lia]
          | now exists (Datatypes.S j)].
      * intros ([|j] & H & E); [left; lia | right; now exists j].
Qed.

(** C3. Every chunk meets its fate whatever became of the others: it is
    sent to the service, and either its map is merged or, its three
    attempts lost, its number is noted.  At the end [categorize_bookmarks]
    raises the aggregation error exactly when some chunk failed for good
    and the aggregate is empty, which is when no chunk went through.  The
    error lists the numbers, counted from 1 in the order of the input, of
    the chunks that failed for good, so it then lists every chunk, from 1
    to the number of chunks.  In every other case the aggregate is
    returned, partial or not. *)
Theorem aggregation_error_iff_nothing_categorized :
  forall (json_loads : string -> option JSON) (json_dumps : JSON -> string)
         (World : Type) (ollama_generate : string -> World -> Reply * World)
         (bookmarks : list (dict JSON)) (sys0 : Categorizer.Sys World),
    let fates :=
      fst (Observations.outcomes json_loads json_dumps ollama_generate
             (chunks bookmarks) sys0) in
    let failed_chunks := lost 1 fates in
    let aggregate := merged [] fates in
    let result :=
      categorize_bookmarks json_loads json_dumps ollama_generate
        bookmarks sys0 in
    List.length fates = List.length (chunks bookmarks)
    /\ (exists events,
          trace (snd result) = trace sys0 ++ events
          /\ forall chunk, In chunk (chunks bookmarks) ->
                In (Request (make_prompt json_dumps chunk)) events)
    /\ (raises (fst result) <-> failed_chunks <> [] /\ aggregate = [])
    /\ (raises (fst result) ->
        fst result = Raise (ValueError (FailedToCategorize failed_chunks)))
    /\ (aggregate <> [] \/ failed_chunks = [] -> fst result = Ok aggregate)
    /\ (aggregate = [] <-> Forall (fun fate => fate = None) fates)
    /\ (Forall (fun fate => fate = None) fates ->
        failed_chunks
        = map (fun j => Z.of_nat j + 1)
              (seq 0 (List.length (chunks bookmarks))))
    /\ (forall k, In k failed_chunks
                  <-> exists j, nth_error fates j = Some None
                                /\ k = Z.of_nat j + 1).
Proof.
  intros json_loads json_dumps World ollama_generate bookmarks sys0
         fates failed_chunks aggregate result.
  pose proof (length_outcomes json_loads json_dumps World ollama_generate
                (chunks bookmarks) sys0) as L.
  pose proof (outcomes_trace json_loads json_dumps World ollama_generate
                (chunks bookmarks) sys0) as (events & T & _ & I).
  pose proof (outcomes_nonempty json_loads json_dumps World ollama_generate
                (chunks bookmarks) sys0) as NE.
  pose proof (categorize_bookmarks_outcomes json_loads json_dumps
                World ollama_generate bookmarks sys0) as E.
  fold result in E. fold fates in L, NE.
  assert (K : forall k, In k failed_chunks
                        <-> exists j, nth_error fates j = Some None
                                      /\ k = Z.of_nat j + 1).
  { intros k. unfold failed_chunks. rewrite In_lost.
    split; intros (j & H & ->); exists j; split; try exact H; lia. }
  assert (FL : failed (chunk_numbers bookmarks) fates = failed_chunks)
    by (apply failed_numbers_lost; exact L).
  clearbody failed_chunks.
  unfold aggregate, fates in *. clear aggregate fates.
  destruct (Observations.outcomes json_loads json_dumps ollama_generate
              (chunks bookmarks) sys0) as [fates s].
  cbn [fst snd] in *. rewrite FL in E.
  assert (Ts : trace (snd result) = trace s).
  { rewrite E. destruct failed_chunks, (merged [] fates); reflexivity. }
  assert (M : merged [] fates = [] <-> Forall (fun fate => fate = None) fates).
  { rewrite (merged_empty fates [] NE). tauto. }
  assert (N : Forall (fun fate => fate = None) fates ->
              failed_chunks
              = map (fun j => Z.of_nat j + 1)
                    (seq 0 (List.length (chunks bookmarks)))).
  { intros A. rewrite <- FL, (failed_all (chunk_numbers bookmarks) fates).
    - rewrite SliceFacts.chunk_numbers_seq, SliceFacts.chunks_tenths,
        length_map, length_seq.
      reflexivity.
    - unfold chunk_numbers, chunks in *. rewrite length_map in *.
      now rewrite L.
    - exact A. }
  split; [exact L|].
  split; [exists events; split; [now rewrite Ts | exact I]|].
  rewrite E.
  destruct failed_chunks as [|n ns] eqn:F,
           (merged [] fates) as [|c cs] eqn:G; cbn [fst];
    (split; [|split; [|split; [|split; [exact M | split; [exact N | exact K]]]]]).
  all: try (split; [intros [e H]; discriminate H | intros [H1 H2]; congruence]).
  all: try (intros [e H]; discriminate H).
  all: try (intros _; reflexivity).
  - split; [intros _; split; [discriminate | reflexivity] | intros _; eexists; reflexivity].
  - intros [H|H]; congruence.
Qed.


(** C8. A response that decodes to a map without any category does not end
    the attempts at a chunk: the attempt fails with "Empty response from
    LLM", nothing is merged, and the loop goes on to the next attempt with
    one retry counted; when every answer of the service is such a map, the
    chunk uses its three attempts and its number goes to the failed
    chunks. *)
Theorem empty_map_fails_the_attempt :
  forall (json_loads : string -> option JSON)
         (World : Type) (ollama_generate : string -> World -> Reply * World)
         (chunk_num : Z) (prompt : string) (run : Categorizer.Run World)
         (response : string) (s1 : Categorizer.Sys World),
    Categorizer._process ollama_generate prompt (sys run) = (Ok response, s1) ->
    _parse_response json_loads response = Ok [] ->
    let run1 := {| all_categories := all_categories run;
                   failed_chunks := failed_chunks run; sys := s1 |} in
    Categorizer.try_chunk json_loads ollama_generate prompt run
    = (Some (ValueError EmptyResponse), run1)
    /\ Categorizer.retry_loop json_loads ollama_generate
         (Z.to_nat max_retries) chunk_num prompt 0 run
       = Categorizer.retry_loop json_loads ollama_generate
           2 chunk_num prompt 1 run1
    /\ ((forall prompt w, exists text w',
            ollama_generate prompt w = (FullResponse text, w')
            /\ _parse_response json_loads text = Ok []) ->
        let after :=
          Categorizer.retry_loop json_loads ollama_generate
            (Z.to_nat max_retries) chunk_num prompt 0 run in
        all_categories after = all_categories run
        /\ failed_chunks after = failed_chunks run ++ [chunk_num]
        /\ exists events,
             trace (sys after) = trace (sys run) ++ events
             /\ requests events = 3%nat).
Proof.
  intros json_loads World ollama_generate chunk_num prompt run response s1
         HP HV run1.
  assert (T : Categorizer.try_chunk json_loads ollama_generate prompt run
              = (Some (ValueError EmptyResponse), run1)).
  { unfold Categorizer.try_chunk. rewrite HP. cbn [bind]. rewrite HV.
    reflexivity. }
  split; [exact T|]. split.
  - change (Z.to_nat max_retries) with 3%nat. cbn [Categorizer.retry_loop].
    change (0 <? max_retries) with true. cbv iota. rewrite T.
    change (0 + 1 >=? max_retries) with false. reflexivity.
  - intros empty after. unfold after. rewrite retry_loop_outcome.
    destruct (outcome_answering_empty json_loads World ollama_generate empty
                (Z.to_nat max_retries) prompt (sys run))
      as (N & events & E & R).
    destruct (Observations.outcome json_loads ollama_generate
                (Z.to_nat max_retries) prompt (sys run)) as [fate s3].
    cbn [fst snd] in *. subst fate. cbn [settle all_categories failed_chunks sys].
    repeat split. exists events. split; [exact E | exact R].
Qed.

(** Witness of [empty_map_fails_the_attempt]: a service that answers
    [{}] to every request. *)
Lemma empty_map_fails_the_attempt_witness :
  let ollama := Services.always "{}" in
  let run := {| all_categories := []; failed_chunks := [];
                sys := Services.start |} in
  let s1 := {| world := 1%nat; trace := [Request "p"] |} in
  let run1 := {| all_categories := []; failed_chunks := []; sys := s1 |} in
  Categorizer._process ollama "p" (sys run) = (Ok "{}"%string, s1)
  /\ _parse_response MiniJson.loads "{}" = Ok []
  /\ Categorizer.try_chunk MiniJson.loads ollama "p" run
     = (Some (ValueError EmptyResponse), run1)
  /\ failed_chunks
       (Categorizer.retry_loop MiniJson.loads ollama
          (Z.to_nat max_retries) 7 "p" 0 run) = [7].
Proof.
  intros ollama run s1 run1.
  assert (H1 : Categorizer._process ollama "p" (sys run)
               = (Ok "{}"%string, s1)) by reflexivity.
  assert (H2 : _parse_response MiniJson.loads "{}" = Ok []) by reflexivity.
  split; [exact H1|]. split; [exact H2|].
  pose proof (empty_map_fails_the_attempt MiniJson.loads nat ollama 7 "p"
                run "{}" s1 H1 H2) as (T & _ & A).
  split; [exact T|].
  apply A. intros prompt w. exists "{}"%string, (S w). split; reflexivity.
Defined.

End PipelineFacts.

Module ValidatorFacts.
Import Py Categorizer Observations PyFacts.
Local Open Scope list_scope.

Lemma validate_bookmarks_cases category : forall items,
  (validate_bookmarks category items = Ok tt
   /\ forall item, In item items -> accepted_item item = true)
  \/ (exists item,
        In item items /\ accepted_item item = false
        /\ validate_bookmarks category items
           = Raise (ValueError (item_error category item))).
Proof.
  induction items as [|bookmark rest IH]; simpl.
  - left. split; [reflexivity | tauto].
  - destruct (accepted_item bookmark) eqn:A.
    + assert (E : match bookmark with
                  | JDict fields =>
                      if negb (contains "title" fields)
                         || negb (contains "url" fields)
                      then Raise (ValueError
                                    (MissingRequiredFields category bookmark))
                      else validate_bookmarks category rest
                  | _ => Raise (ValueError (InvalidBookmark category bookmark))
                  end = validate_bookmarks category rest).
      { destruct bookmark; try discriminate A. simpl in A.
        apply andb_true_iff in A. destruct A as [-> ->]. reflexivity. }
      rewrite E. destruct IH as [[V ok]|(item & I & B & V)].
      * left. split; [exact V|]. intros item [<-|H]; auto.
      * right. exists item. auto.
    + right. exists bookmark. split; [now left|]. split; [exact A|].
      destruct bookmark; try reflexivity. simpl in A |- *.
      rewrite <- negb_andb, A. reflexivity.
Qed.

Lemma validate_categories_cases : forall entries,
  (exists data,
      validate_categories entries = Ok data
      /\ as_entries data = entries
      /\ forall category items item,
           In (category, JList items) entries -> In item items ->
           accepted_item item = true)
  \/ (exists category value,
        In (category, value) entries /\ is_list value = false
        /\ validate_categories entries
           = Raise (ValueError (MustContainList category)))
  \/ (exists category items item,
        In (category, JList items) entries /\ In item items
        /\ accepted_item item = false
        /\ validate_categories entries
           = Raise (ValueError (item_error category item))).
Proof.
  induction entries as [|[category value] rest IH].
  - left. exists []. repeat split. intros ? ? ? [].
  - cbn [validate_categories].
    destruct value as [| | | | |items|];
      try (right; left; exists category; eexists;
           split; [now left | split; reflexivity]).
    destruct (validate_bookmarks_cases category items)
      as [[V ok]|(item & I & B & V)]; rewrite V; cbn [bind].
    + destruct IH as [(data & E & R & A)
                     |[(c & v & I & L & E)|(c & l & it & I & J & B & E)]];
        rewrite E; cbn [bind].
      * left. exists ((category, items) :: data). split; [reflexivity|].
        split; [unfold as_entries in *; simpl; now rewrite R|].
        intros c l it [H|H] J; [inversion H; subst; auto | eauto].
      * right. left. exists c, v. split; [now right | auto].
      * right. right. exists c, l, it. split; [now right | auto].
    + right. right. exists category, items, item.
      split; [now left | auto].
Qed.

Lemma validate_bookmarks_cons category bookmark rest :
  validate_bookmarks category (bookmark :: rest)
  = if accepted_item bookmark then validate_bookmarks category rest
    else Raise (ValueError (item_error category bookmark)).
Proof.
  cbn [validate_bookmarks].
  destruct bookmark as [| | | | | |fields]; try reflexivity.
  cbn [accepted_item item_error]. rewrite <- negb_andb.
  destruct (contains "title" fields && contains "url" fields); reflexivity.
Qed.

Lemma validate_bookmarks_first category item rest : forall good,
  forallb accepted_item good = true ->
  accepted_item item = false ->
  validate_bookmarks category (good ++ item :: rest)
  = Raise (ValueError (item_error category item)).
Proof.
  induction good as [|g good IH]; intros G B.
  - cbn [app]. now rewrite validate_bookmarks_cons, B.
  - cbn [forallb] in G. apply andb_true_iff in G. destruct G as [Hg G].
    cbn [app]. rewrite validate_bookmarks_cons, Hg. now apply IH.
Qed.

Lemma validate_bookmarks_accepts category : forall items,
  forallb accepted_item items = true ->
  validate_bookmarks category items = Ok tt.
Proof.
  induction items as [|g items IH]; intros G; [reflexivity|].
  cbn [forallb] in G. apply andb_true_iff in G. destruct G as [Hg G].
  rewrite validate_bookmarks_cons, Hg. now apply IH.
Qed.

Lemma validate_bookmarks_rejects category : forall items,
  forallb accepted_item items = false ->
  exists e, validate_bookmarks category items = Raise e.
Proof.
  induction items as [|g items IH]; intros H; [discriminate H|].
  rewrite validate_bookmarks_cons. cbn [forallb] in H.
  destruct (accepted_item g); [apply IH, H | eexists; reflexivity].
Qed.

Lemma rejected_entry category value :
  accepted_entry (category, value) = false ->
  exists e, forall rest,
    validate_categories ((category, value) :: rest) = Raise e.
Proof.
  unfold accepted_entry. cbn [snd validate_categories]. intros B.
  destruct value as [| | | | |items|];
    try (eexists; intros rest; reflexivity).
  destruct (validate_bookmarks_rejects category items B) as [e V].
  exists e. intros rest. now rewrite V.
Qed.

(** The validator stops at the first entry it does not accept. *)
Lemma validate_categories_first category value after :
  accepted_entry (category, value) = false ->
  forall before,
    forallb accepted_entry before = true ->
    validate_categories (before ++ (category, value) :: after)
    = validate_categories [(category, value)].
Proof.
  intros B. destruct (rejected_entry category value B) as [e R].
  rewrite (R []).
  induction before as [|[c v] before IH]; intros G.
  - cbn [app]. apply R.
  - cbn [forallb] in G. apply andb_true_iff in G. destruct G as [Hg G].
    cbn [app validate_categories]. unfold accepted_entry in Hg.
    cbn [snd] in Hg.
    destruct v as [| | | | |items|]; try discriminate Hg.
    rewrite (validate_bookmarks_accepts c items Hg). cbn [bind].
    rewrite (IH G). reflexivity.
Qed.

Section Decoder.
Variable json_loads : string -> option JSON.

Lemma parse_response_decoded response data :
  json_loads (clean_response response) = Some data ->
  _parse_response json_loads response
  = match validate data with
    | Ok data => Ok data
    | Raise e => Raise (ValueError (FailedToParseResponse (message_of e)))
    end.
Proof. intros H. unfold _parse_response. now rewrite H. Qed.


End Decoder.

(** C5, as the code has it. When the response decodes to a mapping:
    an item that is not a mapping, or lacks the key [title] or the key
    [url], makes the validator fail.  The error is about the first
    category, in the order of the mapping, that is not a list of
    well-formed items: when its value is a list the error names this
    category and the first item of it that is at fault, whatever comes
    after; when its value is no list the error names the category.  When
    every category holds a list of mappings that have both keys, the
    response is accepted and the map returned is the decoded one.  The
    values under the keys are not looked at: an item with an empty [url]
    is accepted. *)
Theorem malformed_items_are_rejected :
  forall (json_loads : string -> option JSON) (response : string)
         (entries : dict JSON),
    json_loads (clean_response response) = Some (JDict entries) ->
    ((exists category items item,
         In (category, JList items) entries /\ In item items
         /\ accepted_item item = false) ->
     raises (_parse_response json_loads response))
    /\ (forall before category good item rest after,
          entries = before ++ (category, JList (good ++ item :: rest)) :: after ->
          forallb accepted_entry before = true ->
          forallb accepted_item good = true ->
          accepted_item item = false ->
          _parse_response json_loads response
          = Raise (ValueError
                     (FailedToParseResponse (item_error category item))))
    /\ (forall before category value after,
          entries = before ++ (category, value) :: after ->
          forallb accepted_entry before = true ->
          is_list value = false ->
          _parse_response json_loads response
          = Raise (ValueError
                     (FailedToParseResponse (MustContainList category))))
    /\ ((forall category value,
            In (category, value) entries -> is_list value = true) ->
        (exists category items item,
            In (category, JList items) entries /\ In item items
            /\ accepted_item item = false) ->
        exists category items item,
          In (category, JList items) entries /\ In item items
          /\ accepted_item item = false
          /\ _parse_response json_loads response
             = Raise (ValueError
                        (FailedToParseResponse (item_error category item))))
    /\ ((forall category value,
            In (category, value) entries ->
            exists items,
              value = JList items
              /\ forall item, In item items -> accepted_item item = true) ->
        exists data,
          _parse_response json_loads response = Ok data
          /\ as_entries data = entries)
    /\ (forall fields title,
          accepted_item
            (JDict (setitem "url" (JStr EmptyString)
                      (setitem "title" title fields))) = true).
Proof.
  intros json_loads response entries D.
  assert (First_item :
    forall before category good item rest after,
      entries = before ++ (category, JList (good ++ item :: rest)) :: after ->
      forallb accepted_entry before = true ->
      forallb accepted_item good = true ->
      accepted_item item = false ->
      _parse_response json_loads response
      = Raise (ValueError
                 (FailedToParseResponse (item_error category item)))).
  { intros before category good item rest after E G Hgood Hitem.
    rewrite (parse_response_decoded json_loads response _ D). cbn [validate].
    rewrite E, validate_categories_first; [|
      unfold accepted_entry; cbn [snd]; rewrite forallb_app; cbn [forallb];
      rewrite Hitem; apply andb_false_r | exact G].
    cbn [validate_categories].
    rewrite (validate_bookmarks_first category item rest good Hgood Hitem).
    reflexivity. }
  assert (First_value :
    forall before category value after,
      entries = before ++ (category, value) :: after ->
      forallb accepted_entry before = true ->
      is_list value = false ->
      _parse_response json_loads response
      = Raise (ValueError
                 (FailedToParseResponse (MustContainList category)))).
  { intros before category value after E G L.
    rewrite (parse_response_decoded json_loads response _ D). cbn [validate].
    rewrite E, validate_categories_first; [|
      unfold accepted_entry; cbn [snd]; destruct value; try reflexivity;
      discriminate L | exact G].
    cbn [validate_categories]. destruct value; try reflexivity.
    discriminate L. }
  split; [|split; [exact First_item | split; [exact First_value|]]];
    clear First_item First_value;
    rewrite (parse_response_decoded json_loads response _ D); cbn [validate];
    destruct (validate_categories_cases entries)
      as [(data & E & R & A)
         |[(c & v & I & L & E)|(c & l & it & I & J & B & E)]];
    rewrite E; cbn [message_of].
  - intros (c & l & it & I & J & B). rewrite (A c l it I J) in B.
    discriminate B.
  - intros _. eexists. reflexivity.
  - intros _. eexists. reflexivity.
  - repeat split.
    + intros _ (c & l & it & I & J & B). rewrite (A c l it I J) in B.
      discriminate B.
    + intros _. exists data. split; [reflexivity | exact R].
    + intros fields title. cbn [accepted_item].
      rewrite !contains_setitem, String.eqb_refl. reflexivity.
  - repeat split.
    + intros lists. rewrite (lists c v I) in L. discriminate L.
    + intros good. destruct (good c v I) as (items & -> & _). discriminate L.
    + intros fields title. cbn [accepted_item].
      rewrite !contains_setitem, String.eqb_refl. reflexivity.
  - repeat split.
    + intros _ _. exists c, l, it. auto.
    + intros good. destruct (good c (JList l) I) as (items & Q & ok).
      inversion Q; subst. rewrite (ok it J) in B. discriminate B.
    + intros fields title. cbn [accepted_item].
      rewrite !contains_setitem, String.eqb_refl. reflexivity.
Qed.

(** Witness of [malformed_items_are_rejected]: the second item of the
    first category is no mapping, and the second category holds no list;
    the error is about the item. *)
Lemma malformed_items_are_rejected_witness :
  MiniJson.loads
    (clean_response (MiniJson.text "{'A':[{'title':'x','url':'u'},5],'B':3}"))
  = Some (JDict [("A", JList [JDict [("title", JStr "x"); ("url", JStr "u")];
                              JInt 5]);
                 ("B", JInt 3)])
  /\ _parse_response MiniJson.loads
       (MiniJson.text "{'A':[{'title':'x','url':'u'},5],'B':3}")
     = Raise (ValueError (FailedToParseResponse (InvalidBookmark "A" (JInt 5)))).
Proof.
  assert (D : MiniJson.loads
                (clean_response
                   (MiniJson.text "{'A':[{'title':'x','url':'u'},5],'B':3}"))
              = Some (JDict [("A", JList [JDict [("title", JStr "x");
                                                 ("url", JStr "u")];
                                          JInt 5]);
                             ("B", JInt 3)]))
    by reflexivity.
  split; [exact D|].
  pose proof (malformed_items_are_rejected MiniJson.loads _ _ D)
    as (_ & first_item & _).
  exact (first_item [] "A"%string
           [JDict [("title", JStr "x"); ("url", JStr "u")]] (JInt 5) []
           [("B"%string, JInt 3)] eq_refl eq_refl eq_refl eq_refl).
Defined.

(** C5, as the specification has it, fails: an item whose [url] is the
    empty string is not an item of the specification, and the validator
    accepts the response that holds it. *)
Lemma empty_url_is_accepted :
  let item := JDict [("title", JStr "x"); ("url", JStr EmptyString)] in
  let response := MiniJson.text "{'A':[{'title':'x','url':''}]}" in
  MiniJson.loads (clean_response response) = Some (JDict [("A", JList [item])])
  /\ item_of_the_specification item = false
  /\ _parse_response MiniJson.loads response = Ok [("A", [item])]
  /\ ~ raises (_parse_response MiniJson.loads response)
  /\ ~ (forall json_loads response entries,
          json_loads (clean_response response) = Some (JDict entries) ->
          (exists category items item,
              In (category, JList items) entries /\ In item items
              /\ item_of_the_specification item = false) ->
          raises (_parse_response json_loads response)).
Proof.
  intros item response.
  assert (N : ~ raises (_parse_response MiniJson.loads response)).
  { intros [e H]. discriminate H. }
  repeat split; [exact N|].
  intros H. apply N.
  apply (H MiniJson.loads response [("A", JList [item])]); [reflexivity|].
  exists "A"%string, [item], item. repeat split; now left.
Qed.


Section Fences.
Local Open Scope string_scope.
Variable body : string.
Hypothesis stripped : strip body = body.









End Fences.




End ValidatorFacts.

Module AggregatorFacts.
Import Py Categorizer Observations PyFacts ChunkerFacts SliceFacts PipelineFacts.
Local Open Scope list_scope.

(** C10. The aggregator cuts its input every [CHUNK_SIZE] = 10 bookmarks,
    a constant of the method (the agent takes no chunk size): the chunks it
    walks are contiguous and in order, so put end to end they give the
    input back; each holds exactly 10 bookmarks but for a last shorter one
    that holds the rest; there are ceil(n/10) of them, numbered from 1;
    and whatever the service does, each of them is sent to it. *)
Theorem aggregator_slices_by_ten :
  forall (bookmarks : list (dict JSON)),
    let n := len bookmarks in
    List.concat (chunks bookmarks) = bookmarks
    /\ map len (chunks bookmarks) = counts 10 n
    /\ len (chunks bookmarks) = (n + 10 - 1) / 10
    /\ chunk_numbers bookmarks
       = map (fun j => Z.of_nat j + 1) (seq 0 (List.length (chunks bookmarks)))
    /\ forall (json_loads : string -> option JSON)
         (json_dumps : JSON -> string) (World : Type)
         (ollama_generate : string -> World -> Reply * World)
         (sys0 : Categorizer.Sys World),
        exists events,
          trace (snd (categorize_bookmarks json_loads json_dumps
                        ollama_generate bookmarks sys0))
          = trace sys0 ++ events
          /\ forall chunk, In chunk (chunks bookmarks) ->
                In (Request (make_prompt json_dumps chunk)) events.
Proof.
  intros bookmarks n.
  assert (Hn : 0 <= n) by (unfold n, len; lia).
  assert (Hm : 0 <= (n + 9) / 10) by (apply Z.div_pos; lia).
  pose proof (chunks_tenths bookmarks) as E. fold n in E.
  repeat split.
  - rewrite E. apply concat_tenths.
    unfold n, len in *. Z.div_mod_to_equations. lia.
  - rewrite E. apply len_tenths. fold n. lia.
  - rewrite E. unfold len at 1. rewrite length_map, length_seq.
    replace (n + 10 - 1) with (n + 9) by lia. lia.
  - rewrite chunk_numbers_seq, E, length_map, length_seq. reflexivity.
  - intros json_loads json_dumps World ollama_generate sys0.
    destruct (categorize_bookmarks_trace json_loads json_dumps World
                ollama_generate bookmarks sys0) as (events & T & _ & I).
    exists events. split; assumption.
Qed.

End AggregatorFacts.

(** * The model at work *)

Module Examples.
Import Soup Chunker Py Categorizer Observations.
Local Open Scope list_scope.

(** A folder that holds bookmarks is copied with them, and its bookmarks
    come again as elements of their own: [find_all] is recursive.  The
    folder counts as a bookmark, for [find] is recursive too. *)
Example folder_and_its_bookmarks :
  all_dt Fixtures.with_folder
  = [Fixtures.folder "Work" [Fixtures.b1; Fixtures.b2];
     Fixtures.b1; Fixtures.b2; Fixtures.b3]
  /\ is_bookmark (Fixtures.folder "Work" [Fixtures.b1; Fixtures.b2]) = true
  /\ map chunk_elements
         (chunk_content Fixtures.same {| max_bookmarks_per_chunk := 2 |}
            Fixtures.with_folder)
     = [[Fixtures.folder "Work" [Fixtures.b1; Fixtures.b2]; Fixtures.b1];
        [Fixtures.b2; Fixtures.b3]].
Proof. repeat split. Qed.

(** A service that is down: three chunks, nine requests each, and the
    error lists the three. *)
Example total_failure :
  let result :=
    categorize_bookmarks MiniJson.loads Services.no_dump Services.down
      (Fixtures.bookmarks 25) Services.start in
  fst result = Raise (ValueError (FailedToCategorize [1; 2; 3]))
  /\ requests (trace (snd result)) = 27%nat
  /\ filter (fun e => negb (is_request e)) (trace (snd result))
     = repeat (Sleep 4) 18.
Proof. vm_compute. repeat split. Qed.

(** The second of three chunks is lost: the maps of the first and of the
    third are merged and returned, no error is raised. *)
Example partial_success :
  let result :=
    categorize_bookmarks MiniJson.loads Services.no_dump
      (Services.scripted Services.second_chunk_lost)
      (Fixtures.bookmarks 25) Services.start in
  fst result
  = Ok [("Dev", [Fixtures.item "a" "u1"; Fixtures.item "b" "u2"]);
        ("News", [Fixtures.item "n" "u3"])]
  /\ requests (trace (snd result)) = 11%nat.
Proof. vm_compute. repeat split. Qed.

(** No bookmark: an empty map, and no request. *)
Example empty_input :
  categorize_bookmarks MiniJson.loads Services.no_dump Services.down
    [] Services.start
  = (Ok [], Services.start).
Proof. reflexivity. Qed.

End Examples.

(** * More properties of the chunker *)

Module ChunkBoundFacts.
Import Soup Chunker Observations ChunkerFacts.
Local Open Scope list_scope.

Section WithParser.
Variable reparse_dt : Node -> Node.

(** The bookmarks among DT elements. *)
Abbreviation links dts := (Z.of_nat (List.length (filter is_bookmark dts))).

Lemma links_app (a b : list Node) : links (a ++ b) = links a + links b.
Proof. rewrite filter_app, length_app. lia. Qed.

Section Copy.
Hypothesis copy_keeps_link :
  forall dt, is_bookmark (reparse_dt dt) = is_bookmark dt.

Lemma bookmark_count_links dts :
  bookmark_count (_create_chunk_html reparse_dt dts) = links dts.
Proof.
  unfold bookmark_count. rewrite chunk_elements_create. f_equal.
  induction dts as [|dt dts IH]; simpl; [reflexivity|].
  rewrite copy_keeps_link. destruct (is_bookmark dt); simpl; now rewrite IH.
Qed.

Lemma chunk_loop_bound self :
  0 < max_bookmarks_per_chunk self ->
  forall dts current count,
    count = links current ->
    count < max_bookmarks_per_chunk self ->
    exists full tail,
      chunk_loop reparse_dt self dts current count = full ++ tail
      /\ Forall (fun chunk =>
                   bookmark_count chunk = max_bookmarks_per_chunk self) full
      /\ Forall (fun chunk =>
                   bookmark_count chunk < max_bookmarks_per_chunk self) tail
      /\ (List.length tail <= 1)%nat.
Proof.
  intros Hmax.
  induction dts as [|dt rest IH]; intros current count Hc Hlt.
  - exists []. destruct current as [|d ds].
    + exists []. simpl. repeat split; try constructor. lia.
    + exists [_create_chunk_html reparse_dt (d :: ds)].
      split; [reflexivity|]. split; [constructor|]. split; [|simpl; lia].
      constructor; [|constructor]. rewrite bookmark_count_links. lia.
  - cbn [chunk_loop].
    set (count' := if is_bookmark dt then count + 1 else count).
    assert (Hc' : count' = links (current ++ [dt])).
    { rewrite links_app. unfold count'. simpl.
      destruct (is_bookmark dt); simpl; lia. }
    assert (Hle : count' <= max_bookmarks_per_chunk self).
    { unfold count'. destruct (is_bookmark dt); lia. }
    destruct (Z.geb_spec count' (max_bookmarks_per_chunk self)) as [Hge|Hlt'].
    + destruct (IH [] 0 eq_refl Hmax) as (full & tail & E & F & T & L).
      exists (_create_chunk_html reparse_dt (current ++ [dt]) :: full), tail.
      rewrite E. repeat split; try assumption.
      constructor; [|assumption]. rewrite bookmark_count_links. lia.
    + apply IH; assumption.
Qed.

End Copy.

Lemma chunk_loop_nonempty self : forall dts current count,
  Forall (fun chunk => chunk_elements chunk <> [])
         (chunk_loop reparse_dt self dts current count).
Proof.
  assert (N : forall d ds,
             chunk_elements (_create_chunk_html reparse_dt (d ++ [ds])) <> []).
  { intros d ds. rewrite chunk_elements_create, map_app.
    intros H. apply app_eq_nil in H. destruct H as [_ H]. discriminate H. }
  induction dts as [|dt rest IH]; intros current count; cbn [chunk_loop].
  - destruct current as [|d ds]; constructor; [|constructor].
    rewrite chunk_elements_create. discriminate.
  - destruct (_ >=? _); [constructor; [apply N | apply IH] | apply IH].
Qed.

End WithParser.

(** X1. With a positive maximum and copies that keep the test of the
    loop, no chunk has more than the maximum of elements that the loop
    counts as bookmarks, the DT elements with an A tag anywhere below
    them (a folder DT that holds a bookmark is one of them): the chunks
    are full ones, each with exactly the maximum of such elements, and
    then at most one more with fewer. *)
Theorem chunks_hold_at_most_max :
  forall (reparse_dt : Node -> Node) (self : BookmarkChunker) (soup : Node),
    0 < max_bookmarks_per_chunk self ->
    (forall dt, is_bookmark (reparse_dt dt) = is_bookmark dt) ->
    let chunks := chunk_content reparse_dt self soup in
    Forall (fun chunk => bookmark_count chunk <= max_bookmarks_per_chunk self)
           chunks
    /\ exists full tail,
         chunks = full ++ tail
         /\ Forall (fun chunk =>
                      bookmark_count chunk = max_bookmarks_per_chunk self) full
         /\ Forall (fun chunk =>
                      bookmark_count chunk < max_bookmarks_per_chunk self) tail
         /\ (List.length tail <= 1)%nat.
Proof.
  intros reparse_dt self soup Hmax Hcopy chunks.
  assert (S : exists full tail,
             chunks = full ++ tail
             /\ Forall (fun chunk =>
                   bookmark_count chunk = max_bookmarks_per_chunk self) full
             /\ Forall (fun chunk =>
                   bookmark_count chunk < max_bookmarks_per_chunk self) tail
             /\ (List.length tail <= 1)%nat).
  { unfold chunks, chunk_content. destruct (find "dl" soup) as [root_dl|].
    - apply chunk_loop_bound; [assumption | assumption | reflexivity | assumption].
    - exists [], []. repeat split; try constructor. simpl. lia. }
  split; [|exact S].
  destruct S as (full & tail & E & F & T & _). rewrite E.
  apply Forall_app. split; eapply Forall_impl; try eassumption;
    simpl; intros; lia.
Qed.

(** Witness of [chunks_hold_at_most_max]: a folder, its two bookmarks and
    one more, three a chunk. *)
Lemma chunks_hold_at_most_max_witness :
  let self := {| max_bookmarks_per_chunk := 3 |} in
  let chunks := chunk_content Fixtures.same self Fixtures.with_folder in
  0 < max_bookmarks_per_chunk self
  /\ (forall dt, is_bookmark (Fixtures.same dt) = is_bookmark dt)
  /\ map bookmark_count chunks = [3; 1]
  /\ Forall (fun chunk => bookmark_count chunk <= 3) chunks.
Proof.
  intros self chunks.
  assert (H1 : 0 < max_bookmarks_per_chunk self) by (simpl; lia).
  assert (H2 : forall dt, is_bookmark (Fixtures.same dt) = is_bookmark dt)
    by reflexivity.
  split; [exact H1|]. split; [exact H2|]. split; [reflexivity|].
  exact (proj1 (chunks_hold_at_most_max Fixtures.same self
                  Fixtures.with_folder H1 H2)).
Defined.

(** X2. Whatever the maximum, no chunk is without element, there are no
    more chunks than DT elements below the first DL of the document, and
    there is no chunk at all exactly when there is no such DT element:
    the document has no DL, or no DT below its first DL. *)
Theorem no_chunk_is_empty :
  forall (reparse_dt : Node -> Node) (self : BookmarkChunker) (soup : Node),
    let chunks := chunk_content reparse_dt self soup in
    Forall (fun chunk => chunk_elements chunk <> []) chunks
    /\ (List.length chunks <= List.length (all_dt soup))%nat
    /\ (chunks = [] <-> all_dt soup = [])
    /\ (all_dt soup = []
        <-> find "dl" soup = None
            \/ exists root_dl, find "dl" soup = Some root_dl
                               /\ find_all "dt" root_dl = []).
Proof.
  intros reparse_dt self soup chunks.
  assert (A : all_dt soup = []
              <-> find "dl" soup = None
                  \/ exists root_dl, find "dl" soup = Some root_dl
                                     /\ find_all "dt" root_dl = []).
  { unfold all_dt. destruct (find "dl" soup) as [root_dl|].
    - split; [intros H; right; now exists root_dl|].
      intros [H|(r & H & E)]; [discriminate H | now inversion H; subst].
    - split; [now left | reflexivity]. }
  assert (N : Forall (fun chunk => chunk_elements chunk <> []) chunks).
  { unfold chunks, chunk_content. destruct (find "dl" soup);
      [apply chunk_loop_nonempty | constructor]. }
  assert (E : List.concat (map chunk_elements chunks)
              = map reparse_dt (all_dt soup)).
  { unfold chunks, chunk_content, all_dt. destruct (find "dl" soup);
      [apply chunk_loop_elements | reflexivity]. }
  assert (L : (List.length chunks
               <= List.length (List.concat (map chunk_elements chunks)))%nat).
  { clear E. induction N as [|chunk rest Hne _ IH]; simpl; [lia|].
    rewrite length_app. destruct (chunk_elements chunk); [congruence|].
    simpl. lia. }
  rewrite E, length_map in L.
  split; [exact N|]. split; [exact L|]. split; [|exact A]. split.
  - intros H. rewrite H in E. simpl in E.
    destruct (all_dt soup); [reflexivity | discriminate E].
  - intros H. rewrite H in L. destruct chunks; [reflexivity | simpl in L; lia].
Qed.

End ChunkBoundFacts.

(** * More properties of the categorizer *)

Module AggregateFacts.
Import Py Categorizer Observations Measures PyFacts MergeFacts PipelineFacts
       SliceFacts ValidatorFacts.
Local Open Scope list_scope.



Lemma In_items_setitem key (value : list JSON) item : forall d : CategoryMap,
  In item (items (setitem key value d)) ->
  In item value \/ In item (items d).
Proof.
  unfold items. induction d as [|[k v] d IH]; simpl.
  - rewrite app_nil_r. tauto.
  - destruct (String.eqb k key); simpl; rewrite !in_app_iff; [tauto|].
    intros [H|H]; [tauto|]. destruct (IH H); tauto.
Qed.

Lemma In_get_default_items key item : forall d : CategoryMap,
  In item (get_default key [] d) -> In item (items d).
Proof.
  unfold items, get_default. induction d as [|[k v] d IH]; simpl; [tauto|].
  rewrite in_app_iff. destruct (String.eqb k key); [tauto|].
  intros H. right. exact (IH H).
Qed.

Lemma In_items_merge_one acc category chunk_items item :
  In item (items (merge_one acc category chunk_items)) ->
  In item (items acc) \/ In item chunk_items.
Proof.
  unfold merge_one. intros H. apply In_items_setitem in H.
  rewrite in_app_iff in H.
  assert (S : forall i, In i (items (if negb (contains category acc)
                                     then setitem category [] acc else acc)) ->
                        In i (items acc)).
  { intros i Hi. destruct (contains category acc); simpl in Hi; [exact Hi|].
    apply In_items_setitem in Hi. destruct Hi as [[]|Hi]. exact Hi. }
  destruct H as [[H|H]|H]; [|tauto|left; auto].
  left. apply S. eapply In_get_default_items. exact H.
Qed.

Lemma In_items_merge : forall chunk acc item,
  In item (items (merge_categories acc chunk)) ->
  In item (items acc) \/ In item (items chunk).
Proof.
  induction chunk as [|[category chunk_items] rest IH]; intros acc item H.
  - left. exact H.
  - rewrite merge_categories_cons in H. apply IH in H.
    change (items ((category, chunk_items) :: rest))
      with (chunk_items ++ items rest).
    rewrite in_app_iff.
    destruct H as [H|H]; [|tauto].
    apply In_items_merge_one in H. tauto.
Qed.

Lemma NoDup_keys_merge_one acc category chunk_items :
  NoDup (keys acc) -> NoDup (keys (merge_one acc category chunk_items)).
Proof.
  intros H. rewrite keys_merge_one.
  destruct (contains category acc) eqn:C; [exact H|].
  apply NoDup_app; [exact H | repeat constructor; intros [] |].
  intros k Hk [<-|[]]. apply contains_keys in Hk. congruence.
Qed.

Lemma NoDup_keys_merge : forall chunk acc,
  NoDup (keys acc) -> NoDup (keys (merge_categories acc chunk)).
Proof.
  induction chunk as [|[category chunk_items] rest IH]; intros acc H.
  - exact H.
  - rewrite merge_categories_cons. apply IH, NoDup_keys_merge_one, H.
Qed.


Section Agent.
Variable json_loads : string -> option JSON.
Variable json_dumps : JSON -> string.
Variable World : Type.
Variable ollama_generate : string -> World -> Reply * World.

Lemma parse_response_accepts response data :
  _parse_response json_loads response = Ok data ->
  Forall (fun item => accepted_item item = true) (items data).
Proof.
  unfold _parse_response.
  destruct (json_loads (clean_response response)) as [decoded|];
    [|discriminate].
  destruct decoded as [| | | | | |entries]; simpl; try discriminate.
  destruct (validate_categories_cases entries)
    as [(d & E & R & A)|[(c & v & I & L & E)|(c & l & it & I & J & B & E)]];
    rewrite E; try discriminate.
  intros H. inversion H; subst. apply Forall_forall. intros item Hitem.
  unfold items in Hitem. apply in_flat_map in Hitem.
  destruct Hitem as ([category list_] & Hin & Hitem). simpl in Hitem.
  apply (A category list_ item); [|exact Hitem].
  unfold as_entries. apply in_map_iff. exists (category, list_). auto.
Qed.

Lemma attempt_accepts prompt (s s' : Sys World) c :
  attempt json_loads ollama_generate prompt s = (Ok c, s') ->
  Forall (fun item => accepted_item item = true) (items c).
Proof.
  unfold attempt.
  destruct (_process ollama_generate prompt s) as [[response|e] s1];
    simpl; [|discriminate].
  destruct (_parse_response json_loads response) as [[|x xs]|e] eqn:P;
    simpl; intros H; inversion H; subst.
  eapply parse_response_accepts. exact P.
Qed.

Lemma outcome_accepts : forall n prompt (s s' : Sys World) c,
  outcome json_loads ollama_generate n prompt s = (Some c, s') ->
  Forall (fun item => accepted_item item = true) (items c).
Proof.
  induction n as [|n IH]; intros prompt s s' c; simpl; [discriminate|].
  destruct (attempt json_loads ollama_generate prompt s)
    as [[c1|e1] s1] eqn:E.
  - intros H. inversion H; subst. eapply attempt_accepts. exact E.
  - apply IH.
Qed.

Lemma outcomes_accept : forall todo (s : Sys World),
  Forall (fun fate =>
            forall c, fate = Some c ->
                      Forall (fun item => accepted_item item = true) (items c))
         (fst (outcomes json_loads json_dumps ollama_generate todo s)).
Proof.
  induction todo as [|chunk todo IH]; intros s; [constructor|].
  cbn [outcomes].
  destruct (outcome json_loads ollama_generate (Z.to_nat max_retries)
              (make_prompt json_dumps chunk) s) as [o s1] eqn:E.
  specialize (IH s1).
  destruct (outcomes json_loads json_dumps ollama_generate todo s1)
    as [os s2].
  cbn [fst] in *. constructor; [|exact IH].
  intros c ->. eapply outcome_accepts. exact E.
Qed.

Lemma merged_well_formed : forall fates acc,
  Forall (fun fate =>
            forall c, fate = Some c ->
                      Forall (fun item => accepted_item item = true) (items c))
         fates ->
  NoDup (keys acc) ->
  Forall (fun item => accepted_item item = true) (items acc) ->
  NoDup (keys (merged acc fates))
  /\ Forall (fun item => accepted_item item = true) (items (merged acc fates)).
Proof.
  induction fates as [|fate fates IH]; intros acc HF HN HA; [now split|].
  inversion HF as [|? ? Hf Hfs]; subst. destruct fate as [c|]; simpl.
  - apply IH; [assumption | now apply NoDup_keys_merge |].
    apply Forall_forall. intros item Hitem.
    apply In_items_merge in Hitem. rewrite Forall_forall in HA.
    pose proof (Hf c eq_refl) as Hc. rewrite Forall_forall in Hc.
    destruct Hitem; auto.
  - apply IH; assumption.
Qed.

Lemma returned_is_merged bookmarks (sys0 : Sys World) aggregate :
  fst (categorize_bookmarks json_loads json_dumps ollama_generate
         bookmarks sys0) = Ok aggregate ->
  aggregate
  = merged [] (fst (outcomes json_loads json_dumps ollama_generate
                      (chunks bookmarks) sys0))
  /\ (failed (chunk_numbers bookmarks)
        (fst (outcomes json_loads json_dumps ollama_generate
                (chunks bookmarks) sys0)) = []
      \/ aggregate <> []).
Proof.
  rewrite categorize_bookmarks_outcomes.
  destruct (outcomes json_loads json_dumps ollama_generate
              (chunks bookmarks) sys0) as [fates s].
  cbn [fst].
  destruct (failed (chunk_numbers bookmarks) fates) as [|n ns],
           (merged [] fates) as [|c cs]; cbn [fst]; intros H;
    inversion H; subst; split; try reflexivity; auto; right; discriminate.
Qed.

Lemma failed_none : forall numbers (fates : list (option CategoryMap)),
  List.length numbers = List.length fates ->
  failed numbers fates = [] ->
  Forall (fun fate => fate <> None) fates.
Proof.
  induction numbers as [|n numbers IH]; intros [|fate fates] L F;
    try discriminate L; [constructor|].
  destruct fate as [c|]; simpl in F; [|discriminate F].
  constructor; [discriminate | apply IH; [now inversion L | exact F]].
Qed.

Lemma outcome_budget : forall n prompt (s : Sys World),
  exists events,
    trace (snd (outcome json_loads ollama_generate n prompt s))
    = trace s ++ events
    /\ (requests events <= 3 * n)%nat
    /\ ((0 < n)%nat -> (1 <= requests events)%nat)
    /\ Forall short_wait events.
Proof.
  induction n as [|n IH]; intros prompt s.
  - exists []. simpl. rewrite app_nil_r.
    repeat split; [cbn; lia | intros H; inversion H | constructor].
  - cbn [outcome].
    destruct (process_trace World ollama_generate prompt s)
      as (ev1 & T1 & S1).
    rewrite <- (attempt_trace json_loads) in T1.
    assert (W1 : Forall short_wait ev1).
    { destruct S1 as [H|[H|H]]; subst ev1; repeat constructor;
        apply wait_exponential_bounds. }
    apply dispatch_shape_requests in S1. destruct S1 as [R1 _].
    destruct (attempt json_loads ollama_generate prompt s)
      as [[c|e] s1]; simpl in T1.
    + exists ev1. simpl. repeat split; [exact T1 | lia | lia | exact W1].
    + destruct (IH prompt s1) as (ev2 & T2 & R2 & _ & W2).
      exists (ev1 ++ ev2). rewrite T2, T1, app_assoc, requests_app.
      repeat split; [lia | lia | apply Forall_app; now split].
Qed.

Lemma outcomes_budget : forall todo (s : Sys World),
  exists events,
    trace (snd (outcomes json_loads json_dumps ollama_generate todo s))
    = trace s ++ events
    /\ (List.length todo <= requests events <= 9 * List.length todo)%nat
    /\ Forall short_wait events.
Proof.
  induction todo as [|chunk todo IH]; intros s.
  - exists []. simpl. rewrite app_nil_r. repeat split; try (cbn; lia).
    constructor.
  - cbn [outcomes].
    destruct (outcome_budget (Z.to_nat max_retries)
                (make_prompt json_dumps chunk) s) as (ev1 & T1 & R1 & P1 & W1).
    change (Z.to_nat max_retries) with 3%nat in *.
    destruct (outcome json_loads ollama_generate 3
                (make_prompt json_dumps chunk) s) as [o s1].
    destruct (IH s1) as (ev2 & T2 & R2 & W2).
    destruct (outcomes json_loads json_dumps ollama_generate todo s1)
      as [os s2]. simpl in *.
    exists (ev1 ++ ev2). rewrite T2, T1, app_assoc, requests_app.
    assert (1 <= requests ev1)%nat by (apply P1; lia).
    repeat split; [lia | lia | apply Forall_app; now split].
Qed.

Lemma chunks_not_empty (bookmarks : list (dict JSON)) :
  bookmarks <> [] -> chunks bookmarks <> [].
Proof.
  intros H E. apply (f_equal (@List.length _)) in E.
  rewrite chunks_tenths, length_map, length_seq in E. simpl in E.
  destruct bookmarks as [|b bs]; [congruence|].
  unfold len in E. simpl List.length in E.
  assert (1 <= (Z.of_nat (S (List.length bs)) + 9) / 10)
    by (Z.div_mod_to_equations; lia).
  lia.
Qed.

End Agent.

(** X4. A map that [categorize_bookmarks] returns has every category
    once, and every item under a category is a mapping with the keys
    [title] and [url]: what the validator checked of each response holds
    of the merged result. *)
Theorem returned_map_is_well_formed :
  forall (json_loads : string -> option JSON) (json_dumps : JSON -> string)
         (World : Type) (ollama_generate : string -> World -> Reply * World)
         (bookmarks : list (dict JSON)) (sys0 : Sys World)
         (aggregate : CategoryMap),
    fst (categorize_bookmarks json_loads json_dumps ollama_generate
           bookmarks sys0) = Ok aggregate ->
    NoDup (keys aggregate)
    /\ Forall (fun item => accepted_item item = true) (items aggregate).
Proof.
  intros json_loads json_dumps World ollama_generate bookmarks sys0
         aggregate H.
  destruct (returned_is_merged json_loads json_dumps World ollama_generate
              bookmarks sys0 aggregate H) as [-> _].
  apply merged_well_formed; [apply outcomes_accept | constructor | constructor].
Qed.

(** Witness of [returned_map_is_well_formed]: twelve bookmarks, and a
    service that files one bookmark under [A] at every request. *)
Lemma returned_map_is_well_formed_witness :
  let answer := MiniJson.text "{'A':[{'title':'x','url':'u'}]}" in
  let aggregate := [("A", [Fixtures.item "x" "u"; Fixtures.item "x" "u"])] in
  fst (categorize_bookmarks MiniJson.loads Services.no_dump
         (Services.always answer) (Fixtures.bookmarks 12) Services.start)
  = Ok aggregate
  /\ NoDup (keys aggregate)
  /\ Forall (fun item => accepted_item item = true) (items aggregate).
Proof.
  intros answer aggregate.
  assert (H : fst (categorize_bookmarks MiniJson.loads Services.no_dump
                     (Services.always answer) (Fixtures.bookmarks 12)
                     Services.start) = Ok aggregate)
    by (vm_compute; reflexivity).
  split; [exact H|].
  exact (returned_map_is_well_formed MiniJson.loads Services.no_dump nat
           (Services.always answer) (Fixtures.bookmarks 12) Services.start
           aggregate H).
Defined.

Lemma ok_map_not_empty
    (json_loads : string -> option JSON) (json_dumps : JSON -> string)
    (World : Type) (ollama_generate : string -> World -> Reply * World)
    (bookmarks : list (dict JSON)) (sys0 : Sys World)
    (aggregate : CategoryMap) :
  bookmarks <> [] ->
  fst (categorize_bookmarks json_loads json_dumps ollama_generate
         bookmarks sys0) = Ok aggregate ->
  aggregate <> [].
Proof.
  intros HB H.
  destruct (returned_is_merged json_loads json_dumps World ollama_generate
              bookmarks sys0 aggregate H) as [E [F|N]]; [|exact N].
  pose proof (length_outcomes json_loads json_dumps World ollama_generate
                (chunks bookmarks) sys0) as L.
  pose proof (outcomes_nonempty json_loads json_dumps World ollama_generate
                (chunks bookmarks) sys0) as NE.
  pose proof (chunks_not_empty bookmarks HB) as C.
  remember (fst (outcomes json_loads json_dumps ollama_generate
                   (chunks bookmarks) sys0)) as all_fates eqn:Q.
  clear Q. destruct all_fates as [|fate fates].
  { destruct (chunks bookmarks) eqn:D; [|discriminate L].
    exfalso. apply C. first [reflexivity | exact D]. }
  assert (S : Forall (fun fate => fate <> None) (fate :: fates)).
  { apply (failed_none (chunk_numbers bookmarks)); [|exact F].
    unfold chunk_numbers, chunks in *. rewrite length_map in *.
    symmetry. exact L. }
  intros Z. rewrite Z in E. symmetry in E.
  apply (merged_empty (fate :: fates) [] NE) in E. destruct E as [_ E].
  inversion S as [|? ? S1 _]. inversion E as [|? ? E1 _]. exact (S1 E1).
Qed.

Lemma some_or_none (fates : list (option CategoryMap)) :
  (exists categories, In (Some categories) fates)
  \/ ~ (exists categories, In (Some categories) fates).
Proof.
  induction fates as [|[c|] fates IH].
  - right. intros [c []].
  - left. exists c. now left.
  - destruct IH as [[c H]|H]; [left; exists c; now right|].
    right. intros [c [E|E]]; [discriminate E|]. apply H. exists c. exact E.
Qed.

(** X5. For a list of bookmarks that is not empty, a map that
    [categorize_bookmarks] returns is not empty: the caller gets the
    aggregation error or at least one category, never an empty success. *)
Theorem returned_map_is_not_empty :
  forall (json_loads : string -> option JSON) (json_dumps : JSON -> string)
         (World : Type) (ollama_generate : string -> World -> Reply * World)
         (bookmarks : list (dict JSON)) (sys0 : Sys World)
         (aggregate : CategoryMap),
    bookmarks <> [] ->
    fst (categorize_bookmarks json_loads json_dumps ollama_generate
           bookmarks sys0) = Ok aggregate ->
    aggregate <> [].
Proof.
  intros json_loads json_dumps World ollama_generate bookmarks sys0
         aggregate HB H.
  exact (ok_map_not_empty json_loads json_dumps World ollama_generate
           bookmarks sys0 aggregate HB H).
Qed.

(** Witness of [returned_map_is_not_empty]: the second of three chunks is
    lost, the map holds what the two others gave. *)
Lemma returned_map_is_not_empty_witness :
  let aggregate :=
    [("Dev", [Fixtures.item "a" "u1"; Fixtures.item "b" "u2"]);
     ("News", [Fixtures.item "n" "u3"])] in
  Fixtures.bookmarks 25 <> []
  /\ fst (categorize_bookmarks MiniJson.loads Services.no_dump
            (Services.scripted Services.second_chunk_lost)
            (Fixtures.bookmarks 25) Services.start) = Ok aggregate
  /\ aggregate <> [].
Proof.
  intros aggregate.
  assert (H1 : Fixtures.bookmarks 25 <> []) by discriminate.
  assert (H2 : fst (categorize_bookmarks MiniJson.loads Services.no_dump
                      (Services.scripted Services.second_chunk_lost)
                      (Fixtures.bookmarks 25) Services.start) = Ok aggregate)
    by (vm_compute; reflexivity).
  split; [exact H1|]. split; [exact H2|].
  exact (returned_map_is_not_empty MiniJson.loads Services.no_dump nat
           (Services.scripted Services.second_chunk_lost)
           (Fixtures.bookmarks 25) Services.start aggregate H1 H2).
Defined.

(** X6. A run over [n] bookmarks sends at least one request for each of
    its ceil(n/10) chunks and at most nine, whatever the service answers,
    and every wait it makes lasts from 4 to 10. *)
Theorem run_request_budget :
  forall (json_loads : string -> option JSON) (json_dumps : JSON -> string)
         (World : Type) (ollama_generate : string -> World -> Reply * World)
         (bookmarks : list (dict JSON)) (sys0 : Sys World),
    let chunk_count := Z.to_nat ((len bookmarks + 9) / 10) in
    exists events,
      trace (snd (categorize_bookmarks json_loads json_dumps ollama_generate
                    bookmarks sys0))
      = trace sys0 ++ events
      /\ (chunk_count <= requests events <= 9 * chunk_count)%nat
      /\ Forall short_wait events.
Proof.
  intros json_loads json_dumps World ollama_generate bookmarks sys0
         chunk_count.
  destruct (outcomes_budget json_loads json_dumps World ollama_generate
              (chunks bookmarks) sys0) as (events & T & R & W).
  exists events.
  assert (L : List.length (chunks bookmarks) = chunk_count).
  { rewrite chunks_tenths, length_map, length_seq. reflexivity. }
  rewrite L in R. split; [|split; assumption].
  rewrite categorize_bookmarks_outcomes.
  destruct (outcomes json_loads json_dumps ollama_generate
              (chunks bookmarks) sys0) as [fates s].
  destruct (failed _ fates), (merged [] fates); exact T.
Qed.

End AggregateFacts.

(** * Properties of [CategorizerAgent.process] and of the route to it *)

Module AgentFacts.
Import Py Builtins Categorizer Observations Measures PyFacts PipelineFacts
       AggregateFacts.
Local Open Scope list_scope.

(** X7. [process] never raises and never returns an empty map: its
    dictionary has either the key [error] or a map with at least one
    category, which is the map [categorize_bookmarks] returned; without
    bookmarks in [data] it reports "no categories returned" and sends no
    request, though [categorize_bookmarks] returns the empty map without
    error. *)
Theorem process_reports_or_categorizes :
  forall (json_loads : string -> option JSON) (json_dumps : JSON -> string)
         (World : Type) (ollama_generate : string -> World -> Reply * World)
         (data : dict (list (dict JSON))) (sys0 : Sys World),
    let result :=
      Agent.process json_loads json_dumps ollama_generate data sys0 in
    let returned :=
      categorize_bookmarks json_loads json_dumps ollama_generate
        (get_default "bookmarks" [] data) sys0 in
    snd result = snd returned
    /\ (Agent.error (fst result) = None
        <-> Agent.categories (fst result) <> None)
    /\ (forall categories,
          Agent.categories (fst result) = Some categories <->
          categories <> [] /\ fst returned = Ok categories)
    /\ (forall e, fst returned = Raise e ->
                  Agent.error (fst result)
                  = Some (Agent.FailedToProcessBookmarks e))
    /\ (get_default "bookmarks" [] data = [] ->
        result = ({| Agent.error := Some Agent.NoCategoriesReturned;
                     Agent.categories := None |}, sys0)).
Proof.
  intros json_loads json_dumps World ollama_generate data sys0 result returned.
  unfold result, Agent.process. fold returned.
  destruct returned as [[[|c cs]|e] s] eqn:R; cbn [fst snd Agent.error
                                                  Agent.categories];
    (split; [reflexivity|]); (split; [split; congruence|]);
    (split; [|split]).
  all: try (intros ? H; discriminate H).
  all: try (intros e0 H; inversion H; reflexivity).
  - intros categories. split; [discriminate|]. intros [N H].
    inversion H; subst. congruence.
  - intros B. unfold returned in R. rewrite B in R. cbn in R.
    inversion R. reflexivity.
  - intros categories. split.
    + intros H. inversion H; subst. split; [discriminate | reflexivity].
    + intros [_ H]. inversion H. reflexivity.
  - intros B. unfold returned in R. rewrite B in R. cbn in R. discriminate R.
  - intros categories. split; [discriminate|]. intros [_ H]. discriminate H.
  - intros B. unfold returned in R. rewrite B in R. cbn in R. discriminate R.
Qed.

(** X8. The route [/api/categorize] answers success exactly when some
    chunk of the list went through, and its data are then the merged maps
    of the chunks that did, without [error] key; in every other case it
    answers a failure without data; for an empty list it sends no request
    and answers "No bookmarks provided". *)
Theorem categorize_route_succeeds_iff_a_chunk_went_through :
  forall (json_loads : string -> option JSON) (json_dumps : JSON -> string)
         (World : Type) (ollama_generate : string -> World -> Reply * World)
         (bookmarks : list (dict JSON)) (sys0 : Sys World),
    let fates :=
      fst (outcomes json_loads json_dumps ollama_generate
             (chunks bookmarks) sys0) in
    let response :=
      Backend.categorize_bookmarks json_loads json_dumps ollama_generate
        bookmarks sys0 in
    (Backend.success (fst response) = true
     <-> exists categories, In (Some categories) fates)
    /\ (Backend.success (fst response) = true ->
        Backend.data (fst response)
        = Some {| Agent.error := None;
                  Agent.categories := Some (merged [] fates) |})
    /\ (Backend.success (fst response) = false ->
        Backend.data (fst response) = None)
    /\ (bookmarks = [] ->
        response = ({| Backend.success := false;
                       Backend.message := "No bookmarks provided";
                       Backend.data := None |}, sys0)).
Proof.
  intros json_loads json_dumps World ollama_generate bookmarks sys0
         fates response.
  assert (M : merged [] fates = [] <-> ~ exists c, In (Some c) fates).
  { pose proof (merged_empty fates []
                  (outcomes_nonempty json_loads json_dumps World
                     ollama_generate (chunks bookmarks) sys0)) as ME.
    rewrite Forall_forall in ME. split.
    - intros E [c Hc]. apply ME in E. destruct E as [_ E].
      specialize (E _ Hc). discriminate E.
    - intros H. apply ME. split; [reflexivity|].
      intros [c|] Hc; [|reflexivity].
      exfalso. apply H. exists c. exact Hc. }
  unfold response, Backend.categorize_bookmarks, Agent.process.
  destruct bookmarks as [|b bs].
  { cbn. repeat split; try discriminate; try reflexivity.
    intros [c []]. }
  change (get_default "bookmarks" [] [("bookmarks", b :: bs)])
    with (b :: bs).
  rewrite categorize_bookmarks_outcomes. fold fates.
  destruct (outcomes json_loads json_dumps ollama_generate
              (chunks (b :: bs)) sys0) as [fs s] eqn:O.
  cbn [fst] in fates. subst fates.
  destruct (failed (chunk_numbers (b :: bs)) fs) as [|n ns] eqn:F,
           (merged [] fs) as [|c cs] eqn:G;
    cbn [fst snd Agent.categories Backend.success Backend.data].
  - exfalso.
    assert (A : fst (categorize_bookmarks json_loads json_dumps
                       ollama_generate (b :: bs) sys0) = Ok []).
    { rewrite categorize_bookmarks_outcomes, O, F, G. reflexivity. }
    assert (B : b :: bs <> []) by discriminate.
    apply (ok_map_not_empty json_loads json_dumps World
             ollama_generate (b :: bs) sys0 [] B A). reflexivity.
  - repeat split; try discriminate; try reflexivity.
    intros _. destruct (some_or_none fs) as [H|H]; [exact H|].
    exfalso. apply M in H. discriminate H.
  - repeat split; try discriminate; try reflexivity.
    intros H. exfalso. apply (proj1 M eq_refl). exact H.
  - repeat split; try discriminate; try reflexivity.
    intros _. destruct (some_or_none fs) as [H|H]; [exact H|].
    exfalso. apply M in H. discriminate H.
Qed.

End AgentFacts.

(** * Properties of the body of [_process] *)

Module StreamFacts.
Import Py Builtins Categorizer Agent Lines PyFacts.
Local Open Scope list_scope.

Lemma concat_empty_cons (x : string) (l : list string) :
  String.concat EmptyString (x :: l)
  = (x ++ String.concat EmptyString l)%string.
Proof.
  destruct l as [|y l]; simpl; [now rewrite append_nil_r | reflexivity].
Qed.

Lemma concat_empty_app (a b : list string) :
  String.concat EmptyString (a ++ b)
  = (String.concat EmptyString a ++ String.concat EmptyString b)%string.
Proof.
  induction a as [|x a IH]; [reflexivity|].
  rewrite <- app_comm_cons, !concat_empty_cons, IH, append_assoc.
  reflexivity.
Qed.

Section Stream.
Variable json_loads : string -> option JSON.
Variable float_is_true : string -> bool.

Abbreviation gather := (gather json_loads float_is_true).
Abbreviation text_of := (text_of json_loads).
Abbreviation sound := (sound json_loads).
Abbreviation is_done := (is_done json_loads float_is_true).
Abbreviation quiet := (quiet json_loads float_is_true).
Abbreviation text_of_lines := (text_of_lines json_loads).

(** One turn of the loop on a sound line. *)
Lemma gather_sound line rest full :
  sound line = true ->
  gather (line :: rest) full
  = if is_done line then inr (full ++ text_of line)%string
    else gather rest (full ++ text_of line)%string.
Proof.
  unfold Lines.sound, Lines.is_done, Lines.text_of. cbn [Agent.gather].
  destruct (String.eqb line EmptyString) eqn:B; simpl.
  - intros _. now rewrite append_nil_r.
  - destruct (json_loads line) as [[| | | | | |data]|]; try discriminate.
    rewrite contains_get.
    destruct (get "error" data); [discriminate|]. simpl.
    destruct (get "response" data) as [[| | | |text| |]|]; try discriminate;
      intros _; [reflexivity|].
    now rewrite append_nil_r.
Qed.

Lemma gather_quiet : forall before rest full,
  Forall (fun line => quiet line = true) before ->
  gather (before ++ rest) full
  = gather rest (full ++ text_of_lines before)%string.
Proof.
  induction before as [|line before IH]; intros rest full Q.
  - simpl. now rewrite append_nil_r.
  - inversion Q as [|? ? Hq Hqs]; subst.
    unfold Lines.quiet in Hq. apply andb_true_iff in Hq.
    destruct Hq as [S D]. apply negb_true_iff in D.
    rewrite <- app_comm_cons, gather_sound, D, IH by assumption.
    unfold Lines.text_of_lines. cbn [map].
    rewrite concat_empty_cons, append_assoc. reflexivity.
Qed.

(** One turn of the loop on a line that is not sound. *)
Lemma gather_unsound line rest full :
  sound line = false ->
  exists fault,
    gather (line :: rest) full = inl fault
    /\ (json_loads line = None -> fault = NotJson line)
    /\ (forall data value,
          json_loads line = Some (JDict data) ->
          get "error" data = Some value -> fault = ErrorField value).
Proof.
  unfold Lines.sound. cbn [Agent.gather].
  destruct (String.eqb line EmptyString); [discriminate|]. simpl.
  destruct (json_loads line) as [decoded|].
  2:{ intros _. eexists. split; [reflexivity|].
      split; [reflexivity | discriminate]. }
  destruct decoded as [| | | | | |data];
    try (intros _; eexists; split; [reflexivity|];
         split; intros; discriminate).
  rewrite contains_get. destruct (get "error" data) as [value|] eqn:E; simpl.
  - intros _. eexists. split; [reflexivity|].
    split; [discriminate|]. intros d v H1 H2. inversion H1; subst.
    rewrite E in H2. inversion H2. reflexivity.
  - destruct (get "response" data) as [[| | | |text| |]|];
      try discriminate;
      intros _; eexists; (split; [reflexivity|]);
      (split; [discriminate|]); intros d v H1 H2; inversion H1; subst;
      rewrite E in H2; discriminate H2.
Qed.

End Stream.

(** X9. The text the body of [_process] gathers is made of the [response]
    fields of the lines, in order, up to the first line whose [done] is
    true: the lines after that one are not read, empty lines add nothing,
    and a stream that ends without such a line gives the text of all its
    lines. *)
Theorem text_is_gathered_up_to_done :
  forall (json_loads : string -> option JSON)
         (float_is_true : string -> bool)
         (before after : list string) (last : string),
    Forall (fun line => quiet json_loads float_is_true line = true) before ->
    sound json_loads last = true ->
    is_done json_loads float_is_true last = true ->
    gather json_loads float_is_true (before ++ last :: after) EmptyString
    = inr (text_of_lines json_loads (before ++ [last]))
    /\ gather json_loads float_is_true before EmptyString
       = inr (text_of_lines json_loads before)
    /\ text_of_lines json_loads
         (filter (fun line => negb (String.eqb line EmptyString)) before)
       = text_of_lines json_loads before.
Proof.
  intros json_loads float_is_true before after last Q S D.
  split; [|split].
  - rewrite gather_quiet by assumption. rewrite gather_sound, D by assumption.
    unfold text_of_lines. rewrite map_app, concat_empty_app. cbn [map].
    rewrite concat_empty_cons. cbn. rewrite append_nil_r. reflexivity.
  - rewrite <- (app_nil_r before) at 1.
    rewrite gather_quiet by assumption. reflexivity.
  - clear. unfold text_of_lines.
    induction before as [|line before IH]; [reflexivity|].
    cbn [filter map]. destruct (String.eqb line EmptyString) eqn:B; cbn [negb].
    + rewrite concat_empty_cons, IH. unfold text_of at 2. now rewrite B.
    + cbn [map]. now rewrite !concat_empty_cons, IH.
Qed.

(** Witness of [text_is_gathered_up_to_done]: two lines of text, the
    second the last, and one line more. *)
Lemma text_is_gathered_up_to_done_witness :
  let always_true := fun _ : string => true in
  let before := [MiniJson.text "{'response':'{'}"; EmptyString] in
  let last := MiniJson.text "{'response':'}','done':true}" in
  let after := ["not read"%string] in
  Forall (fun line => quiet MiniJson.loads always_true line = true) before
  /\ sound MiniJson.loads last = true
  /\ is_done MiniJson.loads always_true last = true
  /\ gather MiniJson.loads always_true (before ++ last :: after) EmptyString
     = inr "{}"%string.
Proof.
  intros always_true before last after.
  assert (H1 : Forall (fun line => quiet MiniJson.loads always_true line = true)
                      before) by (repeat constructor).
  assert (H2 : sound MiniJson.loads last = true) by reflexivity.
  assert (H3 : is_done MiniJson.loads always_true last = true) by reflexivity.
  split; [exact H1|]. split; [exact H2|]. split; [exact H3|].
  exact (proj1 (text_is_gathered_up_to_done MiniJson.loads always_true
                  before after last H1 H2 H3)).
Defined.

(** X10. A line that is not JSON, or has an [error] key, or is otherwise
    unusable, met before any line whose [done] is true, ends the body with
    an exception whatever text was gathered before and whatever follows:
    the reply is an error, never a text. *)
Theorem faulty_line_fails_the_request :
  forall (json_loads : string -> option JSON)
         (float_is_true : string -> bool)
         (describe_status : string) (describe_fault : Fault -> string)
         (before after : list string) (bad : string),
    Forall (fun line => quiet json_loads float_is_true line = true) before ->
    sound json_loads bad = false ->
    exists fault,
      gather json_loads float_is_true (before ++ bad :: after) EmptyString
      = inl fault
      /\ (json_loads bad = None -> fault = NotJson bad)
      /\ (forall data value,
            json_loads bad = Some (JDict data) ->
            get "error" data = Some value -> fault = ErrorField value)
      /\ reply_of json_loads float_is_true describe_status describe_fault
           (Answered true (before ++ bad :: after))
         = OtherError (describe_fault fault).
Proof.
  intros json_loads float_is_true describe_status describe_fault
         before after bad Q B.
  destruct (gather_unsound json_loads float_is_true bad after
              (EmptyString ++ text_of_lines json_loads before)%string B)
    as (fault & G & N & E).
  exists fault.
  assert (G' : gather json_loads float_is_true (before ++ bad :: after)
                 EmptyString = inl fault).
  { rewrite gather_quiet by assumption. exact G. }
  split; [exact G'|]. split; [exact N|]. split; [exact E|].
  unfold reply_of. now rewrite G'.
Qed.

(** Witness of [faulty_line_fails_the_request]: an error after a line of
    text. *)
Lemma faulty_line_fails_the_request_witness :
  let always_true := fun _ : string => true in
  let before := [MiniJson.text "{'response':'{'}"] in
  let bad := MiniJson.text "{'error':'model not found'}" in
  Forall (fun line => quiet MiniJson.loads always_true line = true) before
  /\ sound MiniJson.loads bad = false
  /\ exists fault,
       gather MiniJson.loads always_true (before ++ [bad]) EmptyString
       = inl fault
       /\ fault = ErrorField (JStr "model not found").
Proof.
  intros always_true before bad.
  assert (H1 : Forall (fun line => quiet MiniJson.loads always_true line = true)
                      before) by (repeat constructor).
  assert (H2 : sound MiniJson.loads bad = false) by reflexivity.
  split; [exact H1|]. split; [exact H2|].
  destruct (faulty_line_fails_the_request MiniJson.loads always_true
              "status" (fun _ => "fault"%string) before [] bad H1 H2)
    as (fault & G & _ & E & _).
  exists fault. split; [exact G|].
  apply (E [("error", JStr "model not found")]); reflexivity.
Defined.

End StreamFacts.

(** * Properties of the route [/validate] *)

Module ValidateFacts.
Import Py Builtins Backend PyFacts Measures.
Local Open Scope list_scope.

Section Validate.
Variable float_is_true : string -> bool.

Abbreviation truth_at := (truth_at float_is_true).
Abbreviation validate := (validate_bookmarks float_is_true).

Abbreviation valid := (Measures.valid float_is_true).
Abbreviation titled := (Measures.titled float_is_true).

Lemma truth_at_setitem_other key other value (b : dict JSON) :
  key <> other -> truth_at key (setitem other value b) = truth_at key b.
Proof.
  intros H. unfold Builtins.truth_at. now rewrite get_setitem_other.
Qed.

Lemma titled_valid b : truth_at "url" b = true -> valid (titled b) = true.
Proof.
  intros U. unfold Measures.valid, Measures.titled.
  destruct (truth_at "title" b) eqn:T; simpl; [now rewrite U, T|].
  rewrite truth_at_setitem_other by discriminate. rewrite U. simpl.
  unfold Builtins.truth_at in *. rewrite get_setitem_same.
  unfold get_default. destruct (get "url" b); [exact U | discriminate U].
Qed.

Lemma validate_filter : forall bookmarks,
  validate bookmarks = map titled (filter (truth_at "url") bookmarks).
Proof.
  induction bookmarks as [|b rest IH]; [reflexivity|].
  cbn [validate_bookmarks filter].
  destruct (truth_at "url" b); [cbn [map]; now rewrite IH | exact IH].
Qed.

Lemma validate_valid : forall bookmarks,
  Forall (fun b => valid b = true) bookmarks -> validate bookmarks = bookmarks.
Proof.
  induction bookmarks as [|b rest IH]; intros H; [reflexivity|].
  inversion H as [|? ? Hb Hrest]; subst. unfold valid in Hb.
  apply andb_true_iff in Hb. destruct Hb as [U T].
  cbn [validate_bookmarks]. rewrite U, T. simpl. now rewrite IH.
Qed.

Lemma validate_all_valid : forall bookmarks,
  Forall (fun b => valid b = true) (validate bookmarks).
Proof.
  induction bookmarks as [|b rest IH]; [constructor|].
  cbn [validate_bookmarks]. destruct (truth_at "url" b) eqn:U; [|exact IH].
  constructor; [|exact IH]. exact (titled_valid b U).
Qed.

End Validate.

(** X11. Every bookmark that [validate_bookmarks] returns has a [url] and
    a [title] that are true values (there, and neither empty nor zero),
    whatever the input. *)
Theorem validated_bookmarks_have_url_and_title :
  forall (float_is_true : string -> bool) (bookmarks : list (dict JSON)),
    Forall (fun bookmark =>
              truth_at float_is_true "url" bookmark = true
              /\ truth_at float_is_true "title" bookmark = true)
           (validate_bookmarks float_is_true bookmarks).
Proof.
  intros float_is_true bookmarks.
  eapply Forall_impl; [|apply validate_all_valid].
  intros b H. unfold valid in H. now apply andb_true_iff in H.
Qed.

(** X12. [validate_bookmarks] keeps the bookmarks whose [url] is a true
    value, in their order, and drops the others; of a bookmark it keeps it
    changes nothing but the [title], and the [title] only when it is
    missing or false, to the [url]. *)
Theorem validation_keeps_bookmarks_with_url :
  forall (float_is_true : string -> bool) (bookmarks : list (dict JSON)),
    let kept := filter (truth_at float_is_true "url") bookmarks in
    let validated := validate_bookmarks float_is_true bookmarks in
    List.length validated = List.length kept
    /\ (forall key, key <> "title"%string ->
          map (get key) validated = map (get key) kept)
    /\ (forall i bookmark,
          nth_error kept i = Some bookmark ->
          truth_at float_is_true "title" bookmark = true ->
          nth_error validated i = Some bookmark)
    /\ (forall i bookmark,
          nth_error kept i = Some bookmark ->
          truth_at float_is_true "title" bookmark = false ->
          option_map (get "title") (nth_error validated i)
          = Some (get "url" bookmark)).
Proof.
  intros float_is_true bookmarks kept validated.
  unfold validated. rewrite validate_filter. fold kept.
  split; [apply length_map|]. split; [|split].
  - intros key Hkey. rewrite map_map. apply map_ext. intros b.
    unfold titled. destruct (negb _); [|reflexivity].
    now apply get_setitem_other.
  - intros i b Hi T. rewrite nth_error_map, Hi. simpl.
    unfold titled. now rewrite T.
  - intros i b Hi T. rewrite nth_error_map, Hi. simpl.
    unfold titled. rewrite T. simpl. rewrite get_setitem_same.
    assert (U : In b kept) by (eapply nth_error_In; exact Hi).
    apply filter_In in U. destruct U as [_ U].
    unfold truth_at in U. unfold get_default.
    destruct (get "url" b); [reflexivity | discriminate U].
Qed.

(** X13. Validating twice changes nothing more: [validate_bookmarks] of a
    list it returned is that list. *)
Theorem validation_is_idempotent :
  forall (float_is_true : string -> bool) (bookmarks : list (dict JSON)),
    validate_bookmarks float_is_true
      (validate_bookmarks float_is_true bookmarks)
    = validate_bookmarks float_is_true bookmarks.
Proof.
  intros float_is_true bookmarks.
  apply validate_valid, validate_all_valid.
Qed.

End ValidateFacts.

(** * Properties of the parsers *)

Module ParserFacts.
Import Soup SoupChildren Py Builtins Parsers Chunker ChunkerFacts PyFacts.
Local Open Scope list_scope.

(** The bookmark of a DT among the children of a folder, if it has one. *)
Abbreviation link_of_child browser :=
  (fun c : Node => if is_tag "dt" c then link browser c else []).

Lemma link_cases browser dt :
  link browser dt = []
  \/ exists b, link browser dt = [b]
               /\ url b <> EmptyString /\ source_browser b = browser.
Proof.
  unfold link. destruct (find_child "a" dt) as [a_tag|]; [|now left].
  destruct (get "href" (attrs a_tag)) as [href|]; [|now left].
  destruct (String.eqb_spec href EmptyString) as [E|N]; simpl; [now left|].
  right. eexists. split; [reflexivity|]. split; [exact N | reflexivity].
Qed.

Lemma length_links browser : forall dts,
  (List.length (flat_map (link browser) dts) <= List.length dts)%nat.
Proof.
  induction dts as [|dt dts IH]; simpl; [lia|].
  rewrite length_app.
  destruct (link_cases browser dt) as [E|(b & E & _)]; rewrite E; simpl; lia.
Qed.

Lemma parse_folder_bookmarks name attrs : forall children,
  fst (Opera.parse_folder (Tag name attrs children))
  = flat_map (link_of_child Opera.browser_name) children.
Proof.
  induction children as [|c rest IH]; [reflexivity|].
  cbn [Opera.parse_folder flat_map] in *.
  destruct ((fix walk (children : list Node)
               : list Bookmark * list BookmarkFolder := _) rest)
    as [bookmarks subfolders] eqn:W.
  cbn [fst] in IH. subst bookmarks.
  destruct c as [text|text|cname cattrs ccontents]; try reflexivity.
  cbn [is_tag]. destruct (String.eqb cname "dt"); reflexivity.
Qed.

Lemma chunks_reproduce_parts
    (reparse_dt : Node -> Node) (self : BookmarkChunker) (soup : Node) :
  List.concat (map chunk_elements (chunk_content reparse_dt self soup))
  = map reparse_dt (all_dt soup)
  /\ Forall (fun chunk =>
               chunk = boilerplate
                 (Tag "dl" [] (contents template_dl ++ chunk_elements chunk)))
            (chunk_content reparse_dt self soup).
Proof.
  unfold chunk_content, all_dt.
  destruct (find "dl" soup) as [root_dl|]; simpl.
  - split; [apply chunk_loop_elements | apply chunk_loop_shape].
  - split; [reflexivity | constructor].
Qed.

Lemma opera_parses_chunk elements :
  exists subfolders,
    Opera.parse_content
      (boilerplate (Tag "dl" [] (contents template_dl ++ elements)))
    = Return (Folder "Root"
                (map to_dict
                   (flat_map (link_of_child Opera.browser_name) elements))
                subfolders).
Proof.
  unfold Opera.parse_content. rewrite find_dl_boilerplate.
  pose proof (parse_folder_bookmarks "dl" [] (contents template_dl ++ elements))
    as B.
  destruct (Opera.parse_folder (Tag "dl" [] (contents template_dl ++ elements)))
    as [bookmarks subfolders].
  cbn [fst] in B. subst bookmarks. exists subfolders. reflexivity.
Qed.

Lemma flat_map_concat {A B} (f : A -> list B) : forall l : list (list A),
  flat_map f (List.concat l) = List.concat (map (flat_map f) l).
Proof.
  induction l as [|x l IH]; simpl; [reflexivity|].
  now rewrite flat_map_app, IH.
Qed.

Lemma concat_map_map {A B} (f : A -> B) : forall l : list (list A),
  List.concat (map (map f) l) = map f (List.concat l).
Proof.
  induction l as [|x l IH]; simpl; [reflexivity|].
  now rewrite map_app, IH.
Qed.

Lemma opera_parses_chunks : forall chunks,
  Forall (fun chunk =>
            chunk = boilerplate
                      (Tag "dl" [] (contents template_dl ++ chunk_elements chunk)))
         chunks ->
  exists folders,
    Opera.yield_each (map Opera.parse_content chunks) = (folders, None)
    /\ map folder_bookmarks folders
       = map (fun chunk =>
                map to_dict
                  (flat_map (link_of_child Opera.browser_name)
                            (chunk_elements chunk)))
             chunks
    /\ Forall (fun folder => folder_title folder = "Root"%string) folders.
Proof.
  induction chunks as [|chunk chunks IH]; intros S.
  - exists []. repeat split. constructor.
  - inversion S as [|? ? Hc Hcs]; subst.
    destruct (IH Hcs) as (folders & Y & B & T).
    destruct (opera_parses_chunk (chunk_elements chunk)) as (subs & P).
    rewrite <- Hc in P.
    eexists (_ :: folders). cbn [map Opera.yield_each]. rewrite P, Y.
    split; [reflexivity|]. cbn [map folder_bookmarks]. rewrite B.
    split; [reflexivity|]. constructor; [reflexivity | exact T].
Qed.

(** Induction on a folder and the folders below it. *)
Lemma folder_induction (P : BookmarkFolder -> Prop) :
  (forall title bookmarks subfolders,
      Forall P subfolders -> P (Folder title bookmarks subfolders)) ->
  forall folder, P folder.
Proof.
  intros step. fix IH 1. intros [title bookmarks subfolders].
  apply step. induction subfolders as [|f fs IHfs]; constructor;
    [apply IH | exact IHfs].
Qed.

Lemma for_each_record_nil : forall bookmarks records,
  for_each Backend.bookmark_record bookmarks = Return records ->
  bookmarks = [] /\ records = [].
Proof.
  intros [|b bookmarks] records H; [inversion H; now split|].
  discriminate H.
Qed.

Lemma extract_returns_nothing : forall folder bookmarks,
  Backend.extract_bookmarks folder = Return bookmarks ->
  bookmarks = [] /\ folder_bookmarks folder = [].
Proof.
  apply (folder_induction
           (fun folder => forall bookmarks,
                Backend.extract_bookmarks folder = Return bookmarks ->
                bookmarks = [] /\ folder_bookmarks folder = [])).
  intros title bs subfolders IH bookmarks.
  cbn [Backend.extract_bookmarks folder_bookmarks].
  destruct (for_each Backend.bookmark_record bs) as [records|e] eqn:R;
    [|discriminate].
  apply for_each_record_nil in R. destruct R as [-> ->]. cbn [and_then].
  intros H. split; [|reflexivity].
  revert bookmarks H. induction IH as [|f fs Hf _ IHfs]; intros bookmarks H.
  - inversion H. reflexivity.
  - destruct (Backend.extract_bookmarks f) as [first|e] eqn:F;
      [|discriminate H].
    destruct (Hf first eq_refl) as [-> _]. cbn [and_then] in H.
    match type of H with
    | and_then (and_then ?rest _) _ = _ => remember rest as r eqn:O in *
    end.
    clear O. destruct r as [below|e]; [|discriminate H].
    cbn [and_then app] in H, IHfs. inversion H; subst.
    apply IHfs. reflexivity.
Qed.

(** X14. The Chrome parser fails exactly on a document without DL, with
    "missing root DL element"; otherwise it returns a folder [Root]
    without subfolder, with at most one bookmark a DT element, each with
    a [url] that is not empty and marked as coming from [chrome]. *)
Theorem chrome_parser_outcome :
  forall (soup : Node),
    (find "dl" soup = None ->
     Chrome.parse_content soup
     = Throw (Exc "ValueError"
                "Failed to parse Chrome bookmarks: Not a valid bookmark file: missing root DL element"))
    /\ (find "dl" soup <> None ->
        exists bookmarks,
          Chrome.parse_content soup = Return (Folder "Root" bookmarks [])
          /\ (List.length bookmarks <= List.length (all_dt soup))%nat
          /\ Forall (fun bookmark =>
                       exists url,
                         get "url" bookmark = Some (JStr url)
                         /\ url <> EmptyString
                         /\ get "source_browser" bookmark
                            = Some (JStr "chrome"))
                    bookmarks).
Proof.
  intros soup. unfold Chrome.parse_content, all_dt.
  destruct (find "dl" soup) as [root_dl|]; split; try congruence.
  - intros _. eexists. split; [reflexivity|]. split.
    + rewrite length_map. apply length_links.
    + apply Forall_forall. intros bookmark Hb. apply in_map_iff in Hb.
      destruct Hb as (b & <- & Hb). apply in_flat_map in Hb.
      destruct Hb as (dt & _ & Hb).
      destruct (link_cases Chrome.browser_name dt) as [E|(b0 & E & U & S)];
        rewrite E in Hb; [destruct Hb|].
      destruct Hb as [<-|[]]. exists (url b0). cbn.
      split; [reflexivity|]. split; [exact U|]. now rewrite S.
  - intros _. reflexivity.
Qed.

(** X15. [OperaBookmarkParser.parse_file] parses every chunk of the
    chunker without exception, one folder [Root] a chunk, when the text
    of each chunk reads back as a document with the same first DL and
    the copy of a DT is a DT with the same link.  The bookmarks at the
    root of these folders, taken in order, are then the links of all the
    DT elements below the first DL of the document, one for each DT that
    has a link of its own and in document order, those of the DT elements
    inside folders too. *)
Theorem opera_parse_file_lists_every_link :
  forall (reparse_dt reparse_chunk : Node -> Node)
         (self : Opera.OperaBookmarkParser) (soup : Node),
    (forall chunk,
        In chunk (chunk_content reparse_dt (Opera.chunker self) soup) ->
        find "dl" (reparse_chunk chunk) = find "dl" chunk) ->
    (forall dt, In dt (all_dt soup) ->
                is_tag "dt" (reparse_dt dt) = true
                /\ link Opera.browser_name (reparse_dt dt)
                   = link Opera.browser_name dt) ->
    exists folders,
      Opera.parse_file reparse_dt reparse_chunk self soup = (folders, None)
      /\ List.length folders
         = List.length (chunk_content reparse_dt (Opera.chunker self) soup)
      /\ Forall (fun folder => folder_title folder = "Root"%string) folders
      /\ List.concat (map folder_bookmarks folders)
         = map to_dict (flat_map (link Opera.browser_name) (all_dt soup)).
Proof.
  intros reparse_dt reparse_chunk self soup Hchunk Hdt.
  destruct (chunks_reproduce_parts reparse_dt (Opera.chunker self) soup)
    as [E S].
  destruct (opera_parses_chunks _ S) as (folders & Y & B & T).
  exists folders. unfold Opera.parse_file.
  rewrite (map_ext_in _ Opera.parse_content)
    by (intros chunk I; unfold Opera.parse_content;
        now rewrite (Hchunk chunk I)).
  split; [exact Y|]. split; [|split; [exact T|]].
  - apply (f_equal (@List.length _)) in B. now rewrite !length_map in B.
  - rewrite B, <- (map_map _ (map to_dict)), concat_map_map.
    rewrite <- (map_map chunk_elements), <- flat_map_concat, E.
    f_equal. clear - Hdt.
    induction (all_dt soup) as [|dt dts IH]; [reflexivity|].
    cbn [map flat_map].
    destruct (Hdt dt (or_introl eq_refl)) as [-> ->].
    rewrite IH; [reflexivity|]. intros d Hd. apply Hdt. now right.
Qed.

(** Witness of [opera_parse_file_lists_every_link]: a folder with two
    bookmarks and a bookmark after it, two a chunk. *)
Lemma opera_parse_file_lists_every_link_witness :
  (forall chunk,
      In chunk (chunk_content Fixtures.same
                  {| max_bookmarks_per_chunk := 2 |} Fixtures.with_folder) ->
      find "dl" (Fixtures.same chunk) = find "dl" chunk)
  /\ (forall dt, In dt (all_dt Fixtures.with_folder) ->
                 is_tag "dt" (Fixtures.same dt) = true
                 /\ link Opera.browser_name (Fixtures.same dt)
                    = link Opera.browser_name dt)
  /\ exists folders,
       Opera.parse_file Fixtures.same Fixtures.same
         {| Opera.chunker := {| max_bookmarks_per_chunk := 2 |} |}
         Fixtures.with_folder
       = (folders, None)
       /\ List.length (List.concat (map folder_bookmarks folders)) = 3%nat.
Proof.
  assert (H1 : forall chunk,
             In chunk (chunk_content Fixtures.same
                         {| max_bookmarks_per_chunk := 2 |}
                         Fixtures.with_folder) ->
             find "dl" (Fixtures.same chunk) = find "dl" chunk)
    by reflexivity.
  assert (H2 : forall dt, In dt (all_dt Fixtures.with_folder) ->
                 is_tag "dt" (Fixtures.same dt) = true
                 /\ link Opera.browser_name (Fixtures.same dt)
                    = link Opera.browser_name dt).
  { intros dt Hdt. split; [|reflexivity].
    cbn in Hdt. repeat (destruct Hdt as [<-|Hdt]; [reflexivity|]).
    destruct Hdt. }
  split; [exact H1|]. split; [exact H2|].
  destruct (opera_parse_file_lists_every_link Fixtures.same Fixtures.same
              {| Opera.chunker := {| max_bookmarks_per_chunk := 2 |} |}
              Fixtures.with_folder H1 H2) as (folders & Y & _ & _ & B).
  exists folders. split; [exact Y|]. rewrite B. reflexivity.
Defined.

(** X16. The Opera parser fails exactly on a document without DL, with
    "missing root DL element"; otherwise it returns a folder [Root]
    whose own bookmarks are the links of the DT children of the first DL,
    in order, and of no DT further down. *)
Theorem opera_parser_outcome :
  forall (soup : Node),
    (find "dl" soup = None ->
     Opera.parse_content soup
     = Throw (Exc "ValueError"
                "Failed to parse Opera bookmarks: Not a valid bookmark file: missing root DL element"))
    /\ (forall root_dl,
          find "dl" soup = Some root_dl ->
          exists subfolders,
            Opera.parse_content soup
            = Return (Folder "Root"
                        (map to_dict
                           (flat_map (link Opera.browser_name)
                              (filter (is_tag "dt") (contents root_dl))))
                        subfolders)).
Proof.
  intros soup. unfold Opera.parse_content. split.
  - intros ->. reflexivity.
  - intros root_dl ->.
    assert (B : fst (Opera.parse_folder root_dl)
                = flat_map (link Opera.browser_name)
                    (filter (is_tag "dt") (contents root_dl))).
    { destruct root_dl as [| |name attrs children]; try reflexivity.
      rewrite parse_folder_bookmarks. cbn [contents].
      induction children as [|c children IH]; [reflexivity|].
      cbn [flat_map filter]. destruct (is_tag "dt" c); cbn [flat_map app];
        now rewrite IH. }
    destruct (Opera.parse_folder root_dl) as [bookmarks subfolders].
    cbn [fst] in B. subst bookmarks. exists subfolders. reflexivity.
Qed.

End ParserFacts.

(** * Properties of the route [/import] *)

Module ImportFacts.
Import Soup SoupChildren Py Builtins Parsers Chunker Backend ParserFacts.
Local Open Scope list_scope.

Lemma extract_throws_on_bookmark folder :
  folder_bookmarks folder <> [] ->
  extract_bookmarks folder
  = Throw (Exc "AttributeError" "'dict' object has no attribute 'url'").
Proof.
  destruct folder as [title [|b bookmarks] subfolders];
    cbn [folder_bookmarks]; [congruence|].
  intros _. reflexivity.
Qed.

Lemma import_succeeds_empty float_is_true
    (parse_content : Node -> Outcome BookmarkFolder) soup valid_bookmarks :
  and_then (parse_content soup) (fun root_folder =>
  and_then (extract_bookmarks root_folder) (fun bookmarks =>
  Return (validate_bookmarks float_is_true bookmarks)))
  = Return valid_bookmarks ->
  valid_bookmarks = [].
Proof.
  destruct (parse_content soup) as [folder|e]; [|discriminate].
  cbn [and_then].
  destruct (extract_bookmarks folder) as [bookmarks|e] eqn:E; [|discriminate].
  apply extract_returns_nothing in E. destruct E as [-> _].
  cbn. congruence.
Qed.

(** X17. The route [/import] never returns a bookmark: when it reports
    success, its list is empty and its message counts 0 bookmarks; when
    the parser of the browser finds a bookmark at the root, the answer is
    the failure "'dict' object has no attribute 'url'"; and a browser
    other than chrome and opera, in any case of letters, is refused
    by name. *)
Theorem import_route_returns_no_bookmark :
  forall (float_is_true : string -> bool) (soup : Node) (browser : string),
    (success (import_bookmarks float_is_true soup browser) = true ->
     import_bookmarks float_is_true soup browser
     = {| success := true;
          message := "Successfully imported 0 bookmarks";
          data := Some [] |})
    /\ (forall folder,
          (lower browser = "chrome"%string
           /\ Chrome.parse_content soup = Return folder)
          \/ (lower browser = "opera"%string
              /\ Opera.parse_content soup = Return folder) ->
          folder_bookmarks folder <> [] ->
          import_bookmarks float_is_true soup browser
          = {| success := false;
               message := "Error: 'dict' object has no attribute 'url'";
               data := None |})
    /\ (lower browser <> "chrome"%string ->
        lower browser <> "opera"%string ->
        import_bookmarks float_is_true soup browser
        = {| success := false;
             message := "Unsupported browser: " ++ browser;
             data := None |}).
Proof.
  intros float_is_true soup browser. unfold import_bookmarks.
  split; [|split].
  - destruct (String.eqb (lower browser) "chrome");
      [|destruct (String.eqb (lower browser) "opera")];
      cbv zeta; cbv iota;
      try (match goal with
           | |- context [and_then (?parse soup) ?k] =>
               destruct (and_then (parse soup) k) as [valid_bookmarks|e] eqn:E
           end;
           [apply import_succeeds_empty in E; subst; intros _; reflexivity
           | cbn; discriminate]).
    cbn. discriminate.
  - intros folder [[B P]|[B P]] NE; rewrite B; cbn [String.eqb Ascii.eqb Bool.eqb];
      cbv zeta; cbv iota; rewrite P; cbn [and_then];
      rewrite (extract_throws_on_bookmark folder NE); reflexivity.
  - intros C O. apply String.eqb_neq in C, O. rewrite C, O. reflexivity.
Qed.

End ImportFacts.

(** * Properties of the route [/api/export-bookmarks] *)

Module ExportFacts.
Import Py Builtins Backend PyFacts Measures.
Local Open Scope list_scope.

Lemma for_each_returns {A B} (f : A -> Outcome B) : forall l ys,
  for_each f l = Return ys -> Forall2 (fun x y => f x = Return y) l ys.
Proof.
  induction l as [|x l IH]; intros ys H; cbn [for_each] in H.
  - inversion H. constructor.
  - destruct (f x) as [y|e] eqn:F; [|discriminate H]. cbn [and_then] in H.
    destruct (for_each f l) as [rest|e]; [|discriminate H].
    inversion H; subst. constructor; [exact F | now apply IH].
Qed.

Lemma for_each_total {A B} (f : A -> Outcome B) : forall l,
  Forall (fun x => exists y, f x = Return y) l ->
  exists ys, for_each f l = Return ys.
Proof.
  induction l as [|x l IH]; intros H; [now exists []|].
  inversion H as [|? ? [y F] Hl]; subst. destruct (IH Hl) as [ys E].
  exists (y :: ys). cbn [for_each]. now rewrite F, E.
Qed.

Lemma for_each_throws {A B} (f : A -> Outcome B) : forall l e,
  for_each f l = Throw e -> exists x, In x l /\ f x = Throw e.
Proof.
  induction l as [|x l IH]; intros e H; cbn [for_each] in H; [discriminate H|].
  destruct (f x) as [y|e'] eqn:F; cbn [and_then] in H.
  - destruct (for_each f l) as [rest|e'']; [discriminate H|].
    inversion H; subst. destruct (IH e eq_refl) as (x' & I & T).
    exists x'. split; [now right | exact T].
  - inversion H; subst. exists x. split; [now left | exact F].
Qed.

Lemma filter_concat {A} (p : A -> bool) : forall l : list (list A),
  filter p (List.concat l) = List.concat (map (filter p) l).
Proof.
  induction l as [|x l IH]; simpl; [reflexivity|].
  now rewrite filter_app, IH.
Qed.

Lemma prefix_append (p s : string) : String.prefix p (p ++ s)%string = true.
Proof.
  induction p as [|c p IH]; [destruct s; reflexivity|].
  cbn [append String.prefix].
  destruct (Ascii.ascii_dec c c); [exact IH | congruence].
Qed.

Section ExportRoute.
Variable float_is_true : string -> bool.
Variable str_of_value : JSON -> string.

Abbreviation bookmark_lines := (bookmark_lines float_is_true str_of_value).
Abbreviation category_lines := (category_lines float_is_true str_of_value).
Abbreviation export_html := (export_html float_is_true str_of_value).

Abbreviation complete :=
  (fun b : dict JSON => contains "url" b = true /\ contains "title" b = true).

Lemma bookmark_lines_returns b :
  (exists lines, bookmark_lines b = Return lines) <-> complete b.
Proof.
  unfold Backend.bookmark_lines, getitem. rewrite !contains_get.
  destruct (get "url" b); cbn [and_then];
    [destruct (get "title" b); cbn [and_then]|].
  - split; [now split | intros _; eexists; reflexivity].
  - split; [intros [? H]; discriminate H | intros [_ H]; discriminate H].
  - split; [intros [? H]; discriminate H | intros [H _]; discriminate H].
Qed.

Lemma bookmark_lines_throws b e :
  bookmark_lines b = Throw e ->
  e = Exc "KeyError" "'url'" \/ e = Exc "KeyError" "'title'".
Proof.
  unfold Backend.bookmark_lines, getitem.
  destruct (get "url" b); cbn [and_then];
    [destruct (get "title" b); cbn [and_then]|]; intros H; inversion H.
  - now right.
  - now left.
Qed.

Lemma line_kinds (attributes description : string) (described : bool) :
  let lines :=
    ("        <DT><A " ++ attributes)%string
    :: (if described then [("        <DD>" ++ description)%string] else []) in
  filter is_folder_line lines = []
  /\ List.length (filter is_bookmark_line lines) = 1%nat.
Proof.
  cbv zeta. cbn [filter].
  replace (is_bookmark_line ("        <DT><A " ++ attributes))
    with true by (symmetry; apply prefix_append).
  destruct described; split; reflexivity.
Qed.

Lemma bookmark_lines_shape b lines :
  bookmark_lines b = Return lines ->
  filter is_folder_line lines = []
  /\ List.length (filter is_bookmark_line lines) = 1%nat.
Proof.
  unfold Backend.bookmark_lines, getitem.
  destruct (get "url" b); cbn [and_then]; [|discriminate].
  destruct (get "title" b); cbn [and_then]; [|discriminate].
  intros H. injection H as <-.
  apply line_kinds.
Qed.

Lemma category_lines_returns entry :
  (exists lines, category_lines entry = Return lines)
  <-> Forall complete (snd entry).
Proof.
  unfold Backend.category_lines. split.
  - intros [lines H].
    destruct (for_each bookmark_lines (snd entry)) as [ls|e] eqn:F;
      [|discriminate H].
    apply for_each_returns in F. clear H.
    induction F as [|b l bs ls Hb _ IH]; constructor; [|exact IH].
    apply bookmark_lines_returns. now exists l.
  - intros H.
    destruct (for_each_total bookmark_lines (snd entry)) as [ls F].
    + apply Forall_forall. intros b Hb. apply bookmark_lines_returns.
      now apply (proj1 (Forall_forall _ _) H).
    + rewrite F. eexists. reflexivity.
Qed.

Lemma category_lines_throws entry e :
  category_lines entry = Throw e ->
  e = Exc "KeyError" "'url'" \/ e = Exc "KeyError" "'title'".
Proof.
  unfold Backend.category_lines. intros H.
  destruct (for_each bookmark_lines (snd entry)) as [ls|e'] eqn:F;
    [discriminate H|].
  inversion H; subst. apply for_each_throws in F.
  destruct F as (b & _ & T). exact (bookmark_lines_throws b e T).
Qed.

Lemma block_kinds (category : string) (inner : list string) :
  filter is_folder_line inner = [] ->
  let block :=
    [ ("    <DT><H3>" ++ category ++ "</H3>")%string; "    <DL><p>"%string ]
    ++ inner ++ [ "    </DL><p>"%string ] in
  filter is_folder_line block
  = [ ("    <DT><H3>" ++ category ++ "</H3>")%string ]
  /\ List.length (filter is_bookmark_line block)
     = List.length (filter is_bookmark_line inner).
Proof.
  intros S1. cbv zeta. cbn [List.app filter].
  replace (is_folder_line ("    <DT><H3>" ++ category ++ "</H3>"))
    with true by (symmetry; apply prefix_append).
  replace (is_bookmark_line ("    <DT><H3>" ++ category ++ "</H3>"))
    with false by reflexivity.
  replace (is_folder_line "    <DL><p>") with false by reflexivity.
  replace (is_bookmark_line "    <DL><p>") with false by reflexivity.
  rewrite !filter_app, S1, length_app.
  split; [reflexivity|]. cbn. lia.
Qed.

Lemma category_lines_shape entry lines :
  category_lines entry = Return lines ->
  filter is_folder_line lines = [ ("    <DT><H3>" ++ fst entry ++ "</H3>")%string ]
  /\ List.length (filter is_bookmark_line lines) = List.length (snd entry).
Proof.
  unfold Backend.category_lines. intros H.
  destruct (for_each bookmark_lines (snd entry)) as [ls|e] eqn:F;
    [|discriminate H].
  apply for_each_returns in F.
  assert (S : filter is_folder_line (List.concat ls) = []
              /\ List.length (filter is_bookmark_line (List.concat ls))
                 = List.length (snd entry)).
  { clear H. induction F as [|b l bs ls' Hb _ [IH1 IH2]]; [now split|].
    destruct (bookmark_lines_shape b l Hb) as [S1 S2].
    cbn [List.concat]. rewrite !filter_app, S1, IH1, length_app, S2, IH2.
    now split. }
  destruct S as [S1 S2].
  destruct (block_kinds (fst entry) (List.concat ls) S1) as [B1 B2].
  injection H as <-. split; [exact B1|]. rewrite <- S2. exact B2.
Qed.

Lemma file_kinds (inner : list string) :
  let html := header ++ inner ++ [ "</DL><p>"%string ] in
  filter is_folder_line html = filter is_folder_line inner
  /\ List.length (filter is_bookmark_line html)
     = List.length (filter is_bookmark_line inner)
  /\ firstn 5 html = header
  /\ last html EmptyString = "</DL><p>"%string.
Proof.
  cbv zeta. rewrite !filter_app.
  replace (filter is_folder_line header) with (@nil string) by reflexivity.
  replace (filter is_bookmark_line header) with (@nil string) by reflexivity.
  replace (filter is_folder_line ["</DL><p>"%string]) with (@nil string)
    by reflexivity.
  replace (filter is_bookmark_line ["</DL><p>"%string]) with (@nil string)
    by reflexivity.
  rewrite !app_nil_r. repeat split.
  rewrite app_assoc. apply last_last.
Qed.

Lemma export_html_returns categories :
  (exists html, export_html categories = Return html)
  <-> categories <> [] /\ Forall (fun entry => Forall complete (snd entry))
                                 categories.
Proof.
  destruct categories as [|entry rest].
  - cbn. split; [intros [? H]; discriminate H | intros [H _]; congruence].
  - set (categories := entry :: rest). unfold Backend.export_html.
    change (match categories with
            | [] => Throw (Exc "ValueError" "No categories provided")
            | _ :: _ =>
                and_then (for_each category_lines categories) (fun blocks =>
                Return (List.app header
                          (List.app (List.concat blocks) [ "</DL><p>"%string ])))
            end)
      with (and_then (for_each category_lines categories) (fun blocks =>
            Return (List.app header
                      (List.app (List.concat blocks) [ "</DL><p>"%string ])))).
    split.
    + intros [html H]. split; [discriminate|].
      destruct (for_each category_lines categories) as [blocks|e] eqn:F;
        [|discriminate H].
      apply for_each_returns in F. clear H.
      induction F as [|c l cs ls Hc _ IH]; constructor; [|exact IH].
      apply category_lines_returns. now exists l.
    + intros [_ H].
      destruct (for_each_total category_lines categories) as [blocks F].
      * apply Forall_forall. intros c Hc. apply category_lines_returns.
        now apply (proj1 (Forall_forall _ _) H).
      * rewrite F. eexists. reflexivity.
Qed.

Lemma export_html_throws categories e :
  export_html categories = Throw e ->
  e = Exc "ValueError" "No categories provided"
  \/ e = Exc "KeyError" "'url'" \/ e = Exc "KeyError" "'title'".
Proof.
  destruct categories as [|entry rest]; [intros H; inversion H; now left|].
  unfold Backend.export_html. intros H.
  destruct (for_each category_lines (entry :: rest)) as [blocks|e'] eqn:F;
    [discriminate H|].
  inversion H; subst. apply for_each_throws in F.
  destruct F as (c & _ & T). right. exact (category_lines_throws c e T).
Qed.

Lemma export_html_shape categories html :
  export_html categories = Return html ->
  filter is_folder_line html
  = map (fun category => ("    <DT><H3>" ++ category ++ "</H3>")%string)
        (keys categories)
  /\ List.length (filter is_bookmark_line html)
     = List.length (flat_map snd categories)
  /\ firstn 5 html = header
  /\ last html EmptyString = "</DL><p>"%string.
Proof.
  destruct categories as [|entry rest]; [discriminate|].
  unfold Backend.export_html. intros H.
  destruct (for_each category_lines (entry :: rest)) as [blocks|e] eqn:F;
    [|discriminate H].
  apply for_each_returns in F.
  assert (S : filter is_folder_line (List.concat blocks)
              = map (fun category =>
                       ("    <DT><H3>" ++ category ++ "</H3>")%string)
                    (keys (entry :: rest))
              /\ List.length (filter is_bookmark_line (List.concat blocks))
                 = List.length (flat_map snd (entry :: rest))).
  { clear H. induction F as [|c l cs ls Hc _ [IH1 IH2]]; [now split|].
    destruct (category_lines_shape c l Hc) as [S1 S2].
    cbn [List.concat flat_map keys map].
    rewrite !filter_app, S1, !length_app, S2, IH2.
    unfold keys in IH1. rewrite IH1. now split. }
  destruct S as [S1 S2].
  destruct (file_kinds (List.concat blocks)) as (K1 & K2 & K3 & K4).
  injection H as <-.
  split; [rewrite <- S1; exact K1|].
  split; [rewrite <- S2; exact K2|].
  split; [exact K3 | exact K4].
Qed.

End ExportRoute.

(** X18. The route [/api/export-bookmarks] answers with a file exactly
    when there is a category and every bookmark of every category has
    the keys [url] and [title]. *)
Theorem export_answers_iff_bookmarks_are_complete :
  forall (float_is_true : string -> bool) (str_of_value : JSON -> string)
         (categories : dict (list (dict JSON))),
    (exists content,
        export_bookmarks float_is_true str_of_value categories
        = Response content)
    <-> categories <> []
        /\ Forall (fun entry =>
                     Forall (fun bookmark =>
                               contains "url" bookmark = true
                               /\ contains "title" bookmark = true)
                            (snd entry))
                  categories.
Proof.
  intros float_is_true str_of_value categories.
  rewrite <- export_html_returns with (float_is_true := float_is_true)
                                      (str_of_value := str_of_value).
  unfold export_bookmarks.
  destruct (Backend.export_html float_is_true str_of_value categories)
    as [html|e].
  - split; intros _; eexists; reflexivity.
  - split; intros [? H]; discriminate H.
Qed.

(** X19. When the route [/api/export-bookmarks] does not answer with a
    file, it raises an [HTTPException] of status 500, whose detail is
    "Failed to export bookmarks: " followed by "No categories provided" or
    by the name in quotes of a missing key, [url] or [title]. *)
Theorem export_failure_is_status_500 :
  forall (float_is_true : string -> bool) (str_of_value : JSON -> string)
         (categories : dict (list (dict JSON)))
         (status_code : Z) (detail : string),
    export_bookmarks float_is_true str_of_value categories
    = HTTPException status_code detail ->
    status_code = 500
    /\ (detail = "Failed to export bookmarks: No categories provided"%string
        \/ detail = "Failed to export bookmarks: 'url'"%string
        \/ detail = "Failed to export bookmarks: 'title'"%string).
Proof.
  intros float_is_true str_of_value categories status_code detail.
  unfold export_bookmarks.
  destruct (Backend.export_html float_is_true str_of_value categories)
    as [html|e] eqn:E; [discriminate|].
  intros H. inversion H; subst. split; [reflexivity|].
  destruct (export_html_throws _ _ _ _ E) as [-> | [-> | ->]]; cbn; tauto.
Qed.

(** Witness of [export_failure_is_status_500]: a bookmark without title. *)
Lemma export_failure_is_status_500_witness :
  export_bookmarks (fun _ => true) (fun _ => EmptyString)
    [("Dev"%string, [[("url"%string, JStr "https://a.example")]])]
  = HTTPException 500 "Failed to export bookmarks: 'title'"
  /\ 500 = 500.
Proof.
  split; [reflexivity|].
  exact (proj1 (export_failure_is_status_500
                  (fun _ => true) (fun _ => EmptyString)
                  [("Dev"%string, [[("url"%string, JStr "https://a.example")]])]
                  500 "Failed to export bookmarks: 'title'" eq_refl)).
Defined.

(** X20. Of the list [html] that [export_bookmarks] joins with line
    feeds into the file: its elements that open a folder are one for each
    category, in the order of the categories; its elements that are the
    entry of a bookmark are as many as the bookmarks; its first five
    elements are the header and its last element closes the list.  This
    is about the elements of the list, not about the lines of the text
    they are joined into. *)
Theorem exported_file_lists_categories_and_bookmarks :
  forall (float_is_true : string -> bool) (str_of_value : JSON -> string)
         (categories : dict (list (dict JSON))) (html : list string),
    export_html float_is_true str_of_value categories = Return html ->
    filter is_folder_line html
    = map (fun category => ("    <DT><H3>" ++ category ++ "</H3>")%string)
          (keys categories)
    /\ List.length (filter is_bookmark_line html)
       = List.length (flat_map snd categories)
    /\ firstn 5 html = header
    /\ last html EmptyString = "</DL><p>"%string.
Proof.
  intros float_is_true str_of_value categories html.
  apply export_html_shape.
Qed.

(** Witness of [exported_file_lists_categories_and_bookmarks]: two
    categories, the first with a described bookmark. *)
Lemma exported_file_lists_categories_and_bookmarks_witness :
  exists html,
    export_html (fun _ => true) (fun _ => EmptyString)
      [("Dev"%string,
        [[("url"%string, JStr "https://a.example");
          ("title"%string, JStr "A");
          ("description"%string, JStr "<DT><H3>")]]);
       ("News"%string, [])]
    = Return html
    /\ filter is_folder_line html
       = [ "    <DT><H3>Dev</H3>"%string; "    <DT><H3>News</H3>"%string ]
    /\ List.length (filter is_bookmark_line html) = 1%nat.
Proof.
  eexists. split; [vm_compute; reflexivity|].
  destruct (exported_file_lists_categories_and_bookmarks
              (fun _ => true) (fun _ => EmptyString)
              [("Dev"%string,
                [[("url"%string, JStr "https://a.example");
                  ("title"%string, JStr "A");
                  ("description"%string, JStr "<DT><H3>")]]);
               ("News"%string, [])]
              _ eq_refl) as (F & B & _).
  split; [exact F | exact B].
Defined.

End ExportFacts.

(** * Properties of the structure agent and of its route *)

Module StructureFacts.
Import Py Builtins Backend PyFacts.
Local Open Scope list_scope.

Section Agent.
Variable str_of_value : JSON -> string.
Variable json_loads : string -> option JSON.
Variable _process : string -> dict JSON -> option string.

Lemma structure_cases bookmarks existing_structure :
  exists structure,
    Structure.optimize_structure str_of_value json_loads _process
      bookmarks existing_structure = JDict structure
    /\ contains "folders" structure = true
    /\ (bookmarks = [] /\ structure = [("folders"%string, JList [])]
        \/ bookmarks <> []
           /\ (JDict structure = Structure.flat_structure bookmarks
               \/ exists response,
                    json_loads response = Some (JDict structure))).
Proof.
  unfold Structure.optimize_structure.
  destruct bookmarks as [|b rest].
  - eexists. split; [reflexivity|]. split; [reflexivity|]. now left.
  - set (bookmarks := b :: rest).
    destruct (_process _ _) as [response|].
    + destruct (json_loads response) as [[| | | | | |structure]|] eqn:J;
        try (eexists; split; [reflexivity|]; split; [reflexivity|];
             right; split; [discriminate | now left]).
      destruct (contains "folders" structure) eqn:C.
      * exists structure. split; [reflexivity|]. split; [exact C|].
        right. split; [discriminate|]. right. now exists response.
      * eexists; split; [reflexivity|]; split; [reflexivity|];
          right; split; [discriminate | now left].
    + eexists; split; [reflexivity|]; split; [reflexivity|];
        right; split; [discriminate | now left].
Qed.

End Agent.


(** X22. The route [/optimize-structure] always reports success, with a
    structure that has the key [folders], whatever the model does. *)
Theorem optimize_route_always_succeeds :
  forall (str_of_value : JSON -> string)
         (json_loads : string -> option JSON)
         (_process : string -> dict JSON -> option string)
         (bookmarks : list (dict JSON))
         (categories : dict (list (dict JSON))),
  exists structure,
    optimize_structure str_of_value json_loads _process bookmarks categories
    = {| success := true;
         message := "Folder structure optimized successfully";
         data := Some [("structure"%string, JDict structure)] |}
    /\ contains "folders" structure = true.
Proof.
  intros. unfold optimize_structure, Structure.process.
  destruct (structure_cases str_of_value json_loads _process
              (categorized_bookmarks categories) None)
    as (structure & E & C & _).
  exists structure. now rewrite E.
Qed.

(** X23. The bookmarks the route [/optimize-structure] sends to the
    agent are all the bookmarks of all the categories in order, each with
    its category under the key [category] and every other key as it
    was. *)
Theorem bookmarks_are_sent_with_their_category :
  forall (categories : dict (list (dict JSON))),
    map (get "category") (categorized_bookmarks categories)
    = flat_map (fun entry => map (fun _ => Some (JStr (fst entry))) (snd entry))
               categories
    /\ forall key, key <> "category"%string ->
         map (get key) (categorized_bookmarks categories)
         = map (get key) (flat_map snd categories).
Proof.
  intros categories. unfold categorized_bookmarks. split.
  - induction categories as [|[category bookmarks] rest IH]; [reflexivity|].
    cbn [flat_map fst snd]. rewrite map_app, IH. f_equal.
    rewrite map_map. apply map_ext. intros b. apply get_setitem_same.
  - intros key Hkey.
    induction categories as [|[category bookmarks] rest IH]; [reflexivity|].
    cbn [flat_map fst snd]. rewrite !map_app, IH. f_equal.
    rewrite map_map. apply map_ext. intros b. now apply get_setitem_other.
Qed.

End StructureFacts.
